(** * Signaling and room-state engine of the video-stream backend

    A shallow embedding of [src/sockets/index.ts] ([initSocket]): the six
    process-wide stores, the socket.io transport the handlers talk to, and the
    event handlers themselves, followed by the properties of the
    specification that concern them.

    Conventions of the embedding.
    - A JavaScript [Map<string, V>] whose iteration order is never observed
      is a [gmap string V].
    - A JavaScript [Set<string>] is an insertion-ordered list without
      duplicates ([set_add], [set_delete]); [Array.from(set)] is the list.
    - Objects stored in a [Map] and mutated in place ([user.isMuted = ...])
      are updated in the map under their key.
    - [Date.now()] and [getCurrentTimestamp()] are the [now] argument of a
      handler, a number of milliseconds.
    - Every handler returns the new server state and the list of emissions it
      issued, in order. *)

From stdpp Require Import gmap strings list fin_maps.
From Stdlib Require Import ZArith Ascii.

Local Open Scope string_scope.
Local Open Scope list_scope.
Local Open Scope nat_scope.

(** ** Data model *)

Inductive Status := online | offline.

Module User.
Record t := mk {
  id : string;
  name : string;
  roomId : string;
  joinedAt : Z;
  lastSeen : Z;
  status : Status;
  isMuted : bool;
  isVideoOff : bool;
  isHost : bool;
  isRaiseHand : bool
}.

Definition set_name (v : string) (u : t) : t :=
  mk (id u) v (roomId u) (joinedAt u) (lastSeen u) (status u)
     (isMuted u) (isVideoOff u) (isHost u) (isRaiseHand u).
Definition set_isMuted (v : bool) (u : t) : t :=
  mk (id u) (name u) (roomId u) (joinedAt u) (lastSeen u) (status u)
     v (isVideoOff u) (isHost u) (isRaiseHand u).
Definition set_isVideoOff (v : bool) (u : t) : t :=
  mk (id u) (name u) (roomId u) (joinedAt u) (lastSeen u) (status u)
     (isMuted u) v (isHost u) (isRaiseHand u).
Definition set_isHost (v : bool) (u : t) : t :=
  mk (id u) (name u) (roomId u) (joinedAt u) (lastSeen u) (status u)
     (isMuted u) (isVideoOff u) v (isRaiseHand u).
Definition set_isRaiseHand (v : bool) (u : t) : t :=
  mk (id u) (name u) (roomId u) (joinedAt u) (lastSeen u) (status u)
     (isMuted u) (isVideoOff u) (isHost u) v.
End User.

Module ConnectionHealth.
Record t := mk {
  connectedAt : Z;
  lastPing : Z;
  pingCount : nat;
  reconnectCount : nat;
  isHealthy : bool;
  latency : option Z
}.
End ConnectionHealth.

(** The stores declared at the top of [initSocket], and the two pieces of
    socket.io state the handlers read or change: [io.sockets.sockets] (socket
    id to its [connected] flag) and the adapter's rooms (room name to the ids
    of the sockets that joined it; every socket joins the room named by its
    own id when it connects). *)
Record Server := mkServer {
  connectedUsers : gmap string User.t;
  userSessions : gmap string (list string);
  rooms : gmap string (list string);
  roomHosts : gmap string string;
  roomCreators : gmap string string;
  connectionHealth : gmap string ConnectionHealth.t;
  sockets : gmap string bool;
  adapterRooms : gmap string (gset string)
}.

Definition MAX_ROOM_SIZE : nat := 50.
Definition MAX_TOTAL_USERS : nat := 1000.
Definition staleThreshold : Z := 5 * 60 * 1000.

Definition initial : Server :=
  mkServer ∅ ∅ ∅ ∅ ∅ ∅ ∅ ∅.

Definition with_connectedUsers (f : gmap string User.t → gmap string User.t) (s : Server) : Server :=
  mkServer (f (connectedUsers s)) (userSessions s) (rooms s) (roomHosts s)
           (roomCreators s) (connectionHealth s) (sockets s) (adapterRooms s).
Definition with_userSessions (f : gmap string (list string) → gmap string (list string)) (s : Server) : Server :=
  mkServer (connectedUsers s) (f (userSessions s)) (rooms s) (roomHosts s)
           (roomCreators s) (connectionHealth s) (sockets s) (adapterRooms s).
Definition with_rooms (f : gmap string (list string) → gmap string (list string)) (s : Server) : Server :=
  mkServer (connectedUsers s) (userSessions s) (f (rooms s)) (roomHosts s)
           (roomCreators s) (connectionHealth s) (sockets s) (adapterRooms s).
Definition with_roomHosts (f : gmap string string → gmap string string) (s : Server) : Server :=
  mkServer (connectedUsers s) (userSessions s) (rooms s) (f (roomHosts s))
           (roomCreators s) (connectionHealth s) (sockets s) (adapterRooms s).
Definition with_roomCreators (f : gmap string string → gmap string string) (s : Server) : Server :=
  mkServer (connectedUsers s) (userSessions s) (rooms s) (roomHosts s)
           (f (roomCreators s)) (connectionHealth s) (sockets s) (adapterRooms s).
Definition with_connectionHealth (f : gmap string ConnectionHealth.t → gmap string ConnectionHealth.t) (s : Server) : Server :=
  mkServer (connectedUsers s) (userSessions s) (rooms s) (roomHosts s)
           (roomCreators s) (f (connectionHealth s)) (sockets s) (adapterRooms s).
Definition with_sockets (f : gmap string bool → gmap string bool) (s : Server) : Server :=
  mkServer (connectedUsers s) (userSessions s) (rooms s) (roomHosts s)
           (roomCreators s) (connectionHealth s) (f (sockets s)) (adapterRooms s).
Definition with_adapterRooms (f : gmap string (gset string) → gmap string (gset string)) (s : Server) : Server :=
  mkServer (connectedUsers s) (userSessions s) (rooms s) (roomHosts s)
           (roomCreators s) (connectionHealth s) (sockets s) (f (adapterRooms s)).

(** ** JavaScript helpers *)

(** [Set.prototype.add] and [Set.prototype.delete] on an insertion-ordered
    set. *)
Definition set_add (x : string) (l : list string) : list string :=
  if bool_decide (x ∈ l) then l else l ++ [x].

Definition set_delete (x : string) (l : list string) : list string :=
  filter (λ y, y ≠ x) l.

(** Truthiness of a string: only the empty string is falsy. *)
Definition truthy (x : string) : bool := negb (bool_decide (x = "")).

(** [a || b] on strings. *)
Definition str_or (a b : string) : string := if truthy a then a else b.

(** [s.includes(c)] for a one-character needle. *)
Fixpoint includes (c : ascii) (s : string) : bool :=
  match s with
  | EmptyString => false
  | String d r => bool_decide (d = c) || includes c r
  end.

(** [s.length]. A string is held as the bytes of its UTF-8 encoding, and
    JavaScript counts UTF-16 code units: a continuation byte [10xxxxxx]
    counts for none, the lead byte [11110xxx] of a four-byte sequence (a
    character outside the basic plane, a surrogate pair in JavaScript) for
    two, every other byte for one. *)
Definition utf16_units (c : ascii) : nat :=
  match c with
  | Ascii _ _ _ _ _ _ false true => 0
  | Ascii _ _ _ _ true true true true => 2
  | _ => 1
  end.

Fixpoint js_length (s : string) : nat :=
  match s with
  | EmptyString => 0
  | String c r => utf16_units c + js_length r
  end.

(** ** Transport: destinations and outbound events *)

(** socket.io is the library the server is built on. The part of it the
    handlers rely on follows its documented behaviour: a room is a named set
    of sockets; a socket is in the room named by its own id from the moment
    it connects and in every room it has joined with [socket.join]; it leaves
    all of them when it closes.

    The four ways a handler addresses an emission:
    [socket.emit] / [targetSocket.emit] (one socket), [io.to(room).emit]
    (every socket in the room), [socket.to(room).emit] (every socket in the
    room except the emitting socket) and [io.emit] (every socket). *)
Inductive Dest :=
| ToSocket (socketId : string)
| ToRoom (room : string)
| ToRoomExcept (room : string) (sender : string)
| ToAll.

Record Participant := mkParticipant {
  p_id : string;
  p_name : string;
  p_isMuted : bool;
  p_isVideoOff : bool;
  p_isHost : bool;
  p_isRaiseHand : bool
}.

Inductive Event :=
| ConnectionConfirmed (socketId : string) (serverTime : Z)
| JoinError (message : string)
| UserLeft (participantId userName : string) (timestamp : Z) (reason : string)
| UserJoined (p : Participant)
| HostStatusUpdate (hostId hostName : string)
| CurrentParticipants (ps : list Participant)
| ParticipantCount (n : nat)
| OfferEv (offer senderId : string)
| AnswerEv (answer senderId : string)
| IceCandidateEv (candidate senderId : string)
| UserMuted (participantId : string) (isMuted : bool)
| UserVideoToggled (participantId : string) (isVideoOff : bool)
| RaiseHandToggled (participantId : string) (isRaiseHand : bool)
| ReactionReceived (emoji senderId userName timestamp : string)
| ChatMessage (message senderId userName timestamp : string)
| HostChanged (newHostId newHostName previousHostId : string)
              (participants : list (string * bool))
| ParticipantRenamed (participantId oldName newName : string)
| ParticipantForceMuted (participantId : string) (mute : bool)
| ParticipantForceVideoToggle (participantId : string) (videoOff : bool)
| ForceDisconnect (reason message : string).

Definition Emission : Type := Dest * Event.

Definition Handler : Type := Server → Server * list Emission.

(** The sockets an emission is delivered to, given the adapter's rooms at the
    moment of the call. *)
Definition recipients (s : Server) (d : Dest) : gset string :=
  match d with
  | ToSocket i => if bool_decide (is_Some (sockets s !! i)) then {[ i ]} else ∅
  | ToRoom r => default ∅ (adapterRooms s !! r)
  | ToRoomExcept r sender => default ∅ (adapterRooms s !! r) ∖ {[ sender ]}
  | ToAll => dom (sockets s)
  end.

(** [socket.join(room)]. *)
Definition socket_join (sid room : string) (s : Server) : Server :=
  with_adapterRooms
    (λ a, <[room := {[ sid ]} ∪ default ∅ (a !! room)]> a) s.

(** What socket.io does to its own state when a socket closes: the socket
    leaves every room and is removed from [io.sockets.sockets]. *)
Definition socket_close (sid : string) (s : Server) : Server :=
  with_sockets (delete sid)
    (with_adapterRooms (fmap (λ members, members ∖ {[ sid ]})) s).

(** Running one handler per element of a snapshot array ([forEach]),
    threading the state and concatenating the emissions. *)
Fixpoint for_each {A : Type} (f : A → Handler) (l : list A) : Handler :=
  λ s,
    match l with
    | [] => (s, [])
    | x :: r =>
        let '(s1, o1) := f x s in
        let '(s2, o2) := for_each f r s1 in
        (s2, o1 ++ o2)
    end.

(** ** Connection health *)

(** [monitorConnection]: the health record created when a socket connects. *)
Definition monitorConnection (sid : string) (now : Z) (s : Server) : Server :=
  with_connectionHealth
    (<[sid := ConnectionHealth.mk now now 0 0 true None]>) s.

(** The [socket.once("pong")] listener of one ping round started at
    [startTime], when the pong arrives at [now]. *)
Definition pong_received (sid : string) (startTime now : Z) (s : Server) : Server :=
  with_connectionHealth
    (alter (λ h, ConnectionHealth.mk (ConnectionHealth.connectedAt h) now
                   (S (ConnectionHealth.pingCount h))
                   (ConnectionHealth.reconnectCount h) true
                   (Some (now - startTime)%Z)) sid) s.

(** The 15 second timeout of one ping round. *)
Definition ping_timeout (sid : string) (s : Server) : Server :=
  with_connectionHealth
    (alter (λ h, ConnectionHealth.mk (ConnectionHealth.connectedAt h)
                   (ConnectionHealth.lastPing h)
                   (ConnectionHealth.pingCount h)
                   (S (ConnectionHealth.reconnectCount h)) false
                   (ConnectionHealth.latency h)) sid) s.

(** A run of one of the two callbacks a ping round registers: the
    [once("pong")] listener of a round started at [startTime], run at [now],
    or the 15 second timeout. *)
Inductive MonitorEvent :=
| PongArrived (startTime now : Z)
| TimedOut.

(** One such event in the closure of [monitorConnection]: the health record
    and the [pingIntervalTime] variable are updated together, and only when
    the connection still has a health record. *)
Definition monitor_event (sid : string) (e : MonitorEvent) (st : Server * Z) : Server * Z :=
  let '(s, pingIntervalTime) := st in
  match connectionHealth s !! sid with
  | Some _ =>
      match e with
      | TimedOut =>
          (ping_timeout sid s, Z.max 15000 (pingIntervalTime - 5000))
      | PongArrived startTime now =>
          let latency := (now - startTime)%Z in
          (pong_received sid startTime now s,
           if (latency <? 100)%Z then Z.min 60000 (pingIntervalTime + 5000)
           else if (1000 <? latency)%Z then Z.max 15000 (pingIntervalTime - 2000)
           else pingIntervalTime)
      end
  | None => (s, pingIntervalTime)
  end.

Definition monitor_events (sid : string) (es : list MonitorEvent) (st : Server * Z) : Server * Z :=
  foldl (λ st e, monitor_event sid e st) st es.

Definition is_pong (e : MonitorEvent) : bool :=
  match e with PongArrived _ _ => true | TimedOut => false end.

(** ** The periodic sweep *)

Definition stale (now : Z) (h : ConnectionHealth.t) : bool :=
  bool_decide (staleThreshold < now - ConnectionHealth.lastPing h)%Z.

(** [performCleanup]: the first loop deletes the health record and the
    participant record of every stale connection; the second deletes the
    rooms whose set is empty. It emits nothing. *)
Definition performCleanup (now : Z) (s : Server) : Server :=
  let is_stale_id (i : string) : bool :=
    match connectionHealth s !! i with
    | Some h => stale now h
    | None => false
    end in
  let s1 :=
    with_connectedUsers (filter (λ kv, is_stale_id kv.1 = false))
      (with_connectionHealth (filter (λ kv, stale now kv.2 = false)) s) in
  with_rooms (filter (λ kv, length kv.2 ≠ 0)) s1.

(** ** Connect and disconnect *)

(** [io.on("connection")]: the transport registers the socket (it joins the
    room named by its own id), monitoring starts, and the confirmation is
    sent. *)
Definition on_connection (sid : string) (now : Z) : Handler :=
  λ s,
    let s1 := with_sockets (<[sid := true]>) (socket_join sid sid s) in
    (monitorConnection sid now s1,
     [(ToSocket sid, ConnectionConfirmed sid now)]).

(** "Remove from user sessions" in the disconnect handler. *)
Definition disconnect_sessions (sid : string) (user : User.t) (s : Server) : Server :=
  match userSessions s !! User.name user with
  | Some userSessionSet =>
      let remaining := set_delete sid userSessionSet in
      if bool_decide (length remaining = 0)
      then with_userSessions (delete (User.name user)) s
      else with_userSessions (<[User.name user := remaining]>) s
  | None => s
  end.

(** The [participants] vector of a [host-changed] event. *)
Definition host_vector (newHostId : string) (members : list string) : list (string * bool) :=
  map (λ i, (i, bool_decide (i = newHostId))) members.

(** "If user was host and others remain, transfer host to next user". *)
Definition disconnect_elect (sid : string) (user : User.t) (roomSockets : list string) : Handler :=
  λ s,
    if User.isHost user && negb (bool_decide (length roomSockets = 0)) then
      match head roomSockets with
      | Some nextHostId =>
          match connectedUsers s !! nextHostId with
          | Some nextHost =>
              (with_connectedUsers (<[nextHostId := User.set_isHost true nextHost]>)
                 (with_roomHosts (<[User.roomId user := nextHostId]>) s),
               [(ToRoom (User.roomId user),
                 HostChanged nextHostId (User.name nextHost) sid
                   (host_vector nextHostId roomSockets))])
          | None => (s, [])
          end
      | None => (s, [])
      end
    else (s, []).

(** "Remove from room tracking" in the disconnect handler. *)
Definition disconnect_room (sid : string) (user : User.t) : Handler :=
  λ s,
    match rooms s !! User.roomId user with
    | Some members =>
        let roomSockets := set_delete sid members in
        let '(s1, out) :=
          disconnect_elect sid user roomSockets
            (with_rooms (<[User.roomId user := roomSockets]>) s) in
        (if bool_decide (length roomSockets = 0)
         then with_roomCreators (delete (User.roomId user))
                (with_roomHosts (delete (User.roomId user))
                   (with_rooms (delete (User.roomId user)) s1))
         else s1,
         out)
    | None => (s, [])
    end.

(** The [socket.on("disconnect")] handler registered in [io.on("connection")]. *)
Definition on_disconnect (sid reason : string) (now : Z) : Handler :=
  λ s,
    match connectedUsers s !! sid with
    | Some user =>
        let '(s1, out) := disconnect_room sid user (disconnect_sessions sid user s) in
        let s2 := with_connectedUsers (delete sid) s1 in
        let participantCount :=
          match rooms s2 !! User.roomId user with
          | Some userRoomSockets => length userRoomSockets
          | None => 0
          end in
        (with_connectionHealth (delete sid) s2,
         out ++
         [(ToRoomExcept (User.roomId user) sid,
           UserLeft sid (User.name user) now reason);
          (ToRoom (User.roomId user), ParticipantCount participantCount)])
    | None => (with_connectionHealth (delete sid) s, [])
    end.

(** A socket closing, whether the client went away or the server called
    [socket.disconnect(true)]: nothing happens unless the socket is
    connected; otherwise socket.io drops it from its rooms and from
    [io.sockets.sockets], then the two "disconnect" listeners run, the one of
    [monitorConnection] first. *)
Definition socket_disconnect (sid reason : string) (now : Z) : Handler :=
  λ s,
    match sockets s !! sid with
    | Some true =>
        on_disconnect sid reason now
          (with_connectionHealth (delete sid) (socket_close sid s))
    | _ => (s, [])
    end.

(** ** join-room *)

(** The payload of [join-room]. A field is [None] when it is absent or is not
    a string. *)
Module JoinRoom.
Record t := mk {
  roomId : option string;
  userName : option string;
  userId : option string
}.
End JoinRoom.

(** "Get or create room". *)
Definition get_or_create_room (roomId : string) (userId : option string) (s : Server) : Server :=
  match rooms s !! roomId with
  | Some _ => s
  | None =>
      let s1 := with_rooms (<[roomId := []]>) s in
      match userId with
      | Some u => if truthy u then with_roomCreators (<[roomId := u]>) s1 else s1
      | None => s1
      end
  end.

(** The body of [oldSessionIds.forEach] for one old session id. *)
Definition preempt_one (sid userName : string) (now : Z) (oldId : string) : Handler :=
  λ s,
    if bool_decide (oldId ≠ sid) then
      let '(s1, out1) :=
        match connectedUsers s !! oldId with
        | Some oldUser =>
            (with_connectionHealth (delete oldId)
               (with_connectedUsers (delete oldId)
                  (with_rooms (alter (set_delete oldId) (User.roomId oldUser)) s)),
             [(ToRoom (User.roomId oldUser),
               UserLeft oldId userName now "duplicate-session")])
        | None => (s, [])
        end in
      let '(s2, out2) :=
        socket_disconnect oldId "server namespace disconnect" now s1 in
      (s2, out1 ++ out2)
    else (s, []).

(** "Handle existing sessions - force disconnect old sessions". *)
Definition preempt_sessions (sid userName : string) (now : Z) : Handler :=
  λ s,
    match userSessions s !! userName with
    | Some existingSessions =>
        if negb (bool_decide (length existingSessions = 0)) then
          let '(s1, out) :=
            for_each (preempt_one sid userName now) existingSessions s in
          (with_userSessions (alter (λ _, []) userName) s1, out)
        else (s, [])
    | None => (s, [])
    end.

(** "Add new session". *)
Definition add_session (sid userName : string) (s : Server) : Server :=
  with_userSessions
    (λ m, <[userName := set_add sid (default [] (m !! userName))]> m) s.

(** The test of the stale scan: the socket does not exist, or is not
    connected, or it is another socket whose participant bears the joining
    name. *)
Definition is_stale (s : Server) (sid userName socketId : string) : bool :=
  negb (default false (sockets s !! socketId))
  || match connectedUsers s !! socketId with
     | Some existingUser =>
         bool_decide (User.name existingUser = userName)
         && negb (bool_decide (socketId = sid))
     | None => false
     end.

Definition socketsToRemove (s : Server) (sid roomId userName : string) : list string :=
  filter (λ i, is_stale s sid userName i) (default [] (rooms s !! roomId)).

(** The body of [socketsToRemove.forEach]: the three deletions come first,
    the lookup of the participant for the notification after them. *)
Definition remove_stale (sid roomId : string) (now : Z) (socketId : string) : Handler :=
  λ s,
    let s1 :=
      with_connectionHealth (delete socketId)
        (with_connectedUsers (delete socketId)
           (with_rooms (alter (set_delete socketId) roomId) s)) in
    let userName :=
      match connectedUsers s1 !! socketId with
      | Some user => str_or (User.name user) "Unknown"
      | None => "Unknown"
      end in
    (s1, [(ToRoomExcept roomId sid,
           UserLeft socketId userName now "stale-connection")]).

(** The stale scan and the removals. *)
Definition cleanup_room (sid roomId userName : string) (now : Z) : Handler :=
  λ s, for_each (remove_stale sid roomId now) (socketsToRemove s sid roomId userName) s.

(** One entry of [current-participants]. *)
Definition participant_view (s : Server) (i : string) : Participant :=
  match connectedUsers s !! i with
  | Some user =>
      mkParticipant i (str_or (User.name user) ("User " +:+ i))
        (User.isMuted user) (User.isVideoOff user) (User.isHost user)
        (User.isRaiseHand user)
  | None => mkParticipant i ("User " +:+ i) false false false false
  end.

(** From "Determine host status" to the end of the handler. *)
Definition enter_room (sid roomId userName : string) (userId : option string) (now : Z) : Handler :=
  λ s,
    let roomSockets := default [] (rooms s !! roomId) in
    let isRoomCreator := bool_decide (length roomSockets = 0) in
    let isCreator :=
      match userId with
      | Some u => truthy u && bool_decide (roomCreators s !! roomId = Some u)
      | None => false
      end in
    let currentHostId := roomHosts s !! roomId in
    let currentHostExists :=
      match currentHostId with
      | Some h => truthy h && bool_decide (is_Some (connectedUsers s !! h))
      | None => false
      end in
    let shouldBeHost := isCreator || isRoomCreator || negb currentHostExists in
    let newUser :=
      User.mk sid userName roomId now now online false false shouldBeHost false in
    let roomSockets' := set_add sid roomSockets in
    let s1 :=
      with_connectedUsers (<[sid := newUser]>)
        (with_rooms (<[roomId := roomSockets']>) s) in
    let s2 :=
      if shouldBeHost then
        with_roomHosts (<[roomId := sid]>)
          (match currentHostId with
           | Some h =>
               if isCreator && currentHostExists && negb (bool_decide (h = sid))
               then with_connectedUsers (alter (User.set_isHost false) h) s1
               else s1
           | None => s1
           end)
      else s1 in
    (s2,
     [(ToRoomExcept roomId sid,
       UserJoined (mkParticipant sid userName false false shouldBeHost false))]
     ++ (if shouldBeHost
         then [(ToRoom roomId, HostStatusUpdate sid userName)] else [])
     ++ [(ToSocket sid,
          CurrentParticipants
            (map (participant_view s2) (filter (λ i, i ≠ sid) roomSockets')));
         (ToRoom roomId, ParticipantCount (length roomSockets'))]).

(** Everything after the capacity checks. *)
Definition join_accepted (sid roomId userName : string) (userId : option string) (now : Z) : Handler :=
  λ s,
    let '(s1, out1) := preempt_sessions sid userName now s in
    let s2 := socket_join sid roomId (add_session sid userName s1) in
    let '(s3, out2) := cleanup_room sid roomId userName now s2 in
    let '(s4, out3) := enter_room sid roomId userName userId now s3 in
    (s4, out1 ++ out2 ++ out3).

(** The [socket.on("join-room")] handler. *)
Definition join_room (sid : string) (a : JoinRoom.t) (now : Z) : Handler :=
  λ s,
    match JoinRoom.roomId a, JoinRoom.userName a with
    | Some roomId, Some userName =>
        if negb (truthy roomId) || negb (truthy userName) then
          (s, [(ToSocket sid, JoinError "Invalid room ID or username")])
        else if includes "-" userName && bool_decide (10 < js_length userName)%nat then
          (s, [(ToSocket sid, JoinError "Invalid username format")])
        else if bool_decide (MAX_TOTAL_USERS ≤ size (connectedUsers s))%nat then
          (s, [(ToSocket sid, JoinError "Server at capacity")])
        else
          let s1 := get_or_create_room roomId (JoinRoom.userId a) s in
          if bool_decide (MAX_ROOM_SIZE ≤ length (default [] (rooms s1 !! roomId)))%nat then
            (s1, [(ToSocket sid, JoinError "Room is full")])
          else join_accepted sid roomId userName (JoinRoom.userId a) now s1
    | _, _ => (s, [(ToSocket sid, JoinError "Invalid room ID or username")])
    end.

(** ** Peer signaling *)

Definition offer (sid offer targetId : string) : Handler :=
  λ s, (s, [(ToRoomExcept targetId sid, OfferEv offer sid)]).

Definition answer (sid answer targetId : string) : Handler :=
  λ s, (s, [(ToRoomExcept targetId sid, AnswerEv answer sid)]).

Definition ice_candidate (sid candidate targetId : string) : Handler :=
  λ s, (s, [(ToRoomExcept targetId sid, IceCandidateEv candidate sid)]).

(** ** State toggles *)

Definition user_muted (sid participantId : string) (isMuted : bool) : Handler :=
  λ s,
    match connectedUsers s !! participantId with
    | Some user =>
        (with_connectedUsers (<[participantId := User.set_isMuted isMuted user]>) s,
         [(ToRoomExcept (User.roomId user) sid, UserMuted participantId isMuted)])
    | None => (s, [])
    end.

Definition user_video_toggled (sid participantId : string) (isVideoOff : bool) : Handler :=
  λ s,
    match connectedUsers s !! participantId with
    | Some user =>
        (with_connectedUsers (<[participantId := User.set_isVideoOff isVideoOff user]>) s,
         [(ToRoomExcept (User.roomId user) sid,
           UserVideoToggled participantId isVideoOff)])
    | None => (s, [])
    end.

Definition raise_hand_toggled (sid participantId : string) (isRaiseHand : bool) : Handler :=
  λ s,
    match connectedUsers s !! participantId with
    | Some user =>
        (with_connectedUsers (<[participantId := User.set_isRaiseHand isRaiseHand user]>) s,
         [(ToRoomExcept (User.roomId user) sid,
           RaiseHandToggled participantId isRaiseHand)])
    | None => (s, [])
    end.

(** ** Room-wide broadcasts *)

Definition reaction (sid emoji senderId timestamp : string) : Handler :=
  λ s,
    match connectedUsers s !! senderId with
    | Some user =>
        (s, [(ToRoom (User.roomId user),
              ReactionReceived emoji senderId (User.name user) timestamp)])
    | None => (s, [])
    end.

Definition chat_message (sid message senderId timestamp : string) : Handler :=
  λ s,
    match connectedUsers s !! senderId with
    | Some user =>
        (s, [(ToRoom (User.roomId user),
              ChatMessage message senderId (User.name user) timestamp)])
    | None => (s, [])
    end.

(** ** Host transfer and rename *)

(** [currentHost] and [newHost] are the same object when the host names
    itself, so the two assignments are applied one after the other to the
    store. *)
Definition host_transfer (sid newHostId : string) : Handler :=
  λ s,
    match connectedUsers s !! sid, connectedUsers s !! newHostId with
    | Some currentHost, Some newHost =>
        if User.isHost currentHost
           && bool_decide (User.roomId currentHost = User.roomId newHost)
        then
          (with_roomHosts (<[User.roomId currentHost := newHostId]>)
             (with_connectedUsers
                (λ m, alter (User.set_isHost true) newHostId
                        (alter (User.set_isHost false) sid m)) s),
           [(ToRoom (User.roomId currentHost),
             HostChanged newHostId (User.name newHost) sid
               (host_vector newHostId
                  (default [] (rooms s !! User.roomId currentHost))))])
        else (s, [])
    | _, _ => (s, [])
    end.

Definition rename_participant (sid participantId newName : string) : Handler :=
  λ s,
    match connectedUsers s !! participantId, connectedUsers s !! sid with
    | Some participant, Some requester =>
        if (User.isHost requester || bool_decide (participantId = sid))
           && bool_decide (User.roomId requester = User.roomId participant)
        then
          (with_connectedUsers
             (<[participantId := User.set_name newName participant]>) s,
           [(ToRoom (User.roomId participant),
             ParticipantRenamed participantId (User.name participant) newName)])
        else (s, [])
    | _, _ => (s, [])
    end.

(** ** Host controls *)

Definition host_mute_participant (sid participantId : string) (mute : bool) : Handler :=
  λ s,
    match connectedUsers s !! sid, connectedUsers s !! participantId with
    | Some host, Some participant =>
        if User.isHost host
           && bool_decide (User.roomId host = User.roomId participant)
        then
          (with_connectedUsers
             (<[participantId := User.set_isMuted mute participant]>) s,
           [(ToRoom (User.roomId participant),
             ParticipantForceMuted participantId mute)])
        else (s, [])
    | _, _ => (s, [])
    end.

Definition host_toggle_video (sid participantId : string) (videoOff : bool) : Handler :=
  λ s,
    match connectedUsers s !! sid, connectedUsers s !! participantId with
    | Some host, Some participant =>
        if User.isHost host
           && bool_decide (User.roomId host = User.roomId participant)
        then
          (with_connectedUsers
             (<[participantId := User.set_isVideoOff videoOff participant]>) s,
           [(ToRoom (User.roomId participant),
             ParticipantForceVideoToggle participantId videoOff)])
        else (s, [])
    | _, _ => (s, [])
    end.

(** The target is told, then its socket is closed by the server, which runs
    the target's disconnect handler. *)
Definition host_remove_participant (sid participantId : string) (now : Z) : Handler :=
  λ s,
    match connectedUsers s !! sid, connectedUsers s !! participantId with
    | Some host, Some participant =>
        if User.isHost host
           && bool_decide (User.roomId host = User.roomId participant)
        then
          match sockets s !! participantId with
          | Some _ =>
              let '(s1, out) :=
                socket_disconnect participantId "server namespace disconnect" now s in
              (s1,
               (ToSocket participantId,
                ForceDisconnect "removed-by-host"
                  ("You were removed from the meeting by " +:+ User.name host))
               :: out)
          | None => (s, [])
          end
        else (s, [])
    | _, _ => (s, [])
    end.

(** ** The engine as a transition system *)

(** What can happen to the server: a socket connects, a connected socket
    sends one of the events above or closes, a ping round of a connected
    socket ends, or the sweep timer fires. The remaining handlers of the
    source (typing, polls, whiteboard, files, questions, locks, spotlight,
    breakout rooms, ping, reconnect-request) only emit and leave the stores
    as they are. *)
Inductive Op :=
| Connect (sid : string) (now : Z)
| Join (sid : string) (a : JoinRoom.t) (now : Z)
| Offer (sid offer targetId : string)
| Answer (sid answer targetId : string)
| IceCandidate (sid candidate targetId : string)
| Muted (sid participantId : string) (isMuted : bool)
| VideoToggled (sid participantId : string) (isVideoOff : bool)
| RaiseHand (sid participantId : string) (isRaiseHand : bool)
| Reaction (sid emoji senderId timestamp : string)
| Chat (sid message senderId timestamp : string)
| HostTransfer (sid newHostId : string)
| Rename (sid participantId newName : string)
| HostMute (sid participantId : string) (mute : bool)
| HostVideo (sid participantId : string) (videoOff : bool)
| HostRemove (sid participantId : string) (now : Z)
| Pong (sid : string) (startTime now : Z)
| PingTimeout (sid : string)
| Disconnect (sid reason : string) (now : Z)
| Sweep (now : Z).

(** Events of a socket are dispatched only while it is connected, and a
    connecting socket gets an id no connected socket has. *)
Definition connected (s : Server) (sid : string) : bool :=
  default false (sockets s !! sid).

Definition from_socket (sid : string) (h : Handler) : Handler :=
  λ s, if connected s sid then h s else (s, []).

Definition step (o : Op) : Handler :=
  match o with
  | Connect sid now =>
      λ s, if bool_decide (is_Some (sockets s !! sid)) then (s, [])
           else on_connection sid now s
  | Join sid a now => from_socket sid (join_room sid a now)
  | Offer sid o t => from_socket sid (offer sid o t)
  | Answer sid a t => from_socket sid (answer sid a t)
  | IceCandidate sid c t => from_socket sid (ice_candidate sid c t)
  | Muted sid p b => from_socket sid (user_muted sid p b)
  | VideoToggled sid p b => from_socket sid (user_video_toggled sid p b)
  | RaiseHand sid p b => from_socket sid (raise_hand_toggled sid p b)
  | Reaction sid e p t => from_socket sid (reaction sid e p t)
  | Chat sid m p t => from_socket sid (chat_message sid m p t)
  | HostTransfer sid n => from_socket sid (host_transfer sid n)
  | Rename sid p n => from_socket sid (rename_participant sid p n)
  | HostMute sid p b => from_socket sid (host_mute_participant sid p b)
  | HostVideo sid p b => from_socket sid (host_toggle_video sid p b)
  | HostRemove sid p now => from_socket sid (host_remove_participant sid p now)
  | Pong sid t0 now => from_socket sid (λ s, (pong_received sid t0 now s, []))
  | PingTimeout sid => from_socket sid (λ s, (ping_timeout sid s, []))
  | Disconnect sid reason now => socket_disconnect sid reason now
  | Sweep now => λ s, (performCleanup now s, [])
  end.

Definition run (ops : list Op) : Handler := for_each step ops.

(** The states the server can be in: those some history leads to from the
    empty stores. *)
Definition reachable (s : Server) : Prop :=
  ∃ ops, (run ops initial).1 = s.

#[global] Instance Dest_eq_dec : EqDecision Dest.
Proof. solve_decision. Defined.

#[global] Instance Participant_eq_dec : EqDecision Participant.
Proof. solve_decision. Defined.

#[global] Instance Event_eq_dec : EqDecision Event.
Proof. solve_decision. Defined.

(** ** Notions used by the properties *)

(** The members of a room's set, empty when there is no such room. *)
Definition members (s : Server) (roomId : string) : list string :=
  default [] (rooms s !! roomId).

(** Whether a connection id resolves to a participant carrying the host
    flag. *)
Definition is_host (s : Server) (i : string) : bool :=
  match connectedUsers s !! i with
  | Some u => User.isHost u
  | None => false
  end.

Definition hosts_in (s : Server) (l : list string) : list string :=
  filter (λ i, is_host s i) l.

(** Every room has at most one host among its members, and exactly one when
    it has a member. *)
Definition one_host_per_room (s : Server) : Prop :=
  map_Forall
    (λ _ l, length (hosts_in s l) ≤ 1 ∧ (l ≠ [] → length (hosts_in s l) = 1))
    (rooms s).

(** Every connection id in a room's set resolves to a participant record. *)
Definition members_resolve (s : Server) : Prop :=
  map_Forall (λ _ l, Forall (λ i, is_Some (connectedUsers s !! i)) l) (rooms s).

(** A room record exists only with a non-empty set, and a room without a
    record has no host-map and no creator-map entry. *)
Definition rooms_tidy (s : Server) : Prop :=
  map_Forall (λ _ l, l ≠ []) (rooms s) ∧
  map_Forall (λ r _, is_Some (rooms s !! r)) (roomHosts s) ∧
  map_Forall (λ r _, is_Some (rooms s !! r)) (roomCreators s).

(** The sender of a toggle is the participant itself or a host of the
    participant's room. *)
Definition toggle_authorized (s : Server) (sid participantId : string) : bool :=
  bool_decide (sid = participantId)
  || match connectedUsers s !! sid, connectedUsers s !! participantId with
     | Some h, Some p =>
         User.isHost h && bool_decide (User.roomId h = User.roomId p)
     | _, _ => false
     end.

(** The join was refused with "Room is full". *)
Definition rejected_room_full (sid : string) (a : JoinRoom.t) (now : Z) (s : Server) : Prop :=
  (ToSocket sid, JoinError "Room is full") ∈ (join_room sid a now s).2.

(** The checks that precede the room-capacity check. *)
Definition passes_checks (roomId userName : string) (s : Server) : bool :=
  truthy roomId && truthy userName
  && negb (includes "-" userName && bool_decide (10 < js_length userName)%nat)
  && bool_decide (size (connectedUsers s) < MAX_TOTAL_USERS)%nat.

(** The size the target room has once the duplicate sessions have been
    preempted and the stale entries removed. *)
Definition post_cleanup_size (sid roomId userName : string) (now : Z) (s : Server) : nat :=
  let s1 := (preempt_sessions sid userName now s).1 in
  let s2 := socket_join sid roomId (add_session sid userName s1) in
  length (members (cleanup_room sid roomId userName now s2).1 roomId).

Definition is_join_error (e : Event) : bool :=
  match e with JoinError _ => true | _ => false end.

Definition not_join_error (e : Emission) : Prop := is_join_error e.2 = false.

(** The transport's own bookkeeping: a connected socket is in the room named
    by its id, and only connected sockets are in a room. *)
Definition transport_ok (s : Server) : Prop :=
  (∀ i, sockets s !! i = Some true → i ∈ default ∅ (adapterRooms s !! i)) ∧
  (∀ r i, i ∈ default ∅ (adapterRooms s !! r) → sockets s !! i = Some true).

(** Two states with the same transport part. *)
Definition same_transport (s s' : Server) : Prop :=
  sockets s' = sockets s ∧ adapterRooms s' = adapterRooms s.

(** The sender is a participant carrying the host flag whose record names
    the same room as the target's record: the test of the host controls. *)
Definition host_over (s : Server) (sid participantId : string) : bool :=
  match connectedUsers s !! sid, connectedUsers s !! participantId with
  | Some h, Some p => User.isHost h && bool_decide (User.roomId h = User.roomId p)
  | _, _ => false
  end.

(** [A] is a participant of room [r] carrying the host flag, and the only
    participant whose record names [r] that does. *)
Definition sole_host (s : Server) (r A : string) : Prop :=
  (∃ ua, connectedUsers s !! A = Some ua ∧ User.roomId ua = r ∧
         User.isHost ua = true) ∧
  ∀ i u, connectedUsers s !! i = Some u → User.roomId u = r →
         User.isHost u = true → i = A.

(** The rooms of [s'] are the rooms of [s], each with a sub-list of the set
    it had. *)
Definition rooms_shrunk (s s' : Server) : Prop :=
  ∀ x, match rooms s !! x, rooms s' !! x with
       | Some l, Some l' => l' `sublist_of` l
       | None, None => True
       | _, _ => False
       end.

Definition is_user_left (e : Emission) : Prop :=
  match e.2 with UserLeft _ _ _ _ => True | _ => False end.

(** The [user-left] of one preempted session, read in the state the
    preemption starts from. *)
Definition preempt_notice (s : Server) (sid userName : string) (now : Z)
    (oldId : string) : list Emission :=
  if decide (oldId = sid) then []
  else match connectedUsers s !! oldId with
       | Some u => [(ToRoom (User.roomId u),
                     UserLeft oldId userName now "duplicate-session")]
       | None => []
       end.

(** No room's set holds an id twice or more than [MAX_ROOM_SIZE] ids, and
    there are at most [MAX_TOTAL_USERS] participant records. *)
Definition within_capacity (s : Server) : Prop :=
  map_Forall (λ _ l, NoDup l ∧ length l ≤ MAX_ROOM_SIZE) (rooms s) ∧
  size (connectedUsers s) ≤ MAX_TOTAL_USERS.

(** Going from [s] to [s'] no room's set has gained a member, no room has
    appeared, and no connection has gained a participant record. *)
Definition not_grown (s s' : Server) : Prop :=
  (∀ x l', rooms s' !! x = Some l' →
           ∃ l, rooms s !! x = Some l ∧ l' `sublist_of` l) ∧
  dom (connectedUsers s') ⊆ dom (connectedUsers s).

(** Every participant record is stored under its own id and is listed in the
    set of the room it names. *)
Definition records_listed (s : Server) : Prop :=
  ∀ i u, connectedUsers s !! i = Some u →
         User.id u = i ∧ i ∈ members s (User.roomId u).

(** Going from [s] to [s'] every record of [s'] is a record of [s] with the
    same id and room, and the ids that still have a record are in every
    room's set they were in. *)
Definition records_kept (s s' : Server) : Prop :=
  (∀ i u', connectedUsers s' !! i = Some u' →
     ∃ u, connectedUsers s !! i = Some u ∧ User.id u' = User.id u ∧
          User.roomId u' = User.roomId u) ∧
  (∀ i k, is_Some (connectedUsers s' !! i) → i ∈ members s k → i ∈ members s' k).

(** ** Histories used as examples *)

Definition join_args (roomId userName : string) : JoinRoom.t :=
  JoinRoom.mk (Some roomId) (Some userName) None.

(** Alice hosts R1 with Bob. *)
Definition host_and_guest : list Op :=
  [Connect "a" 0; Join "a" (join_args "R1" "Alice") 1;
   Connect "b" 2; Join "b" (join_args "R1" "Bob") 3].

(** Alice hosts R1 with Bob in it, and has opened a second tab. *)
Definition second_tab : list Op :=
  host_and_guest ++ [Connect "a2" 4].

(** Alice has created R1 as user u1 and is alone in it, and has opened a
    second tab. *)
Definition creator_second_tab : list Op :=
  [Connect "a1" 0;
   Join "a1" (JoinRoom.mk (Some "R1") (Some "Alice") (Some "u1")) 1;
   Connect "a2" 2].

(** Alice and Bob are in R1; Bob answers the ping sent to him at 330010,
    Alice answers none. *)
Definition silent_host : list Op :=
  [Connect "a" 0; Join "a" (join_args "R1" "Alice") 1;
   Connect "b" 10; Join "b" (join_args "R1" "Bob") 11;
   Pong "b" 330010 330060].

(** Alice hosts R1 with Bob; Bob also joins R2 from the same socket. *)
Definition member_hops : list Op :=
  host_and_guest ++ [Join "b" (join_args "R2" "Bob") 4].

(** Bob joins R1 and renames himself Alice; then Alice connects. *)
Definition renamed_namesake : list Op :=
  [Connect "b" 0; Join "b" (join_args "R1" "Bob") 1;
   Rename "b" "b" "Alice";
   Connect "a" 2].

(** Alice hosts R1; Carol is connected and has joined no room. *)
Definition bystander : list Op :=
  [Connect "a" 0; Join "a" (join_args "R1" "Alice") 1; Connect "c" 2].

(** Alice, Bob and Carol are in R1. *)
Definition three_in_room : list Op :=
  [Connect "a" 0; Join "a" (join_args "R1" "Alice") 1;
   Connect "b" 2; Join "b" (join_args "R1" "Bob") 3;
   Connect "c" 4; Join "c" (join_args "R1" "Carol") 5].

(** Alice hosts R1 with Bob; Bob also joins R2 from the same socket, then
    leaves. *)
Definition member_hops_and_leaves : list Op :=
  member_hops ++ [Disconnect "b" "transport close" 5].

(** Alice hosts R1 with Bob, Carol hosts R2; Bob also joins R2 from the same
    socket; then Alice leaves. *)
Definition guest_hops_host_leaves : list Op :=
  [Connect "a" 0; Join "a" (join_args "R1" "Alice") 1;
   Connect "b" 2; Join "b" (join_args "R1" "Bob") 3;
   Connect "c" 4; Join "c" (join_args "R2" "Carol") 5;
   Join "b" (join_args "R2" "Bob") 6;
   Disconnect "a" "transport close" 7].

(** Fifty sockets c00 .. c49 join R1 under the names n00 .. n49, and a
    further socket z connects. *)
Definition two_digits (n : nat) : string :=
  String (ascii_of_nat (48 + n / 10))
    (String (ascii_of_nat (48 + n mod 10)) EmptyString).

Definition fill_room (n : nat) : list Op :=
  flat_map
    (λ i, [Connect ("c" +:+ two_digits i) 0;
           Join ("c" +:+ two_digits i) (join_args "R1" ("n" +:+ two_digits i)) 0])
    (seq 0 n).

Definition full_room : list Op := fill_room 50 ++ [Connect "z" 0].

(** * Properties *)

(** ** Basic facts about the helpers *)

Lemma elem_of_set_delete (x y : string) (l : list string) :
  y ∈ set_delete x l ↔ y ≠ x ∧ y ∈ l.
Proof. unfold set_delete. rewrite list_elem_of_filter. tauto. Qed.

Lemma head_set_delete_ne (x y : string) (l : list string) :
  head (set_delete x l) = Some y → y ≠ x.
Proof.
  intros Hh. apply head_Some_elem_of in Hh.
  by apply elem_of_set_delete in Hh as [? _].
Qed.

(** A property of the emissions of every single call carries over to a
    whole [forEach]. *)
Lemma for_each_emissions {A : Type} (P : Emission → Prop) (f : A → Handler) (l : list A) :
  (∀ x s, Forall P (f x s).2) → ∀ s, Forall P (for_each f l s).2.
Proof.
  intros Hf. induction l as [|x l IH]; intros s; simpl.
  - constructor.
  - specialize (Hf x s). destruct (f x s) as [s1 o1].
    specialize (IH s1). destruct (for_each f l s1) as [s2 o2].
    simpl in *. by apply Forall_app.
Qed.

Lemma disconnect_sessions_other (sid : string) (user : User.t) (s : Server) :
  connectedUsers (disconnect_sessions sid user s) = connectedUsers s ∧
  rooms (disconnect_sessions sid user s) = rooms s ∧
  roomHosts (disconnect_sessions sid user s) = roomHosts s.
Proof.
  unfold disconnect_sessions.
  destruct (userSessions s !! User.name user); [|done].
  by case_bool_decide.
Qed.

(** ** The end-to-end scenarios of the specification *)

(** Two-peer join: Alice gets an empty participant list and is host; Bob
    gets Alice in his list; the room counts two. *)
Example scenario_two_peer_join :
  let r := run host_and_guest initial in
  rooms r.1 !! "R1" = Some ["a"; "b"] ∧
  roomHosts r.1 !! "R1" = Some "a" ∧
  r.2 =
    [(ToSocket "a", ConnectionConfirmed "a" 0);
     (ToRoomExcept "R1" "a",
      UserJoined (mkParticipant "a" "Alice" false false true false));
     (ToRoom "R1", HostStatusUpdate "a" "Alice");
     (ToSocket "a", CurrentParticipants []);
     (ToRoom "R1", ParticipantCount 1);
     (ToSocket "b", ConnectionConfirmed "b" 2);
     (ToRoomExcept "R1" "b",
      UserJoined (mkParticipant "b" "Bob" false false false false));
     (ToSocket "b",
      CurrentParticipants [mkParticipant "a" "Alice" false false true false]);
     (ToRoom "R1", ParticipantCount 2)].
Proof. vm_compute. done. Qed.

(** Duplicate session in the same room: the first tab is announced as gone
    and closed, the second becomes host of a room of one. *)
Example scenario_duplicate_session :
  let before := (run [Connect "a1" 0; Join "a1" (join_args "R1" "Alice") 1;
                      Connect "a2" 2] initial).1 in
  let r := step (Join "a2" (join_args "R1" "Alice") 3) before in
  rooms r.1 !! "R1" = Some ["a2"] ∧
  roomHosts r.1 !! "R1" = Some "a2" ∧
  sockets r.1 !! "a1" = None ∧
  r.2 =
    [(ToRoom "R1", UserLeft "a1" "Alice" 3 "duplicate-session");
     (ToRoomExcept "R1" "a2",
      UserJoined (mkParticipant "a2" "Alice" false false true false));
     (ToRoom "R1", HostStatusUpdate "a2" "Alice");
     (ToSocket "a2", CurrentParticipants []);
     (ToRoom "R1", ParticipantCount 1)].
Proof. vm_compute. done. Qed.

(** Host auto-transfer: when Alice leaves the room of three, Bob, first of
    the remaining set, becomes host. *)
Example scenario_host_auto_transfer :
  let r := step (Disconnect "a" "transport close" 6) (run three_in_room initial).1 in
  rooms r.1 !! "R1" = Some ["b"; "c"] ∧
  roomHosts r.1 !! "R1" = Some "b" ∧
  is_host r.1 "b" = true ∧
  r.2 =
    [(ToRoom "R1", HostChanged "b" "Bob" "a" [("b", true); ("c", false)]);
     (ToRoomExcept "R1" "a", UserLeft "a" "Alice" 6 "transport close");
     (ToRoom "R1", ParticipantCount 2)].
Proof. vm_compute. done. Qed.

(** ** Room-wide broadcasts *)

(** C10: chat-message and reaction do not depend on the connection that
    sends them. Two senders with the same payload produce the same result,
    and for any participant named in [senderId] the event, carrying that
    participant's name, goes to the participant's room, whoever sent it, and
    reaches every socket in that room. *)
Theorem broadcast_ignores_sender (s : Server) (sid sid' payload senderId timestamp : string) :
  chat_message sid payload senderId timestamp s
    = chat_message sid' payload senderId timestamp s ∧
  reaction sid payload senderId timestamp s
    = reaction sid' payload senderId timestamp s ∧
  (∀ u, connectedUsers s !! senderId = Some u →
     chat_message sid payload senderId timestamp s
       = (s, [(ToRoom (User.roomId u),
               ChatMessage payload senderId (User.name u) timestamp)]) ∧
     reaction sid payload senderId timestamp s
       = (s, [(ToRoom (User.roomId u),
               ReactionReceived payload senderId (User.name u) timestamp)]) ∧
     ∀ i, i ∈ default ∅ (adapterRooms s !! User.roomId u) →
          i ∈ recipients s (ToRoom (User.roomId u))).
Proof.
  split; [done|]. split; [done|].
  intros u Hu. unfold chat_message, reaction. rewrite Hu. done.
Qed.

(** A socket that has joined no room posts a chat message in Alice's name to
    Alice's room, and Alice receives it. *)
Lemma broadcast_ignores_sender_witness :
  let s := (run bystander initial).1 in
  connectedUsers s !! "c" = None ∧
  chat_message "c" "hi" "a" "t0" s
    = (s, [(ToRoom "R1", ChatMessage "hi" "a" "Alice" "t0")]) ∧
  "a" ∈ recipients s (ToRoom "R1").
Proof.
  intros s.
  assert (Ha : connectedUsers s !! "a"
               = Some (User.mk "a" "Alice" "R1" 1 1 online false false true false))
    by (vm_compute; reflexivity).
  destruct (broadcast_ignores_sender s "c" "c" "hi" "a" "t0") as (_ & _ & H).
  destruct (H _ Ha) as (Hc & _ & Hr).
  split; [vm_compute; reflexivity|].
  split; [exact Hc|].
  apply Hr. apply (bool_decide_unpack _). vm_compute. exact I.
Defined.

(** ** Host transfer *)

Lemma host_transfer_accepted (s : Server) (sid newHostId : string) (cur new : User.t) :
  connectedUsers s !! sid = Some cur →
  connectedUsers s !! newHostId = Some new →
  User.isHost cur = true →
  User.roomId cur = User.roomId new →
  (host_transfer sid newHostId s).1 =
    with_roomHosts (<[User.roomId cur := newHostId]>)
      (with_connectedUsers
         (λ m, alter (User.set_isHost true) newHostId
                 (alter (User.set_isHost false) sid m)) s).
Proof.
  intros Hc Hn Hh Hr. unfold host_transfer. rewrite Hc, Hn, Hh.
  by rewrite bool_decide_eq_true_2.
Qed.

(** C9, as stated, fails. Bob joined R1 and then R2 from the same socket, so
    his id stayed in R1's set; when Alice, the host of R1, left, the
    disconnect handler promoted the first id of R1's set, Bob, whose record
    names R2. Carol is the host of R2, by flag and by host-map, and Bob is a
    participant of R2 carrying the flag. Carol transfers to Bob and Bob back
    to Carol: the host-map entry is restored, Bob's flag is not. The other
    way round, Bob to Carol and back, the host-map entry of R2 ends naming
    Bob where it named Carol. *)
Lemma flagged_guest_loses_flag :
  let s := (run guest_hops_host_leaves initial).1 in
  let s2 := (host_transfer "b" "c" (host_transfer "c" "b" s).1).1 in
  let s2' := (host_transfer "c" "b" (host_transfer "b" "c" s).1).1 in
  roomHosts s !! "R2" = Some "c" ∧ is_host s "c" = true ∧
  User.roomId <$> connectedUsers s !! "c" = Some "R2" ∧
  User.roomId <$> connectedUsers s !! "b" = Some "R2" ∧
  is_host s "b" = true ∧
  roomHosts (host_transfer "c" "b" s).1 !! "R2" = Some "b" ∧
  roomHosts s2 !! "R2" = Some "c" ∧ is_host s2 "c" = true ∧
  is_host s2 "b" = false ∧
  roomHosts s2' !! "R2" = Some "b".
Proof. vm_compute. repeat split; reflexivity. Qed.

(** C9: when A carries the host flag and B is a participant whose record
    names the same room, the transfer from A to B makes B the host, and the
    transfer back, issued by B, is accepted and leaves the server as it was
    except for two things: the host-map entry of the room names A, and B,
    when it is not A, does not carry the flag. A's record is restored. So
    the round trip restores the host-map entry, both flags and indeed the
    whole server exactly when the host-map named A before and B, if it is
    not A, did not carry the flag. *)
Theorem host_transfer_round_trip (s : Server) (A B : string) (ua ub : User.t) :
  connectedUsers s !! A = Some ua →
  connectedUsers s !! B = Some ub →
  User.isHost ua = true →
  User.roomId ub = User.roomId ua →
  let s1 := (host_transfer A B s).1 in
  let s2 := (host_transfer B A s1).1 in
  let ub' := if decide (A = B) then ua else User.set_isHost false ub in
  (roomHosts s1 !! User.roomId ua = Some B ∧ is_host s1 B = true ∧
   (A ≠ B → is_host s1 A = false)) ∧
  s2 = with_roomHosts (<[User.roomId ua := A]>)
         (with_connectedUsers (<[B := ub']>) s) ∧
  roomHosts s2 !! User.roomId ua = Some A ∧
  connectedUsers s2 !! A = Some ua ∧
  connectedUsers s2 !! B = Some ub' ∧
  (s2 = s ↔ roomHosts s !! User.roomId ua = Some A ∧
            (A ≠ B → User.isHost ub = false)).
Proof.
  intros HA HB Hhost Hroom s1 s2 ub'.
  assert (Hs1 : s1 =
    with_roomHosts (<[User.roomId ua := B]>)
      (with_connectedUsers
         (λ m, alter (User.set_isHost true) B
                 (alter (User.set_isHost false) A m)) s)).
  { unfold s1. by apply host_transfer_accepted with (new := ub). }
  assert (HB1 : connectedUsers s1 !! B = Some (User.set_isHost true ub)).
  { rewrite Hs1. simpl. rewrite lookup_alter_eq.
    destruct (decide (A = B)) as [->|Hne].
    - rewrite lookup_alter_eq, HB. by destruct ub.
    - by rewrite lookup_alter_ne, HB. }
  assert (HA1 : connectedUsers s1 !! A =
                Some (if decide (A = B) then User.set_isHost true ua
                      else User.set_isHost false ua)).
  { rewrite Hs1. simpl. destruct (decide (A = B)) as [->|Hne].
    - rewrite !lookup_alter_eq, HA. by destruct ua.
    - rewrite lookup_alter_ne by done. by rewrite lookup_alter_eq, HA. }
  assert (Hs2 : s2 = with_roomHosts (<[User.roomId ua := A]>)
                       (with_connectedUsers (<[B := ub']>) s)).
  { unfold s2.
    rewrite host_transfer_accepted
      with (cur := User.set_isHost true ub)
           (new := if decide (A = B) then User.set_isHost true ua
                   else User.set_isHost false ua);
      [|done|done|done|by destruct (decide (A = B)), ua, ub; simpl in *].
    rewrite Hs1. destruct s as [users sess rms hosts creators health socks adp].
    unfold with_roomHosts, with_connectedUsers. simpl in *.
    f_equal.
    - apply map_eq. intros i. rewrite !lookup_alter. unfold ub'.
      destruct (decide (B = i)) as [->|Hi];
        [rewrite lookup_insert_eq|rewrite lookup_insert_ne by done];
        repeat case_decide; subst; try done; rewrite ?HA, ?HB;
        destruct ua, ub; simpl in *; simplify_eq; done.
    - by rewrite Hroom, insert_insert_eq. }
  assert (HA2 : connectedUsers s2 !! A = Some ua).
  { rewrite Hs2. simpl. unfold ub'. destruct (decide (A = B)) as [->|Hne].
    - by rewrite lookup_insert_eq.
    - by rewrite lookup_insert_ne. }
  assert (HB2 : connectedUsers s2 !! B = Some ub').
  { rewrite Hs2. simpl. by rewrite lookup_insert_eq. }
  assert (Hm2 : roomHosts s2 !! User.roomId ua = Some A).
  { rewrite Hs2. simpl. by rewrite lookup_insert_eq. }
  split; [|split; [exact Hs2|split; [exact Hm2|split; [exact HA2|split; [exact HB2|]]]]].
  - split; [|split].
    + rewrite Hs1. simpl. apply lookup_insert_eq.
    + unfold is_host. by rewrite HB1.
    + intros Hne. unfold is_host. rewrite HA1. by rewrite decide_False.
  - split.
    + intros Heq. rewrite Heq in Hm2, HB2. split; [exact Hm2|].
      intros Hne. rewrite HB in HB2. unfold ub' in HB2.
      rewrite decide_False in HB2 by done.
      injection HB2 as ->. reflexivity.
    + intros [Hmap Hother]. rewrite Hs2.
      destruct s as [users sess rms hosts creators health socks adp].
      unfold with_roomHosts, with_connectedUsers. simpl in *.
      f_equal; [|by apply insert_id].
      apply insert_id. rewrite HB. f_equal. unfold ub'.
      destruct (decide (A = B)) as [->|Hne]; [congruence|].
      specialize (Hother Hne). destruct ub; simpl in *; by subst.
Qed.

(** The round trip between Alice (host) and Bob in R1. *)
Lemma host_transfer_round_trip_witness :
  let s := (run host_and_guest initial).1 in
  roomHosts s !! "R1" = Some "a" ∧
  roomHosts (host_transfer "a" "b" s).1 !! "R1" = Some "b" ∧
  (host_transfer "b" "a" (host_transfer "a" "b" s).1).1 = s.
Proof.
  intros s.
  assert (Ha : connectedUsers s !! "a"
               = Some (User.mk "a" "Alice" "R1" 1 1 online false false true false))
    by (vm_compute; reflexivity).
  assert (Hb : connectedUsers s !! "b"
               = Some (User.mk "b" "Bob" "R1" 3 3 online false false false false))
    by (vm_compute; reflexivity).
  assert (Hm : roomHosts s !! "R1" = Some "a") by (vm_compute; reflexivity).
  destruct (host_transfer_round_trip s "a" "b" _ _ Ha Hb eq_refl eq_refl)
    as ((H1 & _) & _ & _ & _ & _ & H2).
  split; [exact Hm|]. split; [exact H1|].
  apply H2. split; [exact Hm|]. intros _. reflexivity.
Defined.

(** ** State toggles *)

(** C4, as stated, fails: Carol, who has joined no room and is not a host,
    mutes Alice, and the event is sent to Alice's room. *)
Lemma toggle_by_stranger :
  let s := (run bystander initial).1 in
  let r := user_muted "c" "a" true s in
  toggle_authorized s "c" "a" = false ∧
  User.isMuted <$> connectedUsers s !! "a" = Some false ∧
  User.isMuted <$> connectedUsers r.1 !! "a" = Some true ∧
  r.2 = [(ToRoomExcept "R1" "c", UserMuted "a" true)].
Proof. vm_compute. done. Qed.

(** C4, amended: the three toggles check the existence of the participant
    they name and nothing else. For a participant with a record, whoever the
    sender is, the flag is set to the value sent, nothing else in the server
    changes, and the same event is addressed to the participant's room with
    the sender left out; without a record nothing changes and nothing is
    emitted. *)
Theorem toggles_need_no_authority (s : Server) (sid participantId : string) (v : bool) :
  (∀ u, connectedUsers s !! participantId = Some u →
     (user_muted sid participantId v s
        = (with_connectedUsers (<[participantId := User.set_isMuted v u]>) s,
           [(ToRoomExcept (User.roomId u) sid, UserMuted participantId v)]) ∧
      user_video_toggled sid participantId v s
        = (with_connectedUsers (<[participantId := User.set_isVideoOff v u]>) s,
           [(ToRoomExcept (User.roomId u) sid, UserVideoToggled participantId v)]) ∧
      raise_hand_toggled sid participantId v s
        = (with_connectedUsers (<[participantId := User.set_isRaiseHand v u]>) s,
           [(ToRoomExcept (User.roomId u) sid, RaiseHandToggled participantId v)])) ∧
     (User.isMuted <$> connectedUsers (user_muted sid participantId v s).1 !! participantId
        = Some v ∧
      User.isVideoOff <$> connectedUsers (user_video_toggled sid participantId v s).1 !! participantId
        = Some v ∧
      User.isRaiseHand <$> connectedUsers (raise_hand_toggled sid participantId v s).1 !! participantId
        = Some v) ∧
     sid ∉ recipients s (ToRoomExcept (User.roomId u) sid)) ∧
  (connectedUsers s !! participantId = None →
     user_muted sid participantId v s = (s, []) ∧
     user_video_toggled sid participantId v s = (s, []) ∧
     raise_hand_toggled sid participantId v s = (s, [])).
Proof.
  split.
  - intros u Hu. unfold user_muted, user_video_toggled, raise_hand_toggled.
    rewrite Hu. simpl. rewrite !lookup_insert_eq. simpl.
    repeat split. unfold recipients.
    intros [_ Hn]%elem_of_difference. apply Hn. by apply elem_of_singleton.
  - intros Hn. unfold user_muted, user_video_toggled, raise_hand_toggled.
    by rewrite Hn.
Qed.

(** Carol's mute of Alice, as an instance. *)
Lemma toggles_need_no_authority_witness :
  let s := (run bystander initial).1 in
  User.isMuted <$> connectedUsers (user_muted "c" "a" true s).1 !! "a" = Some true ∧
  (user_muted "c" "zz" true s).2 = [].
Proof.
  intros s.
  assert (Ha : connectedUsers s !! "a"
               = Some (User.mk "a" "Alice" "R1" 1 1 online false false true false))
    by (vm_compute; reflexivity).
  assert (Hz : connectedUsers s !! "zz" = None) by (vm_compute; reflexivity).
  destruct (toggles_need_no_authority s "c" "a" true) as [H _].
  destruct (H _ Ha) as (_ & (Hm & _) & _).
  destruct (toggles_need_no_authority s "c" "zz" true) as [_ H'].
  destruct (H' Hz) as (Hn & _).
  split; [exact Hm|]. by rewrite Hn.
Defined.

(** ** The transport invariant *)

Lemma for_each_preserves {A : Type} (P : Server → Prop) (f : A → Handler) (l : list A) :
  (∀ x s, P s → P (f x s).1) → ∀ s, P s → P (for_each f l s).1.
Proof.
  intros Hf. induction l as [|x l IH]; intros s Hs; simpl; [done|].
  specialize (Hf x s Hs). destruct (f x s) as [s1 o1].
  specialize (IH s1 Hf). by destruct (for_each f l s1).
Qed.

Lemma same_transport_ok (s s' : Server) :
  same_transport s s' → transport_ok s → transport_ok s'.
Proof. intros [Hs Ha] [H1 H2]. unfold transport_ok. rewrite Hs, Ha. done. Qed.

Lemma on_disconnect_transport (sid reason : string) (now : Z) (s : Server) :
  same_transport s (on_disconnect sid reason now s).1.
Proof.
  unfold on_disconnect. destruct (connectedUsers s !! sid) as [user|]; [|done].
  assert (H1 : same_transport s (disconnect_sessions sid user s)).
  { unfold disconnect_sessions.
    destruct (userSessions s !! User.name user); [|done]. by case_bool_decide. }
  assert (H2 : ∀ s0, same_transport s0 (disconnect_room sid user s0).1).
  { intros s0. unfold disconnect_room.
    destruct (rooms s0 !! User.roomId user) as [l|]; [|done].
    unfold disconnect_elect. repeat case_match; simplify_eq; done. }
  specialize (H2 (disconnect_sessions sid user s)).
  destruct (disconnect_room _ _ _) as [s1 out]. simpl in *.
  destruct H1 as [Ha Hb], H2 as [Hc Hd]. split; simpl; congruence.
Qed.

Lemma socket_close_ok (sid : string) (s : Server) :
  transport_ok s → transport_ok (socket_close sid s).
Proof.
  intros [H1 H2]. split; simpl.
  - intros i [? Hi]%lookup_delete_Some. rewrite lookup_fmap.
    specialize (H1 i Hi). destruct (adapterRooms s !! i) as [m|]; simpl in *;
      [|by apply not_elem_of_empty in H1].
    apply elem_of_difference. split; [done|]. by intros ?%elem_of_singleton.
  - intros r i. rewrite lookup_fmap.
    destruct (adapterRooms s !! r) as [m|] eqn:Hr; simpl;
      [|by intros ?%not_elem_of_empty].
    intros [Hi Hne]%elem_of_difference.
    rewrite lookup_delete_ne by (by intros <-; apply Hne, elem_of_singleton).
    apply (H2 r). by rewrite Hr.
Qed.

Lemma socket_close_other (sid i : string) (s : Server) :
  i ≠ sid → sockets (socket_close sid s) !! i = sockets s !! i.
Proof. intros Hne. simpl. by rewrite lookup_delete_ne. Qed.

Lemma socket_join_ok (sid room : string) (s : Server) :
  sockets s !! sid = Some true → transport_ok s → transport_ok (socket_join sid room s).
Proof.
  intros Hs [H1 H2]. split; simpl.
  - intros i Hi. destruct (decide (room = i)) as [->|Hne].
    + rewrite lookup_insert_eq. simpl. apply elem_of_union. right. by apply H1.
    + rewrite lookup_insert_ne by done. by apply H1.
  - intros r i. destruct (decide (room = r)) as [->|Hne].
    + rewrite lookup_insert_eq. simpl.
      intros [->%elem_of_singleton|Hi]%elem_of_union; [done|]. by apply (H2 r).
    + rewrite lookup_insert_ne by done. apply H2.
Qed.

Lemma socket_disconnect_ok (sid reason : string) (now : Z) (s : Server) :
  transport_ok s → transport_ok (socket_disconnect sid reason now s).1.
Proof.
  intros Hok. unfold socket_disconnect.
  destruct (sockets s !! sid) as [[]|]; try done.
  eapply same_transport_ok; [apply on_disconnect_transport|].
  by apply (socket_close_ok sid s).
Qed.

Lemma socket_disconnect_other (sid reason : string) (now : Z) (i : string) (s : Server) :
  i ≠ sid → sockets (socket_disconnect sid reason now s).1 !! i = sockets s !! i.
Proof.
  intros Hne. unfold socket_disconnect.
  destruct (sockets s !! sid) as [[]|]; try done.
  destruct (on_disconnect_transport sid reason now
              (with_connectionHealth (delete sid) (socket_close sid s))) as [-> _].
  by apply socket_close_other.
Qed.

Lemma preempt_one_ok (sid userName : string) (now : Z) (oldId : string) (s : Server) :
  transport_ok s ∧ sockets s !! sid = Some true →
  transport_ok (preempt_one sid userName now oldId s).1 ∧
  sockets (preempt_one sid userName now oldId s).1 !! sid = Some true.
Proof.
  intros [Hok Hs]. unfold preempt_one. case_bool_decide as Hne; [|done].
  set (s1 := match connectedUsers s !! oldId with
             | Some oldUser =>
                 (with_connectionHealth (delete oldId)
                    (with_connectedUsers (delete oldId)
                       (with_rooms (alter (set_delete oldId) (User.roomId oldUser)) s)),
                  [(ToRoom (User.roomId oldUser),
                    UserLeft oldId userName now "duplicate-session")])
             | None => (s, [])
             end).
  assert (Hsame : same_transport s s1.1).
  { unfold s1. by destruct (connectedUsers s !! oldId). }
  destruct s1 as [s1 out1]. simpl in Hsame.
  pose proof (socket_disconnect_ok oldId "server namespace disconnect" now s1
                (same_transport_ok _ _ Hsame Hok)) as Hd.
  pose proof (socket_disconnect_other oldId "server namespace disconnect" now sid s1
                (not_eq_sym Hne)) as Ho.
  destruct (socket_disconnect _ _ _ _) as [s2 out2]. simpl in *.
  split; [done|]. destruct Hsame as [Hsock _]. by rewrite Ho, Hsock.
Qed.

Lemma preempt_sessions_ok (sid userName : string) (now : Z) (s : Server) :
  transport_ok s ∧ sockets s !! sid = Some true →
  transport_ok (preempt_sessions sid userName now s).1 ∧
  sockets (preempt_sessions sid userName now s).1 !! sid = Some true.
Proof.
  intros Hs. unfold preempt_sessions.
  destruct (userSessions s !! userName) as [l|]; [|done].
  destruct (negb _); [|done].
  pose proof (for_each_preserves _ (preempt_one sid userName now) l
                (preempt_one_ok sid userName now) s Hs) as H.
  by destruct (for_each _ _ _).
Qed.

Lemma cleanup_room_transport (sid roomId userName : string) (now : Z) (s : Server) :
  same_transport s (cleanup_room sid roomId userName now s).1.
Proof.
  unfold cleanup_room.
  apply (for_each_preserves (same_transport s) (remove_stale sid roomId now));
    [|done].
  intros x s' Hs'. by unfold remove_stale.
Qed.

Lemma enter_room_transport (sid roomId userName : string) (userId : option string) (now : Z) (s : Server) :
  same_transport s (enter_room sid roomId userName userId now s).1.
Proof. unfold enter_room. simpl. repeat case_match; done. Qed.

Lemma join_room_ok (sid : string) (a : JoinRoom.t) (now : Z) (s : Server) :
  sockets s !! sid = Some true → transport_ok s →
  transport_ok (join_room sid a now s).1.
Proof.
  intros Hs Hok. unfold join_room.
  destruct (JoinRoom.roomId a) as [roomId|], (JoinRoom.userName a) as [userName|];
    try done.
  repeat (case_match; try done).
  - unfold get_or_create_room. repeat case_match; done.
  - assert (Hg : same_transport s (get_or_create_room roomId (JoinRoom.userId a) s)).
    { unfold get_or_create_room. repeat case_match; done. }
    set (s0 := get_or_create_room roomId (JoinRoom.userId a) s) in *.
    unfold join_accepted.
    destruct (preempt_sessions_ok sid userName now s0) as [Hp1 Hp2].
    { split; [by eapply same_transport_ok|]. destruct Hg as [-> _]. done. }
    destruct (preempt_sessions sid userName now s0) as [s1 o1].
    simpl in Hp1, Hp2.
    pose proof (cleanup_room_transport sid roomId userName now
                  (socket_join sid roomId (add_session sid userName s1))) as Hc.
    destruct (cleanup_room _ _ _ _ _) as [s3 o2]. simpl in Hc.
    pose proof (enter_room_transport sid roomId userName (JoinRoom.userId a) now s3) as He.
    destruct (enter_room _ _ _ _ _ _) as [s4 o3]. simpl in He. cbn [fst].
    eapply same_transport_ok; [exact He|].
    eapply same_transport_ok; [exact Hc|].
    by apply (socket_join_ok sid roomId (add_session sid userName s1)).
Qed.

Lemma from_socket_ok (sid : string) (h : Handler) (s : Server) :
  (sockets s !! sid = Some true → transport_ok s → transport_ok (h s).1) →
  transport_ok s → transport_ok (from_socket sid h s).1.
Proof.
  intros Hh Hok. unfold from_socket, connected.
  destruct (sockets s !! sid) as [[]|]; simpl; try done. by apply Hh.
Qed.

Lemma on_connection_ok (sid : string) (now : Z) (s : Server) :
  sockets s !! sid = None → transport_ok s → transport_ok (on_connection sid now s).1.
Proof.
  intros Hnone [H1 H2]. split; simpl.
  - intros i. destruct (decide (sid = i)) as [->|Hne].
    + intros _. rewrite lookup_insert_eq. simpl.
      apply elem_of_union. left. by apply elem_of_singleton.
    + rewrite !lookup_insert_ne by done. apply H1.
  - intros r i. destruct (decide (sid = r)) as [->|Hne].
    + rewrite lookup_insert_eq. simpl.
      intros [->%elem_of_singleton|Hi]%elem_of_union.
      * by rewrite lookup_insert_eq.
      * specialize (H2 _ _ Hi). rewrite lookup_insert_ne; [done|].
        intros <-. congruence.
    + rewrite lookup_insert_ne by done. intros Hi. specialize (H2 _ _ Hi).
      rewrite lookup_insert_ne; [done|]. intros <-. congruence.
Qed.

Lemma step_ok (o : Op) (s : Server) :
  transport_ok s → transport_ok (step o s).1.
Proof.
  intros Hok.
  destruct o as [sid now|sid a now|sid x t|sid x t|sid x t|sid p b|sid p b
                |sid p b|sid e p t|sid m p t|sid n|sid p n|sid p b|sid p b
                |sid p now|sid t0 now|sid|sid reason now|now]; simpl;
    try (apply from_socket_ok; [intros Hs _|done]).
  - case_bool_decide as Hin; [done|]. apply on_connection_ok; [|done].
    destruct (sockets s !! sid) eqn:E; [|done]. exfalso. eauto.
  - by apply join_room_ok.
  - done.
  - done.
  - done.
  - unfold user_muted. by case_match.
  - unfold user_video_toggled. by case_match.
  - unfold raise_hand_toggled. by case_match.
  - unfold reaction. by case_match.
  - unfold chat_message. by case_match.
  - unfold host_transfer. by repeat case_match.
  - unfold rename_participant. by repeat case_match.
  - unfold host_mute_participant. by repeat case_match.
  - unfold host_toggle_video. by repeat case_match.
  - unfold host_remove_participant.
    destruct (connectedUsers s !! sid) as [host|]; [|done].
    destruct (connectedUsers s !! p) as [participant|]; [|done].
    destruct (_ && _); [|done].
    destruct (sockets s !! p); [|done].
    pose proof (socket_disconnect_ok p "server namespace disconnect" now s Hok) as Hd.
    by destruct (socket_disconnect _ _ _ _).
  - done.
  - done.
  - by apply socket_disconnect_ok.
  - done.
Qed.

Lemma reachable_transport_ok (s : Server) : reachable s → transport_ok s.
Proof.
  intros [ops <-]. unfold run.
  apply (for_each_preserves transport_ok step ops); [intros; by apply step_ok|].
  split; simpl.
  - intros i. by rewrite lookup_empty.
  - intros r i. rewrite lookup_empty. simpl. by intros ?%not_elem_of_empty.
Qed.

(** ** Peer signaling *)

(** C5, as stated, fails: no connection is named R1, yet Alice's offer with
    [targetId] R1 is delivered, to both Bob and Carol; and an offer that
    names Alice's own connection reaches nobody. *)
Lemma offer_to_room_name :
  let s := (run three_in_room initial).1 in
  let r := offer "a" "X" "R1" s in
  sockets s !! "R1" = None ∧
  r.2 = [(ToRoomExcept "R1" "a", OfferEv "X" "a")] ∧
  recipients s (ToRoomExcept "R1" "a") = {[ "b"; "c" ]} ∧
  sockets s !! "a" = Some true ∧
  recipients s (ToRoomExcept "a" "a") = ∅.
Proof.
  intros s r. repeat split; try (vm_compute; reflexivity);
    apply (bool_decide_unpack _); vm_compute; exact I.
Qed.

(** C5, amended: each of the three handlers leaves the server unchanged and
    issues exactly one emission, which carries the payload and the sending
    connection's id and is addressed to the transport room named [targetId]
    with the sender left out. It is delivered to the sockets of that room
    other than the sender: to the target alone when [targetId] is another
    connection's id and only that connection is in the room of that name, to
    nobody when the room has no socket; the sender receives neither the
    event nor an error. In every state the server can reach, a connected
    target other than the sender does receive the event, and every
    recipient is a connected socket. *)
Theorem signaling_relay (s : Server) (sid payload targetId : string) :
  let d := ToRoomExcept targetId sid in
  (offer sid payload targetId s = (s, [(d, OfferEv payload sid)]) ∧
   answer sid payload targetId s = (s, [(d, AnswerEv payload sid)]) ∧
   ice_candidate sid payload targetId s = (s, [(d, IceCandidateEv payload sid)])) ∧
  (∀ i, i ∈ recipients s d ↔
        i ≠ sid ∧ i ∈ default ∅ (adapterRooms s !! targetId)) ∧
  (targetId ≠ sid → adapterRooms s !! targetId = Some {[ targetId ]} →
     recipients s d = {[ targetId ]}) ∧
  (default ∅ (adapterRooms s !! targetId) = ∅ → recipients s d = ∅) ∧
  (reachable s →
     (sockets s !! targetId = Some true → targetId ≠ sid →
        targetId ∈ recipients s d) ∧
     (∀ i, i ∈ recipients s d → sockets s !! i = Some true)).
Proof.
  intros d. split; [done|]. split; [|split; [|split]]; cycle 3.
  { intros [H1 H2]%reachable_transport_ok. unfold d, recipients. split.
    - intros Ht Hne. apply elem_of_difference. split; [by apply H1|].
      by intros ?%elem_of_singleton.
    - intros i [Hi _]%elem_of_difference. by apply (H2 targetId). }
  - intros i. unfold d, recipients.
    rewrite elem_of_difference, elem_of_singleton. tauto.
  - intros Hne Hroom. unfold d, recipients. rewrite Hroom. simpl.
    apply set_eq. intros i. rewrite elem_of_difference, !elem_of_singleton.
    split; [tauto|]. by intros ->.
  - intros Hroom. unfold d, recipients. rewrite Hroom.
    apply set_eq. intros i. rewrite elem_of_difference.
    split; [tauto|]. by intros ?%not_elem_of_empty.
Qed.

(** Alice's offer to Bob reaches Bob alone; an offer to an unknown id
    reaches nobody. *)
Lemma signaling_relay_witness :
  let s := (run three_in_room initial).1 in
  recipients s (ToRoomExcept "b" "a") = {[ "b" ]} ∧
  recipients s (ToRoomExcept "nobody" "a") = ∅.
Proof.
  intros s.
  destruct (signaling_relay s "a" "X" "b") as (_ & _ & Hb & _).
  destruct (signaling_relay s "a" "X" "nobody") as (_ & _ & _ & Hn & _).
  split.
  - apply Hb; [done|]. vm_compute. reflexivity.
  - apply Hn. vm_compute. reflexivity.
Defined.

(** ** The host invariant *)

(** C1: the invariant holds while Alice hosts R1 with Bob and has a second
    tab open; when the second tab joins R2 under her name, the first tab is
    removed from R1 and nobody is elected in its place, so R1 is left with
    Bob and no host. The sweep breaks the invariant as well: the record of a
    silent host is deleted and no member takes over. And when Bob, a member
    of R1, joins the new room R2 from the same socket, his id stays in the
    set of R1 while his record becomes a host's, so the set of R1 holds two
    hosts. *)
Theorem second_tab_orphans_room :
  (let before := (run second_tab initial).1 in
   let after := (step (Join "a2" (join_args "R2" "Alice") 5) before).1 in
   reachable after ∧
   one_host_per_room before ∧
   rooms after !! "R1" = Some ["b"] ∧
   hosts_in after ["b"] = [] ∧
   ¬ one_host_per_room after) ∧
  (let before := (run silent_host initial).1 in
   let after := (step (Sweep 360000) before).1 in
   reachable after ∧
   one_host_per_room before ∧
   rooms after !! "R1" = Some ["a"; "b"] ∧
   hosts_in after ["a"; "b"] = [] ∧
   ¬ one_host_per_room after) ∧
  (let before := (run host_and_guest initial).1 in
   let after := (step (Join "b" (join_args "R2" "Bob") 4) before).1 in
   reachable after ∧
   one_host_per_room before ∧
   rooms after !! "R1" = Some ["a"; "b"] ∧
   hosts_in after ["a"; "b"] = ["a"; "b"] ∧
   ¬ one_host_per_room after).
Proof.
  split; [|split]; intros before after.
  - split; [|split; [|split; [|split]]].
    + exists (second_tab ++ [Join "a2" (join_args "R2" "Alice") 5]).
      vm_compute. reflexivity.
    + apply (bool_decide_unpack _). vm_compute. exact I.
    + vm_compute. reflexivity.
    + vm_compute. reflexivity.
    + intros H. apply (bool_decide_pack _) in H. vm_compute in H. exact H.
  - split; [|split; [|split; [|split]]].
    + exists (silent_host ++ [Sweep 360000]). vm_compute. reflexivity.
    + apply (bool_decide_unpack _). vm_compute. exact I.
    + vm_compute. reflexivity.
    + vm_compute. reflexivity.
    + intros H. apply (bool_decide_pack _) in H. vm_compute in H. exact H.
  - split; [|split; [|split; [|split]]].
    + exists member_hops. vm_compute. reflexivity.
    + apply (bool_decide_unpack _). vm_compute. exact I.
    + vm_compute. reflexivity.
    + vm_compute. reflexivity.
    + intros H. apply (bool_decide_pack _) in H. vm_compute in H. exact H.
Qed.

(** ** The sweep *)

Lemma performCleanup_rooms (now : Z) (s : Server) (r : string) (l : list string) :
  rooms (performCleanup now s) !! r = Some l ↔ rooms s !! r = Some l ∧ l ≠ [].
Proof.
  unfold performCleanup. simpl. rewrite map_lookup_filter_Some. simpl.
  split; intros [H1 H2]; (split; [done|]); by destruct l.
Qed.

Lemma performCleanup_stale (now : Z) (s : Server) (i : string) (h : ConnectionHealth.t) :
  connectionHealth s !! i = Some h → stale now h = true →
  connectedUsers (performCleanup now s) !! i = None ∧
  connectionHealth (performCleanup now s) !! i = None.
Proof.
  intros Hh Hst. unfold performCleanup. simpl. split.
  - apply map_lookup_filter_None. right. intros u _. simpl. rewrite Hh, Hst. done.
  - apply map_lookup_filter_None. right. intros h' Hh'. simpl.
    assert (h' = h) as -> by congruence. rewrite Hst. done.
Qed.

(** C3: the sweep deletes the participant record and the health record of a
    stale connection and emits nothing, but it never touches a room's set:
    every non-empty set is the same after the sweep. When Alice has been
    silent for more than five minutes her id stays in R1 and no longer
    resolves to a participant. *)
Theorem sweep_keeps_room_membership :
  (∀ now s i h, connectionHealth s !! i = Some h → stale now h = true →
     connectedUsers (performCleanup now s) !! i = None ∧
     connectionHealth (performCleanup now s) !! i = None ∧
     (step (Sweep now) s).2 = [] ∧
     ∀ r l, rooms s !! r = Some l → i ∈ l →
            rooms (performCleanup now s) !! r = Some l) ∧
  (let before := (run silent_host initial).1 in
   let after := (step (Sweep 360000) before).1 in
   stale 360000 <$> connectionHealth before !! "a" = Some true ∧
   members_resolve before ∧
   connectedUsers after !! "a" = None ∧
   rooms after !! "R1" = Some ["a"; "b"] ∧
   ¬ members_resolve after).
Proof.
  split.
  - intros now s i h Hh Hst.
    destruct (performCleanup_stale now s i h Hh Hst) as [Hu Hc].
    split; [done|]. split; [done|]. split; [done|].
    intros r l Hr Hi. apply performCleanup_rooms. split; [done|].
    intros ->. by apply elem_of_nil in Hi.
  - intros before after. split; [|split; [|split; [|split]]].
    + vm_compute. reflexivity.
    + apply (bool_decide_unpack _). vm_compute. exact I.
    + vm_compute. reflexivity.
    + vm_compute. reflexivity.
    + intros H. apply (bool_decide_pack _) in H. vm_compute in H. exact H.
Qed.

(** ** Room records *)

Lemma last_member_disconnect (sid reason : string) (now : Z) (user : User.t) (l : list string) (s : Server) :
  connectedUsers s !! sid = Some user →
  rooms s !! User.roomId user = Some l →
  set_delete sid l = [] →
  let s' := (on_disconnect sid reason now s).1 in
  rooms s' !! User.roomId user = None ∧
  roomHosts s' !! User.roomId user = None ∧
  roomCreators s' !! User.roomId user = None.
Proof.
  intros Hu Hl Hempty. unfold on_disconnect. rewrite Hu.
  destruct (disconnect_sessions_other sid user s) as (_ & Hr & _).
  unfold disconnect_room. rewrite Hr, Hl, Hempty.
  unfold disconnect_elect. destruct (User.isHost user); simpl;
    by rewrite !lookup_delete_eq.
Qed.

(** C7: the disconnect handler deletes the room record and clears the
    host-map and creator-map entries when the last member leaves, but the
    duplicate-session preemption does not. Alice, creator and only member of
    R1, joins R2 from a second tab: when the handler completes the record of
    R1 is still there with an empty set, and the host-map and the
    creator-map still have their entries for R1. The next sweep deletes the
    room record and leaves both entries in place. *)
Theorem second_tab_leaves_empty_room :
  (∀ sid reason now user l s,
     connectedUsers s !! sid = Some user →
     rooms s !! User.roomId user = Some l →
     set_delete sid l = [] →
     let s' := (on_disconnect sid reason now s).1 in
     rooms s' !! User.roomId user = None ∧
     roomHosts s' !! User.roomId user = None ∧
     roomCreators s' !! User.roomId user = None) ∧
  (let before := (run creator_second_tab initial).1 in
   let after := (step (Join "a2" (join_args "R2" "Alice") 3) before).1 in
   let swept := (step (Sweep 4) after).1 in
   rooms_tidy before ∧
   rooms after !! "R1" = Some [] ∧
   roomHosts after !! "R1" = Some "a1" ∧
   roomCreators after !! "R1" = Some "u1" ∧
   ¬ rooms_tidy after ∧
   rooms swept !! "R1" = None ∧
   roomHosts swept !! "R1" = Some "a1" ∧
   roomCreators swept !! "R1" = Some "u1" ∧
   ¬ rooms_tidy swept).
Proof.
  split; [intros; by eapply last_member_disconnect|].
  intros before after swept.
  split; [apply (bool_decide_unpack _); vm_compute; exact I|].
  do 3 (split; [vm_compute; reflexivity|]).
  split; [intros H; apply (bool_decide_pack _) in H; vm_compute in H; exact H|].
  do 3 (split; [vm_compute; reflexivity|]).
  intros H. apply (bool_decide_pack _) in H. vm_compute in H. exact H.
Qed.

(** ** The stale scan of join-room *)

Lemma for_each_emissions_map {A : Type} (f : A → Handler) (g : A → Emission) (l : list A) :
  (∀ x s, (f x s).2 = [g x]) → ∀ s, (for_each f l s).2 = map g l.
Proof.
  intros Hf. induction l as [|x l IH]; intros s; simpl; [done|].
  specialize (Hf x s). destruct (f x s) as [s1 o1].
  specialize (IH s1). destruct (for_each f l s1) as [s2 o2].
  simpl in *. by rewrite Hf, IH.
Qed.

Lemma remove_stale_emission (sid roomId : string) (now : Z) (socketId : string) (s : Server) :
  (remove_stale sid roomId now socketId s).2 =
  [(ToRoomExcept roomId sid, UserLeft socketId "Unknown" now "stale-connection")].
Proof. unfold remove_stale. simpl. by rewrite lookup_delete_eq. Qed.

(** C8: for each entry the stale scan removes, exactly one user-left with
    reason "stale-connection" is sent to the room, but its [userName] is
    always "Unknown": the participant record is deleted before it is looked
    up for the notification. When Alice joins R1, where Bob has renamed
    himself Alice, Bob is removed and announced as "Unknown". *)
Theorem stale_removal_reports_unknown :
  (∀ sid roomId userName now s,
     (cleanup_room sid roomId userName now s).2 =
     map (λ i, (ToRoomExcept roomId sid,
                UserLeft i "Unknown" now "stale-connection"))
         (socketsToRemove s sid roomId userName)) ∧
  (let s := (run renamed_namesake initial).1 in
   User.name <$> connectedUsers s !! "b" = Some "Alice" ∧
   rooms s !! "R1" = Some ["b"] ∧
   (step (Join "a" (join_args "R1" "Alice") 3) s).2 =
     [(ToRoomExcept "R1" "a", UserLeft "b" "Unknown" 3 "stale-connection");
      (ToRoomExcept "R1" "a",
       UserJoined (mkParticipant "a" "Alice" false false true false));
      (ToRoom "R1", HostStatusUpdate "a" "Alice");
      (ToSocket "a", CurrentParticipants []);
      (ToRoom "R1", ParticipantCount 1)]).
Proof.
  split.
  - intros sid roomId userName now s. unfold cleanup_room.
    apply for_each_emissions_map. intros x s'. apply remove_stale_emission.
  - vm_compute. done.
Qed.

(** ** Host election on disconnect *)

(** C6, as stated, fails: Alice hosts R1 and disconnects while the set of R1
    still holds Bob's id, which no longer resolves to a participant (Bob
    joined R2 from the same socket and left). Nobody is promoted, the
    host-map keeps naming Alice, and no host-changed is sent. *)
Lemma host_leaves_unresolved_member :
  let s := (run member_hops_and_leaves initial).1 in
  let r := step (Disconnect "a" "transport close" 6) s in
  is_host s "a" = true ∧
  rooms s !! "R1" = Some ["a"; "b"] ∧
  rooms r.1 !! "R1" = Some ["b"] ∧
  is_host r.1 "b" = false ∧
  roomHosts r.1 !! "R1" = Some "a" ∧
  r.2 = [(ToRoomExcept "R1" "a", UserLeft "a" "Alice" 6 "transport close");
         (ToRoom "R1", ParticipantCount 1)].
Proof. vm_compute. done. Qed.

(** C6, amended: when a connected host disconnects and the remaining set of
    its room is non-empty, then, if the first remaining id resolves to a
    participant, that participant gets the host flag, the host-map names
    it, and host-changed with the new host's id and name, the previous
    host's id and the vector over the remaining members is sent to the room,
    followed by user-left and participant-count; if it does not resolve,
    nobody is promoted, the host-map is unchanged and no host-changed is
    sent. *)
Theorem host_disconnect_promotes_first (s : Server) (sid reason : string) (now : Z) (user : User.t) (l : list string) (next : string) :
  sockets s !! sid = Some true →
  connectedUsers s !! sid = Some user →
  User.isHost user = true →
  rooms s !! User.roomId user = Some l →
  head (set_delete sid l) = Some next →
  let r := socket_disconnect sid reason now s in
  let left :=
    [(ToRoomExcept (User.roomId user) sid, UserLeft sid (User.name user) now reason);
     (ToRoom (User.roomId user), ParticipantCount (length (set_delete sid l)))] in
  rooms r.1 !! User.roomId user = Some (set_delete sid l) ∧
  (∀ nextHost, connectedUsers s !! next = Some nextHost →
     connectedUsers r.1 !! next = Some (User.set_isHost true nextHost) ∧
     roomHosts r.1 !! User.roomId user = Some next ∧
     r.2 = (ToRoom (User.roomId user),
            HostChanged next (User.name nextHost) sid
              (host_vector next (set_delete sid l))) :: left) ∧
  (connectedUsers s !! next = None →
     connectedUsers r.1 !! next = None ∧
     roomHosts r.1 !! User.roomId user = roomHosts s !! User.roomId user ∧
     r.2 = left).
Proof.
  intros Hsock Huser Hhost Hroom Hhead r left.
  assert (Hne : next ≠ sid) by (by eapply head_set_delete_ne).
  assert (Hlen : length (set_delete sid l) ≠ 0).
  { destruct (set_delete sid l); [done|simpl; lia]. }
  unfold r, socket_disconnect. rewrite Hsock.
  set (s0 := with_connectionHealth (delete sid) (socket_close sid s)).
  unfold on_disconnect.
  change (connectedUsers s0) with (connectedUsers s). rewrite Huser.
  destruct (disconnect_sessions_other sid user s0) as (Hu1 & Hr1 & Hh1).
  set (s1 := disconnect_sessions sid user s0) in *.
  change (connectedUsers s0) with (connectedUsers s) in Hu1.
  change (rooms s0) with (rooms s) in Hr1.
  change (roomHosts s0) with (roomHosts s) in Hh1.
  unfold disconnect_room. rewrite Hr1, Hroom.
  unfold disconnect_elect. rewrite Hhost, Hhead.
  rewrite (bool_decide_eq_false_2 _ Hlen). simpl.
  rewrite Hu1.
  destruct (connectedUsers s !! next) as [nextHost|] eqn:Hnext; simpl.
  - split; [by rewrite lookup_insert_eq|]. split; [|done].
    intros ? [= <-]. rewrite lookup_insert_eq.
    rewrite lookup_delete_ne by done. rewrite lookup_insert_eq.
    by rewrite lookup_insert_eq.
  - split; [by rewrite lookup_insert_eq|]. split; [done|].
    intros _. rewrite lookup_insert_eq.
    rewrite lookup_delete_ne by done. by rewrite Hu1, Hh1.
Qed.

(** The two cases: Alice leaves R1 while Bob is a participant, and Alice
    leaves R1 when Bob's id no longer resolves. *)
Lemma host_disconnect_promotes_first_witness :
  (let s := (run host_and_guest initial).1 in
   let r := socket_disconnect "a" "transport close" 4 s in
   is_host r.1 "b" = true ∧ roomHosts r.1 !! "R1" = Some "b" ∧
   r.2 = [(ToRoom "R1", HostChanged "b" "Bob" "a" [("b", true)]);
          (ToRoomExcept "R1" "a", UserLeft "a" "Alice" 4 "transport close");
          (ToRoom "R1", ParticipantCount 1)]) ∧
  (let s := (run member_hops_and_leaves initial).1 in
   let r := socket_disconnect "a" "transport close" 6 s in
   roomHosts r.1 !! "R1" = Some "a" ∧
   r.2 = [(ToRoomExcept "R1" "a", UserLeft "a" "Alice" 6 "transport close");
          (ToRoom "R1", ParticipantCount 1)]).
Proof.
  split; intros s r.
  - assert (Hs : sockets s !! "a" = Some true) by (vm_compute; reflexivity).
    assert (Ha : connectedUsers s !! "a"
                 = Some (User.mk "a" "Alice" "R1" 1 1 online false false true false))
      by (vm_compute; reflexivity).
    assert (Hb : connectedUsers s !! "b"
                 = Some (User.mk "b" "Bob" "R1" 3 3 online false false false false))
      by (vm_compute; reflexivity).
    assert (Hr : rooms s !! "R1" = Some ["a"; "b"]) by (vm_compute; reflexivity).
    destruct (host_disconnect_promotes_first s "a" "transport close" 4 _
                ["a"; "b"] "b" Hs Ha eq_refl Hr eq_refl) as (_ & H & _).
    destruct (H _ Hb) as (H1 & H2 & H3).
    split; [|split].
    + unfold is_host, r. by rewrite H1.
    + exact H2.
    + exact H3.
  - assert (Hs : sockets s !! "a" = Some true) by (vm_compute; reflexivity).
    assert (Ha : connectedUsers s !! "a"
                 = Some (User.mk "a" "Alice" "R1" 1 1 online false false true false))
      by (vm_compute; reflexivity).
    assert (Hb : connectedUsers s !! "b" = None) by (vm_compute; reflexivity).
    assert (Hr : rooms s !! "R1" = Some ["a"; "b"]) by (vm_compute; reflexivity).
    assert (Hm : roomHosts s !! "R1" = Some "a") by (vm_compute; reflexivity).
    destruct (host_disconnect_promotes_first s "a" "transport close" 6 _
                ["a"; "b"] "b" Hs Ha eq_refl Hr eq_refl) as (_ & _ & H).
    destruct (H Hb) as (_ & H2 & H3).
    split.
    + unfold r. simpl in H2. by rewrite H2.
    + exact H3.
Defined.

(** ** The room-capacity check of join-room *)

Lemma disconnect_elect_out (sid : string) (user : User.t) (l : list string) (s : Server) :
  Forall not_join_error (disconnect_elect sid user l s).2.
Proof.
  unfold disconnect_elect. repeat case_match; simpl; repeat constructor.
Qed.

Lemma disconnect_room_out (sid : string) (user : User.t) (s : Server) :
  Forall not_join_error (disconnect_room sid user s).2.
Proof.
  unfold disconnect_room. destruct (rooms s !! User.roomId user) as [l|]; [|constructor].
  pose proof (disconnect_elect_out sid user (set_delete sid l)
                (with_rooms (<[User.roomId user := set_delete sid l]>) s)) as H.
  by destruct (disconnect_elect _ _ _ _).
Qed.

Lemma on_disconnect_out (sid reason : string) (now : Z) (s : Server) :
  Forall not_join_error (on_disconnect sid reason now s).2.
Proof.
  unfold on_disconnect. destruct (connectedUsers s !! sid) as [user|]; [|constructor].
  pose proof (disconnect_room_out sid user (disconnect_sessions sid user s)) as H.
  destruct (disconnect_room _ _ _) as [s1 out]. simpl in *.
  apply Forall_app. split; [done|]. repeat constructor.
Qed.

Lemma socket_disconnect_out (sid reason : string) (now : Z) (s : Server) :
  Forall not_join_error (socket_disconnect sid reason now s).2.
Proof.
  unfold socket_disconnect. destruct (sockets s !! sid) as [[]|]; try constructor.
  apply on_disconnect_out.
Qed.

Lemma preempt_one_out (sid userName : string) (now : Z) (oldId : string) (s : Server) :
  Forall not_join_error (preempt_one sid userName now oldId s).2.
Proof.
  unfold preempt_one. case_bool_decide as Hne; [|constructor].
  destruct (connectedUsers s !! oldId) as [oldUser|].
  - pose proof (socket_disconnect_out oldId "server namespace disconnect" now
                  (with_connectionHealth (delete oldId)
                     (with_connectedUsers (delete oldId)
                        (with_rooms (alter (set_delete oldId) (User.roomId oldUser)) s)))) as Hd.
    destruct (socket_disconnect _ _ _ _). simpl in *. by repeat constructor.
  - pose proof (socket_disconnect_out oldId "server namespace disconnect" now s) as Hd.
    by destruct (socket_disconnect _ _ _ _).
Qed.

Lemma preempt_sessions_out (sid userName : string) (now : Z) (s : Server) :
  Forall not_join_error (preempt_sessions sid userName now s).2.
Proof.
  unfold preempt_sessions. destruct (userSessions s !! userName) as [l|]; [|constructor].
  destruct (negb _); [|constructor].
  pose proof (for_each_emissions not_join_error (preempt_one sid userName now) l
                (preempt_one_out sid userName now) s) as H.
  by destruct (for_each _ _ _).
Qed.

Lemma cleanup_room_out (sid roomId userName : string) (now : Z) (s : Server) :
  Forall not_join_error (cleanup_room sid roomId userName now s).2.
Proof.
  unfold cleanup_room. apply for_each_emissions. intros x s'.
  rewrite remove_stale_emission. by repeat constructor.
Qed.

Lemma enter_room_out (sid roomId userName : string) (userId : option string) (now : Z) (s : Server) :
  Forall not_join_error (enter_room sid roomId userName userId now s).2.
Proof.
  unfold enter_room. simpl. repeat constructor. apply Forall_app. split.
  - case_match; by repeat constructor.
  - by repeat constructor.
Qed.

Lemma join_accepted_out (sid roomId userName : string) (userId : option string) (now : Z) (s : Server) :
  Forall not_join_error (join_accepted sid roomId userName userId now s).2.
Proof.
  unfold join_accepted.
  pose proof (preempt_sessions_out sid userName now s) as H1.
  destruct (preempt_sessions _ _ _ _) as [s1 o1].
  pose proof (cleanup_room_out sid roomId userName now
                (socket_join sid roomId (add_session sid userName s1))) as H2.
  destruct (cleanup_room _ _ _ _ _) as [s3 o2].
  pose proof (enter_room_out sid roomId userName userId now s3) as H3.
  destruct (enter_room _ _ _ _ _ _) as [s4 o3]. simpl in *.
  by repeat (apply Forall_app; split).
Qed.

Lemma get_or_create_room_existing (roomId : string) (userId : option string) (s : Server) :
  is_Some (rooms s !! roomId) → get_or_create_room roomId userId s = s.
Proof. intros [l Hl]. unfold get_or_create_room. by rewrite Hl. Qed.

Lemma get_or_create_room_fresh (roomId : string) (userId : option string) (s : Server) :
  rooms s !! roomId = None →
  rooms (get_or_create_room roomId userId s) !! roomId = Some [].
Proof.
  intros Hn. unfold get_or_create_room. rewrite Hn.
  destruct userId as [u|]; [destruct (truthy u)|]; simpl; apply lookup_insert_eq.
Qed.

(** C2, as stated, fails: R1 holds fifty members, one of them under the name
    n00; a join of R1 under that name is refused with "Room is full",
    although removing the namesake would leave forty-nine. *)
Lemma full_room_refuses_namesake :
  let s := (run full_room initial).1 in
  length (members s "R1") = 50 ∧
  post_cleanup_size "z" "R1" "n00" 1 s = 49 ∧
  (step (Join "z" (join_args "R1" "n00") 1) s).2
    = [(ToSocket "z", JoinError "Room is full")] ∧
  ¬ (rejected_room_full "z" (join_args "R1" "n00") 1 s ↔
     MAX_ROOM_SIZE ≤ post_cleanup_size "z" "R1" "n00" 1 s).
Proof.
  intros s.
  assert (H1 : post_cleanup_size "z" "R1" "n00" 1 s = 49) by (vm_compute; reflexivity).
  assert (H2 : join_room "z" (join_args "R1" "n00") 1 s
               = (s, [(ToSocket "z", JoinError "Room is full")])).
  { vm_compute. reflexivity. }
  split; [vm_compute; reflexivity|]. split; [exact H1|].
  split; [vm_compute; reflexivity|].
  unfold rejected_room_full. rewrite H1, H2. simpl.
  intros [H _]. unfold MAX_ROOM_SIZE in H.
  assert (50 ≤ 49) by (apply H; apply list_elem_of_singleton; reflexivity). lia.
Qed.

(** C2, amended: the join is refused with "Room is full" exactly when the
    payload passes the preceding checks and the target room's set, as it is
    before any preemption or stale cleanup, has at least fifty members; the
    refusal changes nothing in the server and the join-error to the joiner is
    the only emission. *)
Theorem room_full_checked_before_cleanup (sid : string) (a : JoinRoom.t) (now : Z) (s : Server) :
  (rejected_room_full sid a now s ↔
     ∃ roomId userName,
       JoinRoom.roomId a = Some roomId ∧ JoinRoom.userName a = Some userName ∧
       passes_checks roomId userName s = true ∧
       MAX_ROOM_SIZE ≤ length (members s roomId)) ∧
  (rejected_room_full sid a now s →
     join_room sid a now s = (s, [(ToSocket sid, JoinError "Room is full")])).
Proof.
  assert (Hother : ∀ msg, msg ≠ "Room is full" →
            ¬ (ToSocket sid, JoinError "Room is full")
              ∈ [(ToSocket sid, JoinError msg)]).
  { intros msg Hm [=]%list_elem_of_singleton. congruence. }
  unfold rejected_room_full, join_room, passes_checks, members.
  destruct (JoinRoom.roomId a) as [roomId|], (JoinRoom.userName a) as [userName|];
    simpl;
    try (split; [split; [intros Hin; by apply Hother in Hin
                        |by intros (? & ? & ? & ? & ?)]
                |intros Hin; by apply Hother in Hin]).
  destruct (truthy roomId) eqn:Ht1; simpl;
    [|split; [split; [intros Hin; by apply Hother in Hin
                     |intros (? & ? & [= <-] & [= <-] & Hp & ?);
                      by rewrite Ht1 in Hp]
             |intros Hin; by apply Hother in Hin]].
  destruct (truthy userName) eqn:Ht2; simpl;
    [|split; [split; [intros Hin; by apply Hother in Hin
                     |intros (? & ? & [= <-] & [= <-] & Hp & ?);
                      by rewrite Ht1, Ht2 in Hp]
             |intros Hin; by apply Hother in Hin]].
  destruct (includes "-" userName && bool_decide (10 < js_length userName))
    eqn:Hfmt; simpl;
    [split; [split; [intros Hin; by apply Hother in Hin
                    |intros (? & ? & [= <-] & [= <-] & Hp & ?);
                     by rewrite Ht1, Ht2, Hfmt in Hp]
            |intros Hin; by apply Hother in Hin]|].
  destruct (bool_decide (MAX_TOTAL_USERS ≤ size (connectedUsers s))) eqn:Hcap.
  { apply bool_decide_eq_true_1 in Hcap.
    split; [split; [intros Hin; by apply Hother in Hin
                   |intros (? & ? & [= <-] & [= <-] & Hp & ?);
                    rewrite Ht1, Ht2, Hfmt in Hp; simpl in Hp;
                    apply bool_decide_eq_true_1 in Hp; lia]
           |intros Hin; by apply Hother in Hin]. }
  apply bool_decide_eq_false_1 in Hcap.
  assert (Hpass : truthy roomId && truthy userName
                  && negb (includes "-" userName
                           && bool_decide (10 < js_length userName))
                  && bool_decide (size (connectedUsers s) < MAX_TOTAL_USERS) = true).
  { rewrite Ht1, Ht2, Hfmt. simpl. apply bool_decide_eq_true_2. lia. }
  destruct (rooms s !! roomId) as [l|] eqn:Hroom.
  - rewrite get_or_create_room_existing by (by rewrite Hroom).
    rewrite Hroom. simpl.
    destruct (bool_decide (MAX_ROOM_SIZE ≤ length l)) eqn:Hfull;
      [apply bool_decide_eq_true_1 in Hfull
      |apply bool_decide_eq_false_1 in Hfull].
    + split; [split|done].
      * intros _. exists roomId, userName. rewrite Hroom. by simpl.
      * intros _. apply list_elem_of_singleton. reflexivity.
    + pose proof (join_accepted_out sid roomId userName (JoinRoom.userId a) now s) as Hout.
      assert (Hno : ¬ (ToSocket sid, JoinError "Room is full")
                      ∈ (join_accepted sid roomId userName (JoinRoom.userId a) now s).2).
      { intros Hin. rewrite Forall_forall in Hout. by apply Hout in Hin. }
      split; [split|done].
      * done.
      * intros (? & ? & [= <-] & [= <-] & _ & Hlen).
        rewrite Hroom in Hlen. done.
  - rewrite get_or_create_room_fresh by done. simpl.
    pose proof (join_accepted_out sid roomId userName (JoinRoom.userId a) now
                  (get_or_create_room roomId (JoinRoom.userId a) s)) as Hout.
    assert (Hno : ¬ (ToSocket sid, JoinError "Room is full")
                    ∈ (join_accepted sid roomId userName (JoinRoom.userId a) now
                         (get_or_create_room roomId (JoinRoom.userId a) s)).2).
    { intros Hin. rewrite Forall_forall in Hout. by apply Hout in Hin. }
    split; [split|done].
    + done.
    + intros (? & ? & [= <-] & [= <-] & _ & Hlen). rewrite Hroom in Hlen.
      simpl in Hlen. unfold MAX_ROOM_SIZE in Hlen. lia.
Qed.

(** A newcomer under a fresh name is refused by the full R1, and the server
    is left as it was. *)
Lemma room_full_checked_before_cleanup_witness :
  let s := (run full_room initial).1 in
  rejected_room_full "z" (join_args "R1" "Zoe") 1 s ∧
  join_room "z" (join_args "R1" "Zoe") 1 s
    = (s, [(ToSocket "z", JoinError "Room is full")]).
Proof.
  intros s.
  destruct (room_full_checked_before_cleanup "z" (join_args "R1" "Zoe") 1 s)
    as [Hiff Hsame].
  assert (Hrej : rejected_room_full "z" (join_args "R1" "Zoe") 1 s).
  { apply Hiff. exists "R1", "Zoe".
    split; [reflexivity|]. split; [reflexivity|].
    split; [vm_compute; reflexivity|].
    assert (Hlen : length (members s "R1") = 50) by (vm_compute; reflexivity).
    rewrite Hlen. unfold MAX_ROOM_SIZE. lia. }
  split; [exact Hrej|exact (Hsame Hrej)].
Defined.

(** * Further properties of the handlers *)

(** ** The ping loop *)

Lemma monitor_event_interval (sid : string) (e : MonitorEvent) (s : Server) (x : Z) :
  (15000 ≤ x ≤ 60000)%Z →
  (15000 ≤ (monitor_event sid e (s, x)).2 ≤ 60000)%Z.
Proof.
  intros Hx. unfold monitor_event.
  destruct (connectionHealth s !! sid); [|done].
  destruct e as [t0 now|]; simpl; [|lia].
  destruct (now - t0 <? 100)%Z; [lia|].
  destruct (1000 <? now - t0)%Z; lia.
Qed.

(** X1: the [pingIntervalTime] of a connection starts at 30 seconds and,
    whatever pongs and timeouts follow, stays between 15 and 60 seconds. *)
Theorem ping_interval_bounded (sid : string) (es : list MonitorEvent) (s : Server) :
  (15000 ≤ (monitor_events sid es (s, 30000%Z)).2 ≤ 60000)%Z.
Proof.
  unfold monitor_events.
  assert (H : ∀ st : Server * Z, (15000 ≤ st.2 ≤ 60000)%Z →
            (15000 ≤ (foldl (λ st e, monitor_event sid e st) st es).2 ≤ 60000)%Z).
  { induction es as [|e es IH]; intros st Hst; simpl; [done|].
    apply IH. destruct st as [s0 x]. by apply monitor_event_interval. }
  apply H. simpl. lia.
Qed.

Lemma monitor_event_stores (sid : string) (e : MonitorEvent) (st : Server * Z) :
  let s' := (monitor_event sid e st).1 in
  connectedUsers s' = connectedUsers st.1 ∧ userSessions s' = userSessions st.1 ∧
  rooms s' = rooms st.1 ∧ roomHosts s' = roomHosts st.1 ∧
  roomCreators s' = roomCreators st.1 ∧ sockets s' = sockets st.1 ∧
  adapterRooms s' = adapterRooms st.1 ∧
  ∀ j, j ≠ sid → connectionHealth s' !! j = connectionHealth st.1 !! j.
Proof.
  destruct st as [s x]. unfold monitor_event.
  destruct (connectionHealth s !! sid); [|done].
  destruct e; simpl; repeat split; intros j Hj; by rewrite lookup_alter_ne.
Qed.

(** X2: over any sequence of runs of the pong listener and of the ping
    timeout of a connection that has a health record, [pingCount] grows by
    the number of listener runs and [reconnectCount] by the number of
    timeouts, [connectedAt] stays, and the record reflects the last of them:
    healthy with that pong's time and latency after a pong, unhealthy after
    a timeout. No other store and no other connection's health record
    changes. *)
Theorem ping_rounds_counted (sid : string) (es : list MonitorEvent) (s : Server) (x : Z) (h : ConnectionHealth.t) :
  connectionHealth s !! sid = Some h →
  let s' := (monitor_events sid es (s, x)).1 in
  (∃ h', connectionHealth s' !! sid = Some h' ∧
     ConnectionHealth.connectedAt h' = ConnectionHealth.connectedAt h ∧
     ConnectionHealth.pingCount h'
       = ConnectionHealth.pingCount h + length (filter (λ e, is_pong e) es) ∧
     ConnectionHealth.reconnectCount h'
       = ConnectionHealth.reconnectCount h
         + length (filter (λ e, ¬ is_pong e) es) ∧
     match last es with
     | Some (PongArrived t0 now) =>
         ConnectionHealth.isHealthy h' = true ∧
         ConnectionHealth.lastPing h' = now ∧
         ConnectionHealth.latency h' = Some (now - t0)%Z
     | Some TimedOut => ConnectionHealth.isHealthy h' = false
     | None => h' = h
     end) ∧
  connectedUsers s' = connectedUsers s ∧ userSessions s' = userSessions s ∧
  rooms s' = rooms s ∧ roomHosts s' = roomHosts s ∧
  roomCreators s' = roomCreators s ∧
  ∀ j, j ≠ sid → connectionHealth s' !! j = connectionHealth s !! j.
Proof.
  revert s x h. induction es as [|e es IH] using rev_ind; intros s x h Hh s'.
  - simpl in s'. subst s'. split; [|done]. exists h. simpl. by rewrite !Nat.add_0_r.
  - unfold s', monitor_events. rewrite foldl_app. simpl.
    fold (monitor_events sid es (s, x)).
    destruct (IH s x h Hh) as [(h1 & Hh1 & Hc & Hp & Hr & _) Hst].
    destruct (monitor_events sid es (s, x)) as [s1 x1] eqn:E. simpl in *.
    pose proof (monitor_event_stores sid e (s1, x1)) as Hev. simpl in Hev.
    destruct Hev as (Hu & Hse & Hro & Hho & Hcr & _ & _ & Hoth).
    destruct Hst as (Hu' & Hse' & Hro' & Hho' & Hcr' & Hoth').
    split.
    + rewrite !filter_app, !length_app, last_snoc.
      unfold monitor_event. rewrite Hh1.
      destruct e as [t0 now|]; simpl; rewrite lookup_alter_eq, Hh1; simpl;
        eexists; (split; [reflexivity|]); simpl;
        rewrite ?filter_cons_True, ?filter_cons_False by (simpl; tauto);
        simpl; repeat split; try done; lia.
    + repeat split; try congruence.
      intros j Hj. rewrite Hoth by done. by apply Hoth'.
Qed.

(** A connection monitored from time 0 answers one ping and misses the
    next. *)
Lemma ping_rounds_counted_witness :
  let s := (run [Connect "a" 0] initial).1 in
  ∃ h', connectionHealth
          (monitor_events "a" [PongArrived 30000 30040; TimedOut] (s, 30000%Z)).1 !! "a"
        = Some h' ∧
        ConnectionHealth.pingCount h' = 1 ∧
        ConnectionHealth.reconnectCount h' = 1 ∧
        ConnectionHealth.isHealthy h' = false.
Proof.
  intros s.
  assert (Hh : connectionHealth s !! "a"
               = Some (ConnectionHealth.mk 0 0 0 0 true None))
    by (vm_compute; reflexivity).
  destruct (ping_rounds_counted "a" [PongArrived 30000 30040; TimedOut] s 30000 _ Hh)
    as [(h' & H1 & _ & H2 & H3 & H4) _].
  exists h'. split; [exact H1|]. split; [exact H2|]. split; [exact H3|exact H4].
Defined.

(** ** The sweep, continued *)

(** X3: running the sweep twice at the same instant gives the same server as
    running it once. *)
Theorem performCleanup_idempotent (now : Z) (s : Server) :
  performCleanup now (performCleanup now s) = performCleanup now s.
Proof.
  destruct s as [users sess rms hosts creators health socks adp].
  unfold performCleanup. simpl. unfold with_rooms, with_connectedUsers,
    with_connectionHealth. simpl. f_equal.
  - apply map_filter_id. intros i u _. simpl.
    destruct (filter _ health !! i) as [h|] eqn:Hh; [|done].
    by apply map_lookup_filter_Some in Hh as [_ Hh].
  - apply map_filter_id. by intros i l [_ Hl]%map_lookup_filter_Some.
  - apply map_filter_id. by intros i h [_ Hh]%map_lookup_filter_Some.
Qed.

(** X4: the sweep keeps every participant whose connection has no health
    record or whose last ping is at most five minutes old, together with that
    health record, and it never changes the session index, the host-map, the
    creator-map or the transport. *)
Theorem sweep_keeps_fresh (now : Z) (s : Server) (i : string) :
  (∀ h, connectionHealth s !! i = Some h →
        (now - ConnectionHealth.lastPing h ≤ 300000)%Z) →
  let s' := performCleanup now s in
  connectedUsers s' !! i = connectedUsers s !! i ∧
  connectionHealth s' !! i = connectionHealth s !! i ∧
  userSessions s' = userSessions s ∧ roomHosts s' = roomHosts s ∧
  roomCreators s' = roomCreators s ∧ sockets s' = sockets s ∧
  adapterRooms s' = adapterRooms s.
Proof.
  intros Hfresh s'.
  assert (Hns : ∀ h, connectionHealth s !! i = Some h → stale now h = false).
  { intros h Hh. apply bool_decide_eq_false_2. specialize (Hfresh h Hh).
    unfold staleThreshold. lia. }
  split; [|split; [|done]]; unfold s', performCleanup; simpl.
  - destruct (connectedUsers s !! i) as [u|] eqn:Hu.
    + apply map_lookup_filter_Some. split; [done|]. simpl.
      destruct (connectionHealth s !! i) as [h|]; [by apply Hns|done].
    + apply map_lookup_filter_None. by left.
  - destruct (connectionHealth s !! i) as [h|] eqn:Hh.
    + apply map_lookup_filter_Some. split; [done|]. simpl. by apply Hns.
    + apply map_lookup_filter_None. by left.
Qed.

(** Bob, who answered a ping half a minute before the sweep, is kept. *)
Lemma sweep_keeps_fresh_witness :
  let s := (run silent_host initial).1 in
  is_Some (connectedUsers (performCleanup 360000 s) !! "b") ∧
  userSessions (performCleanup 360000 s) = userSessions s.
Proof.
  intros s.
  assert (Hh : connectionHealth s !! "b"
               = Some (ConnectionHealth.mk 10 330060 1 0 true (Some 50%Z)))
    by (vm_compute; reflexivity).
  assert (Hu : is_Some (connectedUsers s !! "b")) by (vm_compute; eauto).
  destruct (sweep_keeps_fresh 360000 s "b") as (H1 & _ & H2 & _).
  { intros h Hh'. rewrite Hh in Hh'. injection Hh' as <-. simpl. lia. }
  split; [by rewrite H1|exact H2].
Defined.

(** ** Disconnect, continued *)

Lemma socket_disconnect_closed (sid reason : string) (now : Z) (s : Server) :
  sockets s !! sid = Some true →
  sockets (socket_disconnect sid reason now s).1 !! sid = None ∧
  ∀ room, sid ∉ default ∅ (adapterRooms (socket_disconnect sid reason now s).1 !! room).
Proof.
  intros Hs. unfold socket_disconnect. rewrite Hs.
  destruct (on_disconnect_transport sid reason now
              (with_connectionHealth (delete sid) (socket_close sid s))) as [-> ->].
  simpl. split; [apply lookup_delete_eq|].
  intros room. rewrite lookup_fmap.
  destruct (adapterRooms s !! room); simpl; [|apply not_elem_of_empty].
  intros [_ Hn]%elem_of_difference. apply Hn. by apply elem_of_singleton.
Qed.

(** X5: once the sweep has deleted the participant record of a stale
    connection, the later disconnect of that connection announces nothing
    and leaves the rooms, the session index, the host-map and the
    creator-map as the sweep left them: the connection's id stays in its
    room's set and in the session index. *)
Theorem swept_then_disconnect (now now' : Z) (reason sid : string) (h : ConnectionHealth.t) (s : Server) :
  connectionHealth s !! sid = Some h →
  (300000 < now - ConnectionHealth.lastPing h)%Z →
  let s1 := performCleanup now s in
  let r := socket_disconnect sid reason now' s1 in
  r.2 = [] ∧ rooms r.1 = rooms s1 ∧ userSessions r.1 = userSessions s ∧
  roomHosts r.1 = roomHosts s ∧ roomCreators r.1 = roomCreators s ∧
  connectedUsers r.1 = connectedUsers s1.
Proof.
  intros Hh Hold s1 r.
  assert (Hst : stale now h = true).
  { apply bool_decide_eq_true_2. unfold staleThreshold. lia. }
  destruct (performCleanup_stale now s sid h Hh Hst) as [Hu _]. fold s1 in Hu.
  unfold r, socket_disconnect.
  destruct (sockets s1 !! sid) as [[]|]; try done.
  unfold on_disconnect.
  change (connectedUsers (with_connectionHealth (delete sid) (socket_close sid s1)))
    with (connectedUsers s1).
  by rewrite Hu.
Qed.

(** Alice, silent for six minutes, is swept and then disconnects: her id is
    still in the set of R1. *)
Lemma swept_then_disconnect_witness :
  let s := (run silent_host initial).1 in
  let r := socket_disconnect "a" "ping timeout" 370000 (performCleanup 360000 s) in
  r.2 = [] ∧ rooms r.1 !! "R1" = Some ["a"; "b"].
Proof.
  intros s r.
  assert (Hh : connectionHealth s !! "a"
               = Some (ConnectionHealth.mk 0 0 0 0 true None))
    by (vm_compute; reflexivity).
  destruct (swept_then_disconnect 360000 370000 "ping timeout" "a" _ s Hh)
    as (H1 & H2 & _); [simpl; lia|].
  split; [exact H1|]. unfold r. rewrite H2. vm_compute. reflexivity.
Defined.

(** X6: after the disconnect of a connected participant its record, its
    health record and its socket are gone, it is in no transport room, its
    id is neither in the set of the room its record names nor in the session
    set of its name, and the emissions end with one user-left carrying the
    reason given and one participant-count carrying the size the room's set
    then has (zero when the room was deleted), preceded by at most a
    host-changed. *)
Theorem disconnect_removes_participant (sid reason : string) (now : Z) (user : User.t) (s : Server) :
  sockets s !! sid = Some true →
  connectedUsers s !! sid = Some user →
  let r := socket_disconnect sid reason now s in
  connectedUsers r.1 !! sid = None ∧
  connectionHealth r.1 !! sid = None ∧
  sockets r.1 !! sid = None ∧
  (∀ room, sid ∉ default ∅ (adapterRooms r.1 !! room)) ∧
  (sid ∉ members r.1 (User.roomId user)) ∧
  (sid ∉ default [] (userSessions r.1 !! User.name user)) ∧
  ∃ pre,
    r.2 = pre ++
      [(ToRoomExcept (User.roomId user) sid,
        UserLeft sid (User.name user) now reason);
       (ToRoom (User.roomId user),
        ParticipantCount (length (members r.1 (User.roomId user))))] ∧
    (pre = [] ∨
     ∃ next nextName v,
       pre = [(ToRoom (User.roomId user), HostChanged next nextName sid v)]).
Proof.
  intros Hs Hu r.
  destruct (socket_disconnect_closed sid reason now s Hs) as [Hc1 Hc2].
  fold r in Hc1, Hc2.
  split; [|split; [|split; [done|split; [done|]]]];
    unfold r, socket_disconnect; rewrite Hs;
    set (s0 := with_connectionHealth (delete sid) (socket_close sid s));
    unfold on_disconnect;
    change (connectedUsers s0) with (connectedUsers s); rewrite Hu;
    destruct (disconnect_room sid user (disconnect_sessions sid user s0))
      as [s1 out] eqn:Hroom; simpl.
  - apply lookup_delete_eq.
  - apply lookup_delete_eq.
  - assert (Hsess : sid ∉ default [] (userSessions s1 !! User.name user)).
    { assert (Hds : sid ∉ default []
                (userSessions (disconnect_sessions sid user s0) !! User.name user)).
      { unfold disconnect_sessions.
        destruct (userSessions s0 !! User.name user) as [l|] eqn:Hl.
        - case_bool_decide; simpl.
          + rewrite lookup_delete_eq. apply not_elem_of_nil.
          + rewrite lookup_insert_eq. simpl.
            intros [Hn _]%elem_of_set_delete. done.
        - rewrite Hl. apply not_elem_of_nil. }
      revert Hroom Hds. generalize (disconnect_sessions sid user s0). intros s2.
      unfold disconnect_room.
      destruct (rooms s2 !! User.roomId user) as [l|]; [|by intros [= <- _]].
      unfold disconnect_elect. repeat case_match; intros; simplify_eq; done. }
    assert (Hmem : (sid ∉ members s1 (User.roomId user)) ∧
                   (out = [] ∨ ∃ next nextName v,
                      out = [(ToRoom (User.roomId user),
                              HostChanged next nextName sid v)])).
    { revert Hroom. generalize (disconnect_sessions sid user s0). intros s2.
      unfold disconnect_room, members.
      destruct (rooms s2 !! User.roomId user) as [l|] eqn:Hl;
        [|intros [= <- <-]; rewrite Hl; split; [apply not_elem_of_nil|by left]].
      unfold disconnect_elect.
      repeat case_match; intros; simplify_eq; simpl;
        rewrite ?lookup_delete_eq, ?lookup_insert_eq; simpl;
        (split; [first [apply not_elem_of_nil
                       |by intros [Hn _]%elem_of_set_delete]|]);
        first [by left | right; eauto]. }
    destruct Hmem as [Hmem Hout].
    split; [done|]. split; [done|].
    exists out. split; [|done]. unfold members. simpl.
    by destruct (rooms s1 !! User.roomId user).
Qed.

(** Alice leaves the room she hosts with Bob. *)
Lemma disconnect_removes_participant_witness :
  let s := (run host_and_guest initial).1 in
  let r := socket_disconnect "a" "transport close" 4 s in
  connectedUsers r.1 !! "a" = None ∧ ("a" ∉ members r.1 "R1").
Proof.
  intros s r.
  assert (Hs : sockets s !! "a" = Some true) by (vm_compute; reflexivity).
  assert (Ha : connectedUsers s !! "a"
               = Some (User.mk "a" "Alice" "R1" 1 1 online false false true false))
    by (vm_compute; reflexivity).
  destruct (disconnect_removes_participant "a" "transport close" 4 _ s Hs Ha)
    as (H1 & _ & _ & _ & H2 & _).
  split; [exact H1|exact H2].
Defined.

(** X7: closing a socket a second time does nothing: no store changes and
    nothing is emitted. *)
Theorem disconnect_twice (sid reason reason' : string) (now now' : Z) (s : Server) :
  let s1 := (socket_disconnect sid reason now s).1 in
  socket_disconnect sid reason' now' s1 = (s1, []).
Proof.
  intros s1. destruct (sockets s !! sid) as [[]|] eqn:Hs.
  - destruct (socket_disconnect_closed sid reason now s Hs) as [Hc _].
    fold s1 in Hc. unfold socket_disconnect at 1. by rewrite Hc.
  - unfold s1, socket_disconnect. rewrite Hs. simpl. by rewrite Hs.
  - unfold s1, socket_disconnect. rewrite Hs. simpl. by rewrite Hs.
Qed.

(** ** Toggles and rename: round trips *)

Lemma with_connectedUsers_insert_id (s : Server) (i : string) (u : User.t) :
  connectedUsers s !! i = Some u → with_connectedUsers (<[i := u]>) s = s.
Proof.
  intros Hu. destruct s. unfold with_connectedUsers. simpl in *. f_equal.
  by apply insert_id.
Qed.

(** X8: setting a flag of a participant with any of the three toggles and
    then setting it back to the value it had restores the server exactly,
    whoever sends the two events; each of the two events is broadcast once
    to the participant's room. *)
Theorem toggle_round_trip (s : Server) (sid sid' participantId : string) (v : bool) (u : User.t) :
  connectedUsers s !! participantId = Some u →
  (let r1 := user_muted sid participantId v s in
   let r2 := user_muted sid' participantId (User.isMuted u) r1.1 in
   r2.1 = s ∧
   r1.2 = [(ToRoomExcept (User.roomId u) sid, UserMuted participantId v)] ∧
   r2.2 = [(ToRoomExcept (User.roomId u) sid',
            UserMuted participantId (User.isMuted u))]) ∧
  (let r1 := user_video_toggled sid participantId v s in
   let r2 := user_video_toggled sid' participantId (User.isVideoOff u) r1.1 in
   r2.1 = s ∧
   r1.2 = [(ToRoomExcept (User.roomId u) sid, UserVideoToggled participantId v)] ∧
   r2.2 = [(ToRoomExcept (User.roomId u) sid',
            UserVideoToggled participantId (User.isVideoOff u))]) ∧
  (let r1 := raise_hand_toggled sid participantId v s in
   let r2 := raise_hand_toggled sid' participantId (User.isRaiseHand u) r1.1 in
   r2.1 = s ∧
   r1.2 = [(ToRoomExcept (User.roomId u) sid, RaiseHandToggled participantId v)] ∧
   r2.2 = [(ToRoomExcept (User.roomId u) sid',
            RaiseHandToggled participantId (User.isRaiseHand u))]).
Proof.
  intros Hu.
  split; [|split]; intros r1 r2; unfold r2, r1;
    unfold user_muted, user_video_toggled, raise_hand_toggled;
    rewrite Hu; simpl; rewrite lookup_insert_eq; simpl;
    (split; [|done]);
    destruct s as [users sess rms hosts creators health socks adp];
    unfold with_connectedUsers; simpl in *; f_equal;
    rewrite insert_insert_eq; apply insert_id; by destruct u.
Qed.

(** Bob raises his hand and lowers it again. *)
Lemma toggle_round_trip_witness :
  let s := (run host_and_guest initial).1 in
  (raise_hand_toggled "b" "b" false (raise_hand_toggled "b" "b" true s).1).1 = s.
Proof.
  intros s.
  assert (Hb : connectedUsers s !! "b"
               = Some (User.mk "b" "Bob" "R1" 3 3 online false false false false))
    by (vm_compute; reflexivity).
  destruct (toggle_round_trip s "b" "b" "b" true _ Hb) as (_ & _ & H).
  exact (proj1 H).
Defined.

Lemma rename_accepted (s : Server) (sid participantId newName : string) (p q : User.t) :
  connectedUsers s !! participantId = Some p →
  connectedUsers s !! sid = Some q →
  (User.isHost q || bool_decide (participantId = sid)) = true →
  User.roomId q = User.roomId p →
  rename_participant sid participantId newName s
  = (with_connectedUsers (<[participantId := User.set_name newName p]>) s,
     [(ToRoom (User.roomId p),
       ParticipantRenamed participantId (User.name p) newName)]).
Proof.
  intros Hp Hq Hauth Hroom. unfold rename_participant.
  rewrite Hp, Hq, Hauth. by rewrite bool_decide_eq_true_2.
Qed.

(** X9: a rename accepted from a sender, followed by the rename back to the
    old name from the same sender, restores the server exactly; each is
    announced to the participant's room with the old and the new name; and
    the rename does not touch the session index, which keeps listing the
    participant under the name it joined with. *)
Theorem rename_round_trip (s : Server) (sid participantId newName : string) (p q : User.t) :
  connectedUsers s !! participantId = Some p →
  connectedUsers s !! sid = Some q →
  (User.isHost q || bool_decide (participantId = sid)) = true →
  User.roomId q = User.roomId p →
  let r1 := rename_participant sid participantId newName s in
  let r2 := rename_participant sid participantId (User.name p) r1.1 in
  r2.1 = s ∧
  User.name <$> connectedUsers r1.1 !! participantId = Some newName ∧
  userSessions r1.1 = userSessions s ∧
  r1.2 = [(ToRoom (User.roomId p),
           ParticipantRenamed participantId (User.name p) newName)] ∧
  r2.2 = [(ToRoom (User.roomId p),
           ParticipantRenamed participantId newName (User.name p))].
Proof.
  intros Hp Hq Hauth Hroom r1 r2.
  assert (H1 : r1 = (with_connectedUsers
                       (<[participantId := User.set_name newName p]>) s,
                     [(ToRoom (User.roomId p),
                       ParticipantRenamed participantId (User.name p) newName)]))
    by (by apply rename_accepted with (q := q)).
  set (s1 := with_connectedUsers
               (<[participantId := User.set_name newName p]>) s) in *.
  assert (Hp1 : connectedUsers s1 !! participantId
                = Some (User.set_name newName p)).
  { unfold s1. simpl. apply lookup_insert_eq. }
  assert (Hq1 : ∃ q', connectedUsers s1 !! sid = Some q' ∧
                      User.isHost q' = User.isHost q ∧
                      User.roomId q' = User.roomId q).
  { unfold s1. simpl. destruct (decide (participantId = sid)) as [->|Hne].
    - rewrite lookup_insert_eq. exists (User.set_name newName p).
      split; [done|]. rewrite Hp in Hq. injection Hq as <-. done.
    - rewrite lookup_insert_ne by done. by exists q. }
  destruct Hq1 as (q' & Hq' & Hh' & Hr').
  assert (H2 : r2 = (with_connectedUsers
                       (<[participantId :=
                            User.set_name (User.name p) (User.set_name newName p)]>) s1,
                     [(ToRoom (User.roomId p),
                       ParticipantRenamed participantId newName (User.name p))])).
  { unfold r2. rewrite H1. simpl.
    rewrite (rename_accepted s1 sid participantId (User.name p)
               (User.set_name newName p) q' Hp1 Hq');
      [done|by rewrite Hh'|by rewrite Hr', Hroom]. }
  rewrite H1, H2. simpl. rewrite lookup_insert_eq. simpl.
  split; [|done].
  destruct s as [users sess rms hosts creators health socks adp].
  unfold s1, with_connectedUsers. simpl in *. f_equal.
  rewrite insert_insert_eq. apply insert_id. by destruct p.
Qed.

(** Bob renames himself and takes his name back. *)
Lemma rename_round_trip_witness :
  let s := (run host_and_guest initial).1 in
  (rename_participant "b" "b" "Bob"
     (rename_participant "b" "b" "Robert" s).1).1 = s.
Proof.
  intros s.
  assert (Hb : connectedUsers s !! "b"
               = Some (User.mk "b" "Bob" "R1" 3 3 online false false false false))
    by (vm_compute; reflexivity).
  destruct (rename_round_trip s "b" "b" "Robert" _ _ Hb Hb eq_refl eq_refl)
    as (H & _).
  exact H.
Defined.

(** ** Host controls *)

(** X10: a sender that is not a participant carrying the host flag in the
    room of the target's record can neither mute the target, nor toggle its
    video, nor remove it, nor hand the host role to it: the four handlers
    leave the server unchanged and emit nothing. A sender that is one
    changes the target's flag and announces it once to the whole room. *)
Theorem host_controls_need_host (s : Server) (sid participantId : string) (v : bool) (now : Z) :
  (host_over s sid participantId = false →
     host_mute_participant sid participantId v s = (s, []) ∧
     host_toggle_video sid participantId v s = (s, []) ∧
     host_remove_participant sid participantId now s = (s, []) ∧
     host_transfer sid participantId s = (s, [])) ∧
  (host_over s sid participantId = true →
     ∃ p, connectedUsers s !! participantId = Some p ∧
       host_mute_participant sid participantId v s
         = (with_connectedUsers
              (<[participantId := User.set_isMuted v p]>) s,
            [(ToRoom (User.roomId p), ParticipantForceMuted participantId v)]) ∧
       host_toggle_video sid participantId v s
         = (with_connectedUsers
              (<[participantId := User.set_isVideoOff v p]>) s,
            [(ToRoom (User.roomId p),
              ParticipantForceVideoToggle participantId v)])).
Proof.
  unfold host_over, host_mute_participant, host_toggle_video,
    host_remove_participant, host_transfer.
  destruct (connectedUsers s !! sid) as [h|],
           (connectedUsers s !! participantId) as [p|]; simpl;
    try (split; [done|discriminate]).
  split.
  - intros ->. done.
  - intros ->. by exists p.
Qed.

(** Bob, a guest, cannot mute Alice; Alice, the host, can mute Bob. *)
Lemma host_controls_need_host_witness :
  let s := (run host_and_guest initial).1 in
  host_mute_participant "b" "a" true s = (s, []) ∧
  (host_mute_participant "a" "b" true s).2
    = [(ToRoom "R1", ParticipantForceMuted "b" true)].
Proof.
  intros s.
  destruct (host_controls_need_host s "b" "a" true 0) as [H _].
  destruct H as (H1 & _); [vm_compute; reflexivity|].
  destruct (host_controls_need_host s "a" "b" true 0) as [_ H].
  destruct H as (p & Hp & H2 & _); [vm_compute; reflexivity|].
  assert (Hb : connectedUsers s !! "b"
               = Some (User.mk "b" "Bob" "R1" 3 3 online false false false false))
    by (vm_compute; reflexivity).
  rewrite Hb in Hp. injection Hp as <-.
  split; [exact H1|]. by rewrite H2.
Defined.

(** X11: when A is the only participant of room r carrying the host flag and
    B is a participant of r, the transfer from A to B makes B the only one:
    B carries the flag, A does not unless it is B, the host-map names B, and
    the room sets and the records of participants of other rooms are as
    before. *)
Theorem host_transfer_keeps_one_host (s : Server) (r A B : string) (ub : User.t) :
  sole_host s r A →
  connectedUsers s !! B = Some ub →
  User.roomId ub = r →
  let s' := (host_transfer A B s).1 in
  sole_host s' r B ∧
  roomHosts s' !! r = Some B ∧
  rooms s' = rooms s ∧
  ∀ i u, connectedUsers s !! i = Some u → User.roomId u ≠ r →
         connectedUsers s' !! i = Some u.
Proof.
  intros [(ua & HA & Hra & Hha) Huniq] HB Hrb s'.
  assert (Hs' : s' =
    with_roomHosts (<[r := B]>)
      (with_connectedUsers
         (λ m, alter (User.set_isHost true) B
                 (alter (User.set_isHost false) A m)) s)).
  { unfold s'. rewrite <- Hra.
    apply host_transfer_accepted with (new := ub); [done|done|done|congruence]. }
  rewrite Hs'. unfold sole_host. simpl. split; [split|split; [|split]].
  - destruct (decide (A = B)) as [->|Hne].
    + exists (User.set_isHost true (User.set_isHost false ua)).
      rewrite !lookup_alter_eq, HA. by destruct ua.
    + exists (User.set_isHost true ub).
      rewrite lookup_alter_eq, lookup_alter_ne, HB by done. by destruct ub.
  - intros i u. rewrite !lookup_alter.
    destruct (decide (B = i)) as [<-|HBi]; [done|].
    destruct (decide (A = i)) as [<-|HAi].
    + rewrite HA. simpl. intros [= <-]. by destruct ua.
    + intros Hi Hr Hh. exfalso. apply HAi. symmetry. by eapply Huniq.
  - apply lookup_insert_eq.
  - done.
  - intros i u Hi Hr. rewrite !lookup_alter.
    destruct (decide (B = i)) as [<-|HBi]; [congruence|].
    destruct (decide (A = i)) as [<-|HAi]; [congruence|done].
Qed.

(** Alice hands the host role of R1 to Bob. *)
Lemma host_transfer_keeps_one_host_witness :
  let s := (run host_and_guest initial).1 in
  sole_host (host_transfer "a" "b" s).1 "R1" "b".
Proof.
  intros s.
  assert (Hb : connectedUsers s !! "b"
               = Some (User.mk "b" "Bob" "R1" 3 3 online false false false false))
    by (vm_compute; reflexivity).
  assert (Hsole : sole_host s "R1" "a").
  { split.
    - eexists. split; [vm_compute; reflexivity|]. done.
    - intros i u Hi Hr Hh.
      assert (Hm : connectedUsers s = <["a" := User.mk "a" "Alice" "R1" 1 1 online false false true false]>
                     (<["b" := User.mk "b" "Bob" "R1" 3 3 online false false false false]> ∅)).
      { vm_compute. reflexivity. }
      rewrite Hm in Hi. apply lookup_insert_Some in Hi as [[<- _]|[_ Hi]]; [done|].
      apply lookup_insert_Some in Hi as [[_ <-]|[_ Hi]]; [done|].
      by rewrite lookup_empty in Hi. }
  exact (proj1 (host_transfer_keeps_one_host s "R1" "a" "b" _ Hsole Hb eq_refl)).
Defined.

(** ** The phases of join-room *)

Lemma rooms_shrunk_refl (s s' : Server) : rooms s' = rooms s → rooms_shrunk s s'.
Proof. intros Hr x. rewrite Hr. by destruct (rooms s !! x). Qed.

Lemma rooms_shrunk_trans (s1 s2 s3 : Server) :
  rooms_shrunk s1 s2 → rooms_shrunk s2 s3 → rooms_shrunk s1 s3.
Proof.
  intros H12 H23 x. specialize (H12 x). specialize (H23 x).
  destruct (rooms s1 !! x), (rooms s2 !! x), (rooms s3 !! x); try done.
  by etrans.
Qed.

Lemma rooms_shrunk_alter (s s' : Server) (o k : string) :
  rooms s' = alter (set_delete o) k (rooms s) → rooms_shrunk s s'.
Proof.
  intros Hr x. rewrite Hr, lookup_alter. case_decide as Hk.
  - subst. destruct (rooms s !! x); simpl; [|done]. apply sublist_filter.
  - by destruct (rooms s !! x).
Qed.

Lemma socket_disconnect_absent (sid reason : string) (now : Z) (s : Server) :
  connectedUsers s !! sid = None →
  let r := socket_disconnect sid reason now s in
  r.2 = [] ∧ connectedUsers r.1 = connectedUsers s ∧
  userSessions r.1 = userSessions s ∧ rooms r.1 = rooms s ∧
  roomHosts r.1 = roomHosts s ∧ roomCreators r.1 = roomCreators s.
Proof.
  intros Hu r. unfold r, socket_disconnect.
  destruct (sockets s !! sid) as [[]|]; simpl; try done.
  unfold on_disconnect.
  change (connectedUsers (with_connectionHealth (delete sid) (socket_close sid s)))
    with (connectedUsers s).
  by rewrite Hu.
Qed.

Lemma preempt_one_effect (sid userName : string) (now : Z) (oldId : string) (s : Server) :
  let r := preempt_one sid userName now oldId s in
  userSessions r.1 = userSessions s ∧ roomHosts r.1 = roomHosts s ∧
  roomCreators r.1 = roomCreators s ∧
  connectedUsers r.1
    = (if decide (oldId = sid) then connectedUsers s
       else delete oldId (connectedUsers s)) ∧
  rooms r.1
    = (if decide (oldId = sid) then rooms s
       else match connectedUsers s !! oldId with
            | Some u => alter (set_delete oldId) (User.roomId u) (rooms s)
            | None => rooms s
            end) ∧
  r.2
    = (if decide (oldId = sid) then []
       else match connectedUsers s !! oldId with
            | Some u => [(ToRoom (User.roomId u),
                          UserLeft oldId userName now "duplicate-session")]
            | None => []
            end).
Proof.
  intros r. unfold r, preempt_one.
  destruct (decide (oldId = sid)) as [->|Hne].
  { by rewrite bool_decide_eq_false_2 by (by intros ?). }
  rewrite bool_decide_eq_true_2 by done.
  destruct (connectedUsers s !! oldId) as [u|] eqn:Hu.
  - set (s1 := with_connectionHealth (delete oldId)
                 (with_connectedUsers (delete oldId)
                    (with_rooms (alter (set_delete oldId) (User.roomId u)) s))).
    destruct (socket_disconnect_absent oldId "server namespace disconnect" now s1)
      as (Ho & H1 & H2 & H3 & H4 & H5).
    { unfold s1. simpl. apply lookup_delete_eq. }
    destruct (socket_disconnect _ _ _ s1) as [s2 out2]. simpl in *.
    subst out2. by rewrite H1, H2, H3, H4, H5.
  - destruct (socket_disconnect_absent oldId "server namespace disconnect" now s Hu)
      as (Ho & H1 & H2 & H3 & H4 & H5).
    destruct (socket_disconnect _ _ _ s) as [s2 out2]. simpl in *.
    subst out2. rewrite H1, H2, H3, H4, H5. by rewrite delete_id.
Qed.

Lemma preempt_one_keeps (sid userName : string) (now : Z) (oldId : string) (s0 s : Server) :
  userSessions s = userSessions s0 ∧ roomHosts s = roomHosts s0 ∧
  roomCreators s = roomCreators s0 ∧ connectedUsers s ⊆ connectedUsers s0 ∧
  rooms_shrunk s0 s →
  let s' := (preempt_one sid userName now oldId s).1 in
  userSessions s' = userSessions s0 ∧ roomHosts s' = roomHosts s0 ∧
  roomCreators s' = roomCreators s0 ∧ connectedUsers s' ⊆ connectedUsers s0 ∧
  rooms_shrunk s0 s'.
Proof.
  intros (H1 & H2 & H3 & H4 & H5) s'.
  destruct (preempt_one_effect sid userName now oldId s)
    as (E1 & E2 & E3 & E4 & E5 & _). fold s' in E1, E2, E3, E4, E5.
  rewrite E1, E2, E3, E4. repeat split; try done.
  - destruct (decide (oldId = sid)); [done|].
    etrans; [apply delete_subseteq|done].
  - eapply rooms_shrunk_trans; [exact H5|].
    destruct (decide (oldId = sid)); [by apply rooms_shrunk_refl|].
    destruct (connectedUsers s !! oldId) as [u|].
    + by eapply rooms_shrunk_alter.
    + by apply rooms_shrunk_refl.
Qed.

Lemma preempt_one_emits (sid userName : string) (now : Z) (oldId : string) (s : Server) :
  Forall is_user_left (preempt_one sid userName now oldId s).2.
Proof.
  destruct (preempt_one_effect sid userName now oldId s) as (_ & _ & _ & _ & _ & ->).
  destruct (decide (oldId = sid)); [constructor|].
  destruct (connectedUsers s !! oldId); by repeat constructor.
Qed.

Lemma preempt_sessions_effect (sid userName : string) (now : Z) (s : Server) :
  let r := preempt_sessions sid userName now s in
  default [] (userSessions r.1 !! userName) = [] ∧
  (∀ n, n ≠ userName → userSessions r.1 !! n = userSessions s !! n) ∧
  roomHosts r.1 = roomHosts s ∧ roomCreators r.1 = roomCreators s ∧
  connectedUsers r.1 ⊆ connectedUsers s ∧ rooms_shrunk s r.1 ∧
  Forall is_user_left r.2.
Proof.
  intros r. unfold r, preempt_sessions.
  destruct (userSessions s !! userName) as [l|] eqn:Hl;
    [|simpl; rewrite Hl; repeat split; try done;
      try (by apply rooms_shrunk_refl); constructor].
  case_bool_decide as Hlen; simpl.
  { rewrite Hl. destruct l; [|done]. repeat split; try done;
      try (by apply rooms_shrunk_refl); constructor. }
  pose proof (for_each_preserves
                (λ s', userSessions s' = userSessions s ∧ roomHosts s' = roomHosts s ∧
                       roomCreators s' = roomCreators s ∧
                       connectedUsers s' ⊆ connectedUsers s ∧ rooms_shrunk s s')
                (preempt_one sid userName now) l
                (λ x s', preempt_one_keeps sid userName now x s s') s) as Hk.
  pose proof (for_each_emissions is_user_left (preempt_one sid userName now) l
                (preempt_one_emits sid userName now) s) as He.
  destruct (for_each _ l s) as [s1 out]. simpl in *.
  destruct Hk as (H1 & H2 & H3 & H4 & H5).
  { repeat split; try done. by apply rooms_shrunk_refl. }
  rewrite H1. repeat split; try done.
  - by rewrite lookup_alter_eq, Hl.
  - intros n Hn. by rewrite lookup_alter_ne.
Qed.

Lemma remove_stale_keeps (sid roomId : string) (now : Z) (x : string) (s0 s : Server) :
  userSessions s = userSessions s0 ∧ roomHosts s = roomHosts s0 ∧
  roomCreators s = roomCreators s0 ∧ connectedUsers s ⊆ connectedUsers s0 ∧
  rooms_shrunk s0 s →
  let s' := (remove_stale sid roomId now x s).1 in
  userSessions s' = userSessions s0 ∧ roomHosts s' = roomHosts s0 ∧
  roomCreators s' = roomCreators s0 ∧ connectedUsers s' ⊆ connectedUsers s0 ∧
  rooms_shrunk s0 s'.
Proof.
  intros (H1 & H2 & H3 & H4 & H5) s'. unfold s', remove_stale. simpl.
  repeat split; try done.
  - etrans; [apply delete_subseteq|done].
  - eapply rooms_shrunk_trans; [exact H5|]. by eapply rooms_shrunk_alter.
Qed.

Lemma cleanup_room_effect (sid roomId userName : string) (now : Z) (s : Server) :
  let r := cleanup_room sid roomId userName now s in
  userSessions r.1 = userSessions s ∧ roomHosts r.1 = roomHosts s ∧
  roomCreators r.1 = roomCreators s ∧ connectedUsers r.1 ⊆ connectedUsers s ∧
  rooms_shrunk s r.1 ∧ Forall is_user_left r.2.
Proof.
  intros r. unfold r, cleanup_room.
  pose proof (for_each_preserves
                (λ s', userSessions s' = userSessions s ∧ roomHosts s' = roomHosts s ∧
                       roomCreators s' = roomCreators s ∧
                       connectedUsers s' ⊆ connectedUsers s ∧ rooms_shrunk s s')
                (remove_stale sid roomId now) (socketsToRemove s sid roomId userName)
                (λ x s', remove_stale_keeps sid roomId now x s s') s) as Hk.
  pose proof (for_each_emissions is_user_left (remove_stale sid roomId now)
                (socketsToRemove s sid roomId userName)) as He.
  destruct Hk as (H1 & H2 & H3 & H4 & H5).
  { repeat split; try done. by apply rooms_shrunk_refl. }
  repeat split; try done. apply He. intros x s'.
  rewrite remove_stale_emission. by repeat constructor.
Qed.

Lemma set_add_elem (x y : string) (l : list string) :
  y ∈ set_add x l ↔ y = x ∨ y ∈ l.
Proof.
  unfold set_add. case_bool_decide as Hx.
  - split; [by right|]. by intros [->|?].
  - rewrite elem_of_app, list_elem_of_singleton. tauto.
Qed.

Lemma set_add_NoDup (x : string) (l : list string) : NoDup l → NoDup (set_add x l).
Proof.
  intros Hl. unfold set_add. case_bool_decide as Hx; [done|].
  apply NoDup_app. split; [done|]. split; [|apply NoDup_singleton].
  intros y Hy ->%list_elem_of_singleton. done.
Qed.

Lemma set_add_length (x : string) (l : list string) :
  length (set_add x l) ≤ S (length l).
Proof.
  unfold set_add. case_bool_decide; [lia|]. rewrite length_app. simpl. lia.
Qed.

Lemma participant_view_id (s : Server) (l : list string) :
  map p_id (map (participant_view s) l) = l.
Proof.
  induction l as [|i l IH]; simpl; [done|]. rewrite IH. f_equal.
  unfold participant_view. by destruct (connectedUsers s !! i).
Qed.

Lemma enter_room_effect (sid roomId userName : string) (userId : option string) (now : Z) (s : Server) :
  let r := enter_room sid roomId userName userId now s in
  let l' := set_add sid (members s roomId) in
  ∃ h,
    connectedUsers r.1 !! sid
      = Some (User.mk sid userName roomId now now online false false h false) ∧
    (h = true → roomHosts r.1 !! roomId = Some sid) ∧
    (members s roomId = [] → h = true) ∧
    rooms r.1 = <[roomId := l']> (rooms s) ∧
    userSessions r.1 = userSessions s ∧ roomCreators r.1 = roomCreators s ∧
    dom (connectedUsers r.1) = {[ sid ]} ∪ dom (connectedUsers s) ∧
    r.2 = [(ToRoomExcept roomId sid,
            UserJoined (mkParticipant sid userName false false h false))]
          ++ (if h then [(ToRoom roomId, HostStatusUpdate sid userName)] else [])
          ++ [(ToSocket sid,
               CurrentParticipants
                 (map (participant_view r.1) (filter (λ i, i ≠ sid) l')));
              (ToRoom roomId, ParticipantCount (length l'))].
Proof.
  intros r l'. unfold r, l', enter_room, members.
  set (isCreator := match userId with
                    | Some u => truthy u && bool_decide (roomCreators s !! roomId = Some u)
                    | None => false
                    end).
  set (isRoomCreator := bool_decide (length (default [] (rooms s !! roomId)) = 0)).
  set (currentHostExists := match roomHosts s !! roomId with
                            | Some h => truthy h && bool_decide (is_Some (connectedUsers s !! h))
                            | None => false
                            end).
  exists (isCreator || isRoomCreator || negb currentHostExists).
  destruct (isCreator || isRoomCreator || negb currentHostExists) eqn:Hh; simpl.
  - destruct (roomHosts s !! roomId) as [h0|] eqn:Hh0; simpl.
    + destruct (isCreator && currentHostExists && negb (bool_decide (h0 = sid)))
        eqn:Hd; simpl.
      * assert (Hne : h0 ≠ sid).
        { apply andb_true_iff in Hd as [_ Hd]. apply negb_true_iff in Hd.
          by apply bool_decide_eq_false_1 in Hd. }
        rewrite lookup_alter_ne by done.
        rewrite !lookup_insert_eq, dom_alter_L, dom_insert_L.
        repeat split; try done.
      * rewrite !lookup_insert_eq, dom_insert_L. repeat split; try done.
    + rewrite !lookup_insert_eq, dom_insert_L. repeat split; try done.
  - rewrite lookup_insert_eq, dom_insert_L. repeat split; try done.
    intros Hempty. exfalso. unfold isRoomCreator in Hh. rewrite Hempty in Hh.
    simpl in Hh. by rewrite orb_true_r in Hh.
Qed.

Lemma get_or_create_room_members (roomId : string) (userId : option string) (s : Server) :
  is_Some (rooms (get_or_create_room roomId userId s) !! roomId) ∧
  members (get_or_create_room roomId userId s) roomId = members s roomId ∧
  connectedUsers (get_or_create_room roomId userId s) = connectedUsers s ∧
  userSessions (get_or_create_room roomId userId s) = userSessions s ∧
  sockets (get_or_create_room roomId userId s) = sockets s ∧
  adapterRooms (get_or_create_room roomId userId s) = adapterRooms s.
Proof.
  unfold get_or_create_room, members.
  destruct (rooms s !! roomId) as [l|] eqn:Hl.
  - rewrite Hl. repeat split; eauto.
  - destruct userId as [u|]; [destruct (truthy u)|]; simpl;
      rewrite lookup_insert_eq; repeat split; eauto.
Qed.

Lemma join_room_accepted (sid roomId userName : string) (userId : option string) (now : Z) (s : Server) :
  passes_checks roomId userName s = true →
  length (members s roomId) < MAX_ROOM_SIZE →
  join_room sid (JoinRoom.mk (Some roomId) (Some userName) userId) now s
  = join_accepted sid roomId userName userId now
      (get_or_create_room roomId userId s).
Proof.
  intros Hp Hlen. unfold passes_checks in Hp.
  apply andb_true_iff in Hp as [Hp Hcap].
  apply andb_true_iff in Hp as [Hp Hfmt].
  apply andb_true_iff in Hp as [Ht1 Ht2].
  apply negb_true_iff in Hfmt. apply bool_decide_eq_true_1 in Hcap.
  unfold join_room. simpl. rewrite Ht1, Ht2, Hfmt. simpl.
  rewrite (bool_decide_eq_false_2 (MAX_TOTAL_USERS ≤ _)) by lia.
  destruct (get_or_create_room_members roomId userId s) as (_ & Hm & _).
  unfold members in Hm. rewrite Hm.
  by rewrite bool_decide_eq_false_2 by (unfold members in Hlen; lia).
Qed.

Lemma join_accepted_effect (sid roomId userName : string) (userId : option string) (now : Z) (s0 : Server) :
  let r := join_accepted sid roomId userName userId now s0 in
  ∃ s3 pre,
    r.1 = (enter_room sid roomId userName userId now s3).1 ∧
    r.2 = pre ++ (enter_room sid roomId userName userId now s3).2 ∧
    Forall is_user_left pre ∧
    userSessions s3 !! userName = Some [sid] ∧
    (∀ n, n ≠ userName → userSessions s3 !! n = userSessions s0 !! n) ∧
    rooms_shrunk s0 s3 ∧ connectedUsers s3 ⊆ connectedUsers s0 ∧
    roomHosts s3 = roomHosts s0 ∧ roomCreators s3 = roomCreators s0 ∧
    sid ∈ default ∅ (adapterRooms s3 !! roomId).
Proof.
  intros r. unfold r, join_accepted.
  destruct (preempt_sessions_effect sid userName now s0)
    as (P1 & P2 & P3 & P4 & P5 & P6 & P7).
  destruct (preempt_sessions sid userName now s0) as [s1 o1]. simpl in *.
  set (s2 := socket_join sid roomId (add_session sid userName s1)).
  destruct (cleanup_room_effect sid roomId userName now s2)
    as (C1 & C2 & C3 & C4 & C5 & C6).
  destruct (cleanup_room_transport sid roomId userName now s2) as [_ Ctr].
  destruct (cleanup_room sid roomId userName now s2) as [s3 o2]. simpl in *.
  exists s3, (o1 ++ o2).
  destruct (enter_room sid roomId userName userId now s3) as [s4 o3]. simpl.
  split; [done|]. split; [by rewrite app_assoc|].
  split; [by apply Forall_app|].
  rewrite C1, C2, C3, Ctr. unfold s2. simpl.
  split; [by rewrite lookup_insert_eq, P1|].
  split; [intros n Hn; rewrite lookup_insert_ne by done; by apply P2|].
  split; [eapply rooms_shrunk_trans; [exact P6|exact C5]|].
  split; [by etrans|].
  split; [done|]. split; [done|].
  rewrite lookup_insert_eq. simpl. apply elem_of_union. left.
  by apply elem_of_singleton.
Qed.

(** ** What an accepted join establishes *)

(** X12: when the payload passes the checks and the room has fewer than
    fifty members, the join registers the joiner: its record carries the
    joining name and room, the join time, status online and cleared mute,
    video and raised-hand flags; it is in the room's set and in the
    transport room; the session set of its name is exactly the joiner; the
    host-map names it whenever its record carries the host flag; and nobody
    but the joiner is added to the room. *)
Theorem join_registers (sid roomId userName : string) (userId : option string) (now : Z) (s : Server) :
  passes_checks roomId userName s = true →
  length (members s roomId) < MAX_ROOM_SIZE →
  let r := join_room sid (JoinRoom.mk (Some roomId) (Some userName) userId) now s in
  (∃ h, connectedUsers r.1 !! sid
          = Some (User.mk sid userName roomId now now online false false h false) ∧
        (h = true → roomHosts r.1 !! roomId = Some sid)) ∧
  sid ∈ members r.1 roomId ∧
  sid ∈ default ∅ (adapterRooms r.1 !! roomId) ∧
  userSessions r.1 !! userName = Some [sid] ∧
  ∀ i, i ∈ members r.1 roomId → i = sid ∨ i ∈ members s roomId.
Proof.
  intros Hp Hlen r. unfold r. rewrite join_room_accepted by done.
  set (s0 := get_or_create_room roomId userId s).
  destruct (get_or_create_room_members roomId userId s) as (_ & Hm0 & _).
  fold s0 in Hm0.
  destruct (join_accepted_effect sid roomId userName userId now s0)
    as (s3 & pre & E1 & _ & _ & Hsess & _ & Hshr & _ & _ & _ & Hadp).
  rewrite E1.
  destruct (enter_room_effect sid roomId userName userId now s3)
    as (h & Hu & Hh & _ & Hr & Hs & _ & _ & _).
  destruct (enter_room_transport sid roomId userName userId now s3) as [_ Htr].
  split; [by exists h|].
  unfold members. rewrite Hr, Hs, Htr, lookup_insert_eq. simpl.
  split; [apply set_add_elem; by left|]. split; [done|]. split; [done|].
  intros i [->|Hi]%set_add_elem; [by left|]. right.
  unfold members in Hm0, Hi. rewrite <- Hm0. specialize (Hshr roomId).
  destruct (rooms s0 !! roomId), (rooms s3 !! roomId); simpl in *; try done.
  eapply elem_of_sublist; eauto.
Qed.

(** Carol joins R1, where Alice and Bob are. *)
Lemma join_registers_witness :
  let s := (run (host_and_guest ++ [Connect "c" 4]) initial).1 in
  let r := join_room "c" (JoinRoom.mk (Some "R1") (Some "Carol") None) 5 s in
  "c" ∈ members r.1 "R1" ∧ userSessions r.1 !! "Carol" = Some ["c"].
Proof.
  intros s r.
  destruct (join_registers "c" "R1" "Carol" None 5 s) as (_ & H1 & _ & H2 & _).
  - vm_compute. reflexivity.
  - vm_compute. lia.
  - split; [exact H1|exact H2].
Defined.

(** X13: the emissions of an accepted join are, in order: user-left events
    only (for the preempted sessions and the stale entries), then
    user-joined to the others in the room, then host-status-update to the
    room if the joiner is host, then current-participants to the joiner
    alone, listing the other members of the room's set in the set's order
    and never the joiner, then participant-count to the room with the size
    the room's set has when the handler ends. *)
Theorem join_emissions (sid roomId userName : string) (userId : option string) (now : Z) (s : Server) :
  passes_checks roomId userName s = true →
  length (members s roomId) < MAX_ROOM_SIZE →
  let r := join_room sid (JoinRoom.mk (Some roomId) (Some userName) userId) now s in
  ∃ pre h ps,
    r.2 = pre
          ++ [(ToRoomExcept roomId sid,
               UserJoined (mkParticipant sid userName false false h false))]
          ++ (if h then [(ToRoom roomId, HostStatusUpdate sid userName)] else [])
          ++ [(ToSocket sid, CurrentParticipants ps);
              (ToRoom roomId, ParticipantCount (length (members r.1 roomId)))] ∧
    Forall is_user_left pre ∧
    h = is_host r.1 sid ∧
    map p_id ps = filter (λ i, i ≠ sid) (members r.1 roomId) ∧
    sid ∉ map p_id ps.
Proof.
  intros Hp Hlen r. unfold r. rewrite join_room_accepted by done.
  set (s0 := get_or_create_room roomId userId s).
  destruct (join_accepted_effect sid roomId userName userId now s0)
    as (s3 & pre & E1 & E2 & Hpre & _).
  rewrite E1, E2.
  destruct (enter_room_effect sid roomId userName userId now s3)
    as (h & Hu & _ & _ & Hr & _ & _ & _ & Hout).
  rewrite Hout.
  exists pre, h,
    (map (participant_view (enter_room sid roomId userName userId now s3).1)
       (filter (λ i, i ≠ sid) (set_add sid (members s3 roomId)))).
  assert (Hm : members (enter_room sid roomId userName userId now s3).1 roomId
               = set_add sid (members s3 roomId)).
  { unfold members at 1. by rewrite Hr, lookup_insert_eq. }
  rewrite Hm. split; [done|]. split; [done|].
  split; [unfold is_host; by rewrite Hu|].
  rewrite participant_view_id. split; [done|].
  by intros [Hn _]%list_elem_of_filter.
Qed.

(** Carol's join of R1: she is told about Alice and Bob, in that order. *)
Lemma join_emissions_witness :
  let s := (run (host_and_guest ++ [Connect "c" 4]) initial).1 in
  let r := join_room "c" (JoinRoom.mk (Some "R1") (Some "Carol") None) 5 s in
  ∃ pre h ps,
    r.2 = pre
          ++ [(ToRoomExcept "R1" "c",
               UserJoined (mkParticipant "c" "Carol" false false h false))]
          ++ (if h then [(ToRoom "R1", HostStatusUpdate "c" "Carol")] else [])
          ++ [(ToSocket "c", CurrentParticipants ps);
              (ToRoom "R1", ParticipantCount (length (members r.1 "R1")))] ∧
    map p_id ps = filter (λ i, i ≠ "c") (members r.1 "R1").
Proof.
  intros s r.
  destruct (join_emissions "c" "R1" "Carol" None 5 s)
    as (pre & h & ps & H1 & _ & _ & H2 & _).
  - vm_compute. reflexivity.
  - vm_compute. lia.
  - by exists pre, h, ps.
Defined.

(** ** Refused joins and new rooms *)

(** X14: a join that is answered with a join-error, whatever the reason,
    changes nothing in the server and emits nothing but that one error, to
    the joiner alone; the reason is one of four. *)
Theorem refused_join_changes_nothing (sid : string) (a : JoinRoom.t) (now : Z) (s : Server) (d : Dest) (msg : string) :
  (d, JoinError msg) ∈ (join_room sid a now s).2 →
  join_room sid a now s = (s, [(ToSocket sid, JoinError msg)]) ∧
  msg ∈ ["Invalid room ID or username"; "Invalid username format";
         "Server at capacity"; "Room is full"].
Proof.
  assert (Hone : ∀ m, (d, JoinError msg) ∈ [(ToSocket sid, JoinError m)] →
                      (s, [(ToSocket sid, JoinError m)])
                      = (s, [(ToSocket sid, JoinError msg)]) ∧ m = msg).
  { intros m [= -> ->]%list_elem_of_singleton. done. }
  assert (Hacc : ∀ roomId userName uid s0,
            ¬ (d, JoinError msg) ∈ (join_accepted sid roomId userName uid now s0).2).
  { intros roomId userName uid s0 Hin.
    pose proof (join_accepted_out sid roomId userName uid now s0) as Hout.
    rewrite Forall_forall in Hout. by apply Hout in Hin. }
  unfold join_room.
  destruct (JoinRoom.roomId a) as [roomId|], (JoinRoom.userName a) as [userName|];
    try (intros Hin; destruct (Hone _ Hin) as [-> <-]; split; [done|]; repeat constructor).
  destruct (negb (truthy roomId) || negb (truthy userName));
    [intros Hin; destruct (Hone _ Hin) as [-> <-]; split; [done|]; repeat constructor|].
  destruct (includes "-" userName && bool_decide (10 < js_length userName));
    [intros Hin; destruct (Hone _ Hin) as [-> <-]; split; [done|]; repeat constructor|].
  destruct (bool_decide (MAX_TOTAL_USERS ≤ size (connectedUsers s)));
    [intros Hin; destruct (Hone _ Hin) as [-> <-]; split; [done|]; repeat constructor|].
  destruct (rooms s !! roomId) as [l|] eqn:Hroom.
  - rewrite get_or_create_room_existing by (by rewrite Hroom).
    destruct (bool_decide (MAX_ROOM_SIZE ≤ length (default [] (rooms s !! roomId))));
      [intros Hin; destruct (Hone _ Hin) as [-> <-]; split; [done|]; repeat constructor|].
    by intros ?%Hacc.
  - rewrite get_or_create_room_fresh by done. simpl. by intros ?%Hacc.
Qed.

(** A name that looks like a room id is refused, and the server stays as it
    was. *)
Lemma refused_join_changes_nothing_witness :
  let s := (run bystander initial).1 in
  join_room "c" (join_args "R1" "room-1234567") 3 s
  = (s, [(ToSocket "c", JoinError "Invalid username format")]).
Proof.
  intros s.
  destruct (refused_join_changes_nothing "c" (join_args "R1" "room-1234567") 3 s
              (ToSocket "c") "Invalid username format") as [H _].
  - apply (bool_decide_unpack _). vm_compute. exact I.
  - exact H.
Defined.

Lemma sublist_of_nil_shrunk (s0 s : Server) (x : string) :
  rooms_shrunk s0 s → rooms s0 !! x = Some [] → rooms s !! x = Some [].
Proof.
  intros Hshr Hx. specialize (Hshr x). rewrite Hx in Hshr.
  destruct (rooms s !! x) as [l|]; [|done].
  by apply sublist_nil_r in Hshr as ->.
Qed.

(** X15: a join that passes the checks for a room that has no record creates
    the room with the joiner as its only member and its host: the record
    carries the host flag, the host-map names the joiner, a truthy user id
    is remembered as the room's creator, and host-status-update is sent to
    the room. *)
Theorem first_joiner_hosts (sid roomId userName : string) (userId : option string) (now : Z) (s : Server) :
  passes_checks roomId userName s = true →
  rooms s !! roomId = None →
  let r := join_room sid (JoinRoom.mk (Some roomId) (Some userName) userId) now s in
  rooms r.1 !! roomId = Some [sid] ∧
  is_host r.1 sid = true ∧
  roomHosts r.1 !! roomId = Some sid ∧
  (∀ u, userId = Some u → truthy u = true → roomCreators r.1 !! roomId = Some u) ∧
  (ToRoom roomId, HostStatusUpdate sid userName) ∈ r.2.
Proof.
  intros Hp Hnone r. unfold r.
  rewrite join_room_accepted; [|done|unfold members; rewrite Hnone; simpl;
                                      unfold MAX_ROOM_SIZE; lia].
  set (s0 := get_or_create_room roomId userId s).
  assert (H0 : rooms s0 !! roomId = Some []) by (by apply get_or_create_room_fresh).
  assert (Hcr : ∀ u, userId = Some u → truthy u = true →
                     roomCreators s0 !! roomId = Some u).
  { intros u -> Hu. unfold s0, get_or_create_room. rewrite Hnone, Hu. simpl.
    apply lookup_insert_eq. }
  destruct (join_accepted_effect sid roomId userName userId now s0)
    as (s3 & pre & E1 & E2 & _ & _ & _ & Hshr & _ & _ & Hc3 & _).
  rewrite E1, E2.
  pose proof (sublist_of_nil_shrunk s0 s3 roomId Hshr H0) as H3.
  destruct (enter_room_effect sid roomId userName userId now s3)
    as (h & Hu & Hh & Hempty & Hr & _ & Hc & _ & Hout).
  assert (Hm : members s3 roomId = []) by (unfold members; by rewrite H3).
  specialize (Hempty Hm). subst h. rewrite Hm in Hr.
  split; [by rewrite Hr, lookup_insert_eq|].
  split; [unfold is_host; by rewrite Hu|].
  split; [by apply Hh|].
  split; [intros u Hu1 Hu2; rewrite Hc, Hc3; by apply Hcr|].
  rewrite Hout. apply elem_of_app. right. simpl. repeat constructor.
Qed.

(** Dave opens the room R9 as user u9. *)
Lemma first_joiner_hosts_witness :
  let s := (run [Connect "d" 0] initial).1 in
  let r := join_room "d" (JoinRoom.mk (Some "R9") (Some "Dave") (Some "u9")) 1 s in
  rooms r.1 !! "R9" = Some ["d"] ∧ roomHosts r.1 !! "R9" = Some "d" ∧
  roomCreators r.1 !! "R9" = Some "u9".
Proof.
  intros s r.
  destruct (first_joiner_hosts "d" "R9" "Dave" (Some "u9") 1 s)
    as (H1 & _ & H2 & H3 & _).
  - vm_compute. reflexivity.
  - vm_compute. reflexivity.
  - split; [exact H1|]. split; [exact H2|]. by apply H3.
Defined.

(** ** The host decision of join-room *)

(** X16: the host decision at the end of join-room, when the host-map names
    a participant other than the joiner that has a record. If the joiner's
    user id is the room's recorded creator, the joiner becomes host, the
    incumbent loses the flag and the host-map names the joiner. If it is
    not, and the room is not empty, the joiner does not become host and the
    incumbent and the host-map stay. In both cases the records of all other
    participants are untouched. *)
Theorem join_host_decision (sid roomId userName : string) (userId : option string) (now : Z) (s : Server) (h0 : string) (u0 : User.t) :
  roomHosts s !! roomId = Some h0 →
  truthy h0 = true →
  h0 ≠ sid →
  connectedUsers s !! h0 = Some u0 →
  let r := enter_room sid roomId userName userId now s in
  ((∃ u, userId = Some u ∧ truthy u = true ∧ roomCreators s !! roomId = Some u) →
     is_host r.1 sid = true ∧
     connectedUsers r.1 !! h0 = Some (User.set_isHost false u0) ∧
     roomHosts r.1 !! roomId = Some sid) ∧
  ((∀ u, userId = Some u → truthy u = true → roomCreators s !! roomId ≠ Some u) →
   members s roomId ≠ [] →
     is_host r.1 sid = false ∧
     connectedUsers r.1 !! h0 = Some u0 ∧
     roomHosts r.1 = roomHosts s) ∧
  ∀ i, i ≠ sid → i ≠ h0 → connectedUsers r.1 !! i = connectedUsers s !! i.
Proof.
  intros Hh0 Ht0 Hne Hu0 r. unfold r, enter_room, is_host, members.
  rewrite Hh0, Ht0, Hu0. simpl.
  rewrite (bool_decide_eq_false_2 (h0 = sid)) by done. simpl.
  rewrite ?orb_false_r, ?andb_true_r.
  split; [|split].
  - intros (u & -> & Hu & Hc). rewrite Hu, Hc. simpl.
    rewrite bool_decide_eq_true_2 by done. simpl.
    rewrite lookup_alter_ne by done. rewrite lookup_insert_eq. simpl.
    split; [done|]. split; [|apply lookup_insert_eq].
    rewrite lookup_alter_eq, lookup_insert_ne by done. by rewrite Hu0.
  - intros Hnc Hmem.
    assert (Hc : match userId with
                 | Some u => truthy u && bool_decide (roomCreators s !! roomId = Some u)
                 | None => false
                 end = false).
    { destruct userId as [u|]; [|done]. destruct (truthy u) eqn:Hu; [|done].
      simpl. apply bool_decide_eq_false_2. by apply Hnc. }
    rewrite Hc. simpl.
    rewrite bool_decide_eq_false_2
      by (destruct (default [] (rooms s !! roomId)); [done|simpl; lia]).
    simpl. rewrite lookup_insert_eq. simpl.
    split; [done|]. split; [|done]. by rewrite lookup_insert_ne.
  - intros i Hi1 Hi2.
    repeat case_match; simpl; rewrite ?lookup_alter_ne by done;
      by rewrite lookup_insert_ne.
Qed.

(** Ann has created R1 as user u1, handed the host role to Bob and left;
    she comes back on a new connection. *)
Lemma join_host_decision_witness :
  let s := (run [Connect "a" 0;
                 Join "a" (JoinRoom.mk (Some "R1") (Some "Ann") (Some "u1")) 1;
                 Connect "b" 2; Join "b" (join_args "R1" "Bob") 3;
                 HostTransfer "a" "b"; Disconnect "a" "transport close" 4;
                 Connect "a2" 5] initial).1 in
  let r := enter_room "a2" "R1" "Ann" (Some "u1") 6 s in
  is_host r.1 "a2" = true ∧ is_host r.1 "b" = false.
Proof.
  intros s r.
  assert (Hb : connectedUsers s !! "b"
               = Some (User.mk "b" "Bob" "R1" 3 3 online false false true false))
    by (vm_compute; reflexivity).
  assert (Hh : roomHosts s !! "R1" = Some "b") by (vm_compute; reflexivity).
  assert (Hc : roomCreators s !! "R1" = Some "u1") by (vm_compute; reflexivity).
  destruct (join_host_decision "a2" "R1" "Ann" (Some "u1") 6 s "b" _
              Hh eq_refl ltac:(done) Hb) as (H & _).
  destruct H as (H1 & H2 & _); [by exists "u1"|].
  split; [exact H1|]. unfold is_host, r. by rewrite H2.
Defined.

(** ** Capacity *)

Lemma not_grown_refl (s s' : Server) :
  rooms s' = rooms s → dom (connectedUsers s') ⊆ dom (connectedUsers s) →
  not_grown s s'.
Proof. intros Hr Hu. split; [|done]. intros x l'. rewrite Hr. eauto. Qed.

Lemma not_grown_trans (s1 s2 s3 : Server) :
  not_grown s1 s2 → not_grown s2 s3 → not_grown s1 s3.
Proof.
  intros [Hr12 Hu12] [Hr23 Hu23]. split; [|by etrans].
  intros x l3 H3. destruct (Hr23 x l3 H3) as (l2 & H2 & Hs23).
  destruct (Hr12 x l2 H2) as (l1 & H1 & Hs12). exists l1. split; [done|by etrans].
Qed.

Lemma rooms_shrunk_not_grown (s s' : Server) :
  rooms_shrunk s s' → connectedUsers s' ⊆ connectedUsers s → not_grown s s'.
Proof.
  intros Hshr Hu. split; [|by apply subseteq_dom].
  intros x l' Hl'. specialize (Hshr x). rewrite Hl' in Hshr.
  destruct (rooms s !! x) as [l|]; [|done]. eauto.
Qed.

Lemma not_grown_capacity (s s' : Server) :
  not_grown s s' → within_capacity s → within_capacity s'.
Proof.
  intros [Hr Hu] [Hrooms Hsize]. split.
  - intros x l' Hl'. destruct (Hr x l' Hl') as (l & Hl & Hsub).
    destruct (Hrooms x l Hl) as [Hnd Hlen]. split.
    + by eapply sublist_NoDup.
    + apply sublist_length in Hsub. lia.
  - apply subseteq_size in Hu. rewrite !size_dom in Hu. lia.
Qed.

Lemma disconnect_room_not_grown (sid : string) (user : User.t) (s : Server) :
  not_grown s (disconnect_room sid user s).1.
Proof.
  unfold disconnect_room.
  destruct (rooms s !! User.roomId user) as [l|] eqn:Hl; [|by apply not_grown_refl].
  assert (Hrooms : ∀ x l', (<[User.roomId user := set_delete sid l]> (rooms s)) !! x = Some l' →
                           ∃ l0, rooms s !! x = Some l0 ∧ l' `sublist_of` l0).
  { intros x l'. destruct (decide (User.roomId user = x)) as [<-|Hx].
    - rewrite lookup_insert_eq. intros [= <-]. exists l. split; [done|].
      apply sublist_filter.
    - rewrite lookup_insert_ne by done. eauto. }
  assert (Hdel : ∀ x l', delete (User.roomId user)
                           (<[User.roomId user := set_delete sid l]> (rooms s)) !! x = Some l' →
                         ∃ l0, rooms s !! x = Some l0 ∧ l' `sublist_of` l0).
  { intros x l' [_ Hx]%lookup_delete_Some. by apply Hrooms. }
  unfold disconnect_elect.
  repeat case_match; simplify_eq; simpl; (split; simpl; [done|]); try done.
  all: rewrite dom_insert_lookup_L; [done|eauto].
Qed.

Lemma on_disconnect_not_grown (sid reason : string) (now : Z) (s : Server) :
  not_grown s (on_disconnect sid reason now s).1.
Proof.
  unfold on_disconnect. destruct (connectedUsers s !! sid) as [user|];
    [|by apply not_grown_refl].
  destruct (disconnect_sessions_other sid user s) as (Hu & Hr & _).
  pose proof (disconnect_room_not_grown sid user (disconnect_sessions sid user s))
    as [Hrooms Husers].
  destruct (disconnect_room _ _ _) as [s1 out]. simpl in *.
  split; simpl.
  - intros x l' Hl'. rewrite <- Hr. by apply Hrooms.
  - rewrite dom_delete_L, <- Hu. intros i [Hi _]%elem_of_difference. by apply Husers.
Qed.

Lemma socket_disconnect_not_grown (sid reason : string) (now : Z) (s : Server) :
  not_grown s (socket_disconnect sid reason now s).1.
Proof.
  unfold socket_disconnect.
  destruct (sockets s !! sid) as [[]|]; try (by apply not_grown_refl).
  apply (on_disconnect_not_grown sid reason now
           (with_connectionHealth (delete sid) (socket_close sid s))).
Qed.

Lemma join_accepted_capacity (sid roomId userName : string) (userId : option string) (now : Z) (s0 : Server) :
  within_capacity s0 →
  length (members s0 roomId) < MAX_ROOM_SIZE →
  size (connectedUsers s0) < MAX_TOTAL_USERS →
  within_capacity (join_accepted sid roomId userName userId now s0).1.
Proof.
  intros [Hrooms Hsize] Hlen Hcap.
  destruct (join_accepted_effect sid roomId userName userId now s0)
    as (s3 & pre & E1 & _ & _ & _ & _ & Hshr & Hsub & _).
  rewrite E1.
  destruct (enter_room_effect sid roomId userName userId now s3)
    as (h & _ & _ & _ & Hr & _ & _ & Hdom & _).
  destruct (not_grown_capacity s0 s3 (rooms_shrunk_not_grown _ _ Hshr Hsub)
              (conj Hrooms Hsize)) as [Hrooms3 Hsize3].
  assert (Hsub3 : members s3 roomId `sublist_of` members s0 roomId).
  { unfold members. specialize (Hshr roomId).
    destruct (rooms s0 !! roomId), (rooms s3 !! roomId); simpl; try done. }
  assert (Hnd0 : NoDup (members s0 roomId)).
  { unfold members. destruct (rooms s0 !! roomId) as [l|] eqn:Hl; simpl.
    - by destruct (Hrooms _ _ Hl). - constructor. }
  split.
  - intros x l'. rewrite Hr. destruct (decide (roomId = x)) as [<-|Hx].
    + rewrite lookup_insert_eq. intros [= <-]. split.
      * apply set_add_NoDup. by eapply sublist_NoDup.
      * pose proof (set_add_length sid (members s3 roomId)).
        apply sublist_length in Hsub3. lia.
    + rewrite lookup_insert_ne by done. apply Hrooms3.
  - rewrite <- size_dom, Hdom, size_union_alt, size_singleton.
    etrans; [apply Nat.add_le_mono_l, (subseteq_size _ (dom (connectedUsers s3)));
             by intros i [Hi _]%elem_of_difference|].
    rewrite size_dom. apply map_subseteq_size in Hsub. lia.
Qed.

Lemma join_room_capacity (sid : string) (a : JoinRoom.t) (now : Z) (s : Server) :
  within_capacity s → within_capacity (join_room sid a now s).1.
Proof.
  intros Hcap. unfold join_room.
  destruct (JoinRoom.roomId a) as [roomId|], (JoinRoom.userName a) as [userName|];
    try done.
  destruct (negb (truthy roomId) || negb (truthy userName)); [done|].
  destruct (includes "-" userName && bool_decide (10 < js_length userName));
    [done|].
  destruct (bool_decide (MAX_TOTAL_USERS ≤ size (connectedUsers s))) eqn:Hfull;
    [done|]. apply bool_decide_eq_false_1 in Hfull.
  set (s0 := get_or_create_room roomId (JoinRoom.userId a) s).
  destruct (get_or_create_room_members roomId (JoinRoom.userId a) s)
    as (_ & Hm & Hu & _). fold s0 in Hm, Hu.
  assert (Hcap0 : within_capacity s0).
  { destruct Hcap as [Hrooms Hsize]. split; [|by rewrite Hu].
    unfold s0, get_or_create_room.
    destruct (rooms s !! roomId) eqn:Hroom; [done|].
    assert (Hins : map_Forall (λ _ l, NoDup l ∧ length l ≤ MAX_ROOM_SIZE)
                     (<[roomId := []]> (rooms s))).
    { apply map_Forall_insert_2; [|done]. split; [constructor|simpl; lia]. }
    destruct (JoinRoom.userId a) as [u|]; [destruct (truthy u)|]; done. }
  destruct (bool_decide (MAX_ROOM_SIZE ≤ length (default [] (rooms s0 !! roomId))))
    eqn:Hroomfull; [done|]. apply bool_decide_eq_false_1 in Hroomfull.
  apply join_accepted_capacity; [done|unfold members; lia|rewrite Hu; lia].
Qed.

Lemma performCleanup_not_grown (now : Z) (s : Server) :
  not_grown s (performCleanup now s).
Proof.
  split.
  - intros x l' [Hl _]%performCleanup_rooms. eauto.
  - unfold performCleanup. simpl. apply dom_filter_subseteq.
Qed.

Lemma step_capacity (o : Op) (s : Server) :
  within_capacity s → within_capacity (step o s).1.
Proof.
  intros Hcap.
  assert (Hkeep : ∀ h : Handler, not_grown s (h s).1 →
                  ∀ sid, within_capacity (from_socket sid h s).1).
  { intros h Hh sid. unfold from_socket. destruct (connected s sid); [|done].
    by eapply not_grown_capacity. }
  destruct o as [sid now|sid a now|sid x t|sid x t|sid x t|sid p b|sid p b
                |sid p b|sid e p t|sid m p t|sid n|sid p n|sid p b|sid p b
                |sid p now|sid t0 now|sid|sid reason now|now]; simpl.
  - case_bool_decide; [done|]. by eapply not_grown_capacity; [apply not_grown_refl|].
  - unfold from_socket. destruct (connected s sid); [|done]. by apply join_room_capacity.
  - by apply Hkeep, not_grown_refl.
  - by apply Hkeep, not_grown_refl.
  - by apply Hkeep, not_grown_refl.
  - apply Hkeep. unfold user_muted. destruct (connectedUsers s !! p) eqn:Hp;
      apply not_grown_refl; simpl; try done. rewrite dom_insert_lookup_L; eauto.
  - apply Hkeep. unfold user_video_toggled. destruct (connectedUsers s !! p) eqn:Hp;
      apply not_grown_refl; simpl; try done. rewrite dom_insert_lookup_L; eauto.
  - apply Hkeep. unfold raise_hand_toggled. destruct (connectedUsers s !! p) eqn:Hp;
      apply not_grown_refl; simpl; try done. rewrite dom_insert_lookup_L; eauto.
  - apply Hkeep. unfold reaction. destruct (connectedUsers s !! p);
      by apply not_grown_refl.
  - apply Hkeep. unfold chat_message. destruct (connectedUsers s !! p);
      by apply not_grown_refl.
  - apply Hkeep. unfold host_transfer. repeat case_match;
      apply not_grown_refl; simpl; try done. by rewrite !dom_alter_L.
  - apply Hkeep. unfold rename_participant.
    destruct (connectedUsers s !! p) eqn:Hp; [|by apply not_grown_refl].
    repeat case_match; apply not_grown_refl; simpl; try done.
    rewrite dom_insert_lookup_L; eauto.
  - apply Hkeep. unfold host_mute_participant.
    destruct (connectedUsers s !! sid); [|by apply not_grown_refl].
    destruct (connectedUsers s !! p) eqn:Hp; [|by apply not_grown_refl].
    case_match; apply not_grown_refl; simpl; try done.
    rewrite dom_insert_lookup_L; eauto.
  - apply Hkeep. unfold host_toggle_video.
    destruct (connectedUsers s !! sid); [|by apply not_grown_refl].
    destruct (connectedUsers s !! p) eqn:Hp; [|by apply not_grown_refl].
    case_match; apply not_grown_refl; simpl; try done.
    rewrite dom_insert_lookup_L; eauto.
  - apply Hkeep. unfold host_remove_participant.
    destruct (connectedUsers s !! sid); [|by apply not_grown_refl].
    destruct (connectedUsers s !! p); [|by apply not_grown_refl].
    destruct (_ && _); [|by apply not_grown_refl].
    destruct (sockets s !! p); [|by apply not_grown_refl].
    pose proof (socket_disconnect_not_grown p "server namespace disconnect" now s) as Hd.
    by destruct (socket_disconnect _ _ _ _).
  - by apply Hkeep, not_grown_refl.
  - by apply Hkeep, not_grown_refl.
  - eapply not_grown_capacity; [apply socket_disconnect_not_grown|done].
  - eapply not_grown_capacity; [apply performCleanup_not_grown|done].
Qed.

(** X17: the capacity limits hold in every state the server can reach: no
    room's set holds more than fifty ids or the same id twice, and there are
    never more than a thousand participant records. *)
Theorem capacity_never_exceeded (s : Server) :
  reachable s →
  (∀ r l, rooms s !! r = Some l → NoDup l ∧ length l ≤ 50) ∧
  size (connectedUsers s) ≤ 1000.
Proof.
  intros [ops <-]. unfold run.
  apply (for_each_preserves within_capacity step ops);
    [intros; by apply step_capacity|].
  split; [apply map_Forall_empty|]. simpl. rewrite map_size_empty.
  unfold MAX_TOTAL_USERS. lia.
Qed.

(** The full room of the example holds exactly fifty. *)
Lemma capacity_never_exceeded_witness :
  let s := (run full_room initial).1 in
  length (members s "R1") ≤ 50 ∧ size (connectedUsers s) ≤ 1000.
Proof.
  intros s.
  destruct (capacity_never_exceeded s) as [H1 H2]; [by exists full_room|].
  split; [|exact H2]. unfold members.
  destruct (rooms s !! "R1") as [l|] eqn:Hl; simpl; [|lia].
  by destruct (H1 "R1" l Hl).
Defined.

(** ** What the stale scan and the preemption leave behind *)

Lemma remove_stale_fold (sid roomId : string) (now : Z) (L : list string) (s : Server) :
  let s' := (for_each (remove_stale sid roomId now) L s).1 in
  rooms s' !! roomId = filter (λ i, i ∉ L) <$> rooms s !! roomId ∧
  (∀ i, connectedUsers s' !! i
        = if decide (i ∈ L) then None else connectedUsers s !! i) ∧
  (∀ i, connectionHealth s' !! i
        = if decide (i ∈ L) then None else connectionHealth s !! i) ∧
  sockets s' = sockets s.
Proof.
  revert s. induction L as [|x L IH]; intros s; simpl.
  - repeat split; try done.
    destruct (rooms s !! roomId) as [l|]; simpl; [|done]. f_equal.
    induction l as [|y l IHl]; [done|].
    rewrite filter_cons_True by apply not_elem_of_nil. by rewrite <- IHl.
  - unfold remove_stale at 1.
    set (s1 := with_connectionHealth (delete x)
                 (with_connectedUsers (delete x)
                    (with_rooms (alter (set_delete x) roomId) s))).
    specialize (IH s1). destruct (for_each _ L s1) as [s2 out]. simpl in *.
    destruct IH as (IH1 & IH2 & IH3 & IH4). repeat split.
    + rewrite IH1, lookup_alter_eq. destruct (rooms s !! roomId) as [l|]; simpl; [|done].
      f_equal. unfold set_delete. rewrite list_filter_filter.
      apply list_filter_iff. intros i. rewrite not_elem_of_cons. tauto.
    + intros i. rewrite IH2.
      destruct (decide (i ∈ L)) as [HL|HL].
      * rewrite decide_True; [done|by right].
      * destruct (decide (i = x)) as [->|Hx].
        -- rewrite decide_True by left. apply lookup_delete_eq.
        -- rewrite decide_False by (by intros [?|?]%elem_of_cons).
           by apply lookup_delete_ne.
    + intros i. rewrite IH3.
      destruct (decide (i ∈ L)) as [HL|HL].
      * rewrite decide_True; [done|by right].
      * destruct (decide (i = x)) as [->|Hx].
        -- rewrite decide_True by left. apply lookup_delete_eq.
        -- rewrite decide_False by (by intros [?|?]%elem_of_cons).
           by apply lookup_delete_ne.
    + done.
Qed.

Lemma socketsToRemove_elem (s : Server) (sid roomId userName i : string) :
  i ∈ socketsToRemove s sid roomId userName
  ↔ i ∈ members s roomId ∧ is_stale s sid userName i = true.
Proof.
  unfold socketsToRemove, members. rewrite list_elem_of_filter.
  rewrite Is_true_true. tauto.
Qed.

(** X18: after the stale scan of a join, the room's set holds exactly the
    entries the scan did not judge stale, in their old order; every entry it
    removed has lost its participant record and its health record; every
    other record is as it was. What stays in the set, apart from the joining
    socket itself, is a connected socket whose record, if it has one, bears
    another name than the joiner's. *)
Theorem stale_scan_result (sid roomId userName : string) (now : Z) (s : Server) :
  let s' := (cleanup_room sid roomId userName now s).1 in
  (∀ i, i ∈ members s' roomId
        ↔ i ∈ members s roomId ∧ is_stale s sid userName i = false) ∧
  members s' roomId `sublist_of` members s roomId ∧
  (∀ i, i ∈ members s roomId → is_stale s sid userName i = true →
        connectedUsers s' !! i = None ∧ connectionHealth s' !! i = None) ∧
  (∀ i, i ∉ socketsToRemove s sid roomId userName →
        connectedUsers s' !! i = connectedUsers s !! i) ∧
  (∀ i, i ∈ members s' roomId → i ≠ sid →
        sockets s' !! i = Some true ∧
        ∀ u, connectedUsers s' !! i = Some u → User.name u ≠ userName).
Proof.
  intros s'. unfold s', cleanup_room.
  destruct (remove_stale_fold sid roomId now (socketsToRemove s sid roomId userName) s)
    as (Hr & Hu & Hh & Hs).
  set (L := socketsToRemove s sid roomId userName) in *.
  set (t := (for_each (remove_stale sid roomId now) L s).1) in *.
  assert (Hm : ∀ i, i ∈ members t roomId
                    ↔ i ∈ members s roomId ∧ is_stale s sid userName i = false).
  { intros i. unfold members. rewrite Hr.
    destruct (rooms s !! roomId) as [l|] eqn:Hl; simpl.
    - rewrite list_elem_of_filter. unfold L. rewrite socketsToRemove_elem.
      unfold members. rewrite Hl. simpl.
      destruct (is_stale s sid userName i); split.
      + intros [Hn Hi]. exfalso. by apply Hn.
      + by intros [_ ?].
      + by intros [_ ?].
      + intros [Hi _]. split; [|done]. by intros [_ ?].
    - split; [by intros ?%elem_of_nil|by intros [?%elem_of_nil _]]. }
  split; [exact Hm|]. split.
  { unfold members. rewrite Hr. destruct (rooms s !! roomId); simpl; [|done].
    apply sublist_filter. }
  split.
  { intros i Hi Hst. rewrite Hu, Hh.
    by rewrite !decide_True by (by apply socketsToRemove_elem). }
  split.
  { intros i Hi. rewrite Hu. by rewrite decide_False. }
  intros i [Hi Hst]%Hm Hne. rewrite Hs.
  unfold is_stale in Hst. apply orb_false_iff in Hst as [Hc Hn].
  apply negb_false_iff in Hc. split.
  { by destruct (sockets s !! i) as [[]|]. }
  intros u. rewrite Hu.
  rewrite decide_False
    by (intros [_ Hst]%socketsToRemove_elem; unfold is_stale in Hst;
        rewrite Hc in Hst; simpl in Hst; by rewrite Hn in Hst).
  intros Hui. rewrite Hui in Hn.
  apply andb_false_iff in Hn as [Hn|Hn].
  - by apply bool_decide_eq_false in Hn.
  - apply negb_false_iff, bool_decide_eq_true in Hn. done.
Qed.

Lemma preempt_one_sockets (sid userName : string) (now : Z) (oldId : string) (s : Server) :
  sockets (preempt_one sid userName now oldId s).1
  = if decide (oldId ≠ sid ∧ sockets s !! oldId = Some true)
    then delete oldId (sockets s) else sockets s.
Proof.
  unfold preempt_one. destruct (decide (oldId = sid)) as [->|Hne].
  { rewrite bool_decide_eq_false_2 by (by intros ?).
    by rewrite decide_False by (by intros [? _]). }
  rewrite bool_decide_eq_true_2 by done.
  assert (Hd : ∀ s1, sockets s1 = sockets s →
            sockets (socket_disconnect oldId "server namespace disconnect" now s1).1
            = if decide (oldId ≠ sid ∧ sockets s !! oldId = Some true)
              then delete oldId (sockets s) else sockets s).
  { intros s1 Hs. unfold socket_disconnect. rewrite Hs.
    destruct (sockets s !! oldId) as [[]|] eqn:Ho.
    - rewrite decide_True by done.
      destruct (on_disconnect_transport oldId "server namespace disconnect" now
                  (with_connectionHealth (delete oldId) (socket_close oldId s1)))
        as [-> _].
      simpl. by rewrite Hs.
    - by rewrite decide_False by (by intros [_ ?]).
    - by rewrite decide_False by (by intros [_ ?]). }
  destruct (connectedUsers s !! oldId) as [u|].
  - specialize (Hd (with_connectionHealth (delete oldId)
                      (with_connectedUsers (delete oldId)
                         (with_rooms (alter (set_delete oldId) (User.roomId u)) s)))
                   eq_refl).
    by destruct (socket_disconnect _ _ _ _).
  - specialize (Hd s eq_refl). by destruct (socket_disconnect _ _ _ _).
Qed.

Lemma preempt_fold (sid userName : string) (now : Z) (l : list string) (s : Server) :
  let r := for_each (preempt_one sid userName now) l s in
  (∀ i, connectedUsers r.1 !! i
        = if decide (i ∈ l ∧ i ≠ sid) then None else connectedUsers s !! i) ∧
  (∀ i, i ∈ l → i ≠ sid → sockets r.1 !! i ≠ Some true) ∧
  (∀ i, i ∉ l ∨ i = sid → sockets r.1 !! i = sockets s !! i) ∧
  (∀ i u, i ∈ l → i ≠ sid → connectedUsers s !! i = Some u →
          i ∉ members r.1 (User.roomId u)) ∧
  rooms_shrunk s r.1 ∧
  (NoDup l → r.2 = flat_map (preempt_notice s sid userName now) l).
Proof.
  revert s. induction l as [|x l IH]; intros s; simpl.
  { split; [|split; [|split; [|split; [|split]]]]; try done;
      try (by intros i ?%elem_of_nil); try (by intros i u ?%elem_of_nil).
    by apply rooms_shrunk_refl. }
  destruct (preempt_one_effect sid userName now x s) as (_ & _ & _ & E4 & E5 & E6).
  pose proof (preempt_one_sockets sid userName now x s) as E7.
  destruct (preempt_one sid userName now x s) as [s1 o1]. simpl in E4, E5, E6, E7.
  specialize (IH s1). destruct (for_each _ l s1) as [s2 o2]. simpl in *.
  destruct IH as (I1 & I2 & I3 & I4 & I5 & I6).
  assert (Hsh : rooms_shrunk s s1).
  { destruct (decide (x = sid)); [by apply rooms_shrunk_refl|].
    destruct (connectedUsers s !! x) as [u|].
    - by eapply rooms_shrunk_alter.
    - by apply rooms_shrunk_refl. }
  assert (Hsub : ∀ s' s'' i k, rooms_shrunk s' s'' → i ∉ members s' k → i ∉ members s'' k).
  { intros s' s'' i k Hs Hi Hi'. apply Hi. specialize (Hs k). unfold members in *.
    destruct (rooms s' !! k), (rooms s'' !! k); simpl in *; try done.
    by eapply elem_of_sublist. }
  split; [|split; [|split; [|split; [|split]]]].
  - intros i. rewrite I1, E4.
    destruct (decide (i ∈ l ∧ i ≠ sid)) as [[Hl Hn]|Hl].
    { rewrite decide_True; [done|]. split; [by right|done]. }
    destruct (decide (x = sid)) as [->|Hx].
    + rewrite decide_False; [done|].
      intros [[->|?]%elem_of_cons Hn]; [done|]. by apply Hl.
    + destruct (decide (i = x)) as [->|Hix].
      * rewrite decide_True by (split; [left|done]). apply lookup_delete_eq.
      * rewrite decide_False by (intros [[?|?]%elem_of_cons Hn]; [done|by apply Hl]).
        by apply lookup_delete_ne.
  - intros i Hi Hn. destruct (decide (i ∈ l)) as [Hl|Hl]; [by apply I2|].
    apply elem_of_cons in Hi as [->|Hi]; [|done].
    rewrite I3 by (by left). rewrite E7.
    destruct (sockets s !! x) as [[]|] eqn:Hx.
    + rewrite decide_True by done. by rewrite lookup_delete_eq.
    + rewrite decide_False by (by intros [_ ?]). by rewrite Hx.
    + rewrite decide_False by (by intros [_ ?]). by rewrite Hx.
  - intros i Hi. rewrite I3.
    2:{ destruct Hi as [Hi|Hi]; [left|by right].
        intros ?. apply Hi. by right. }
    rewrite E7. case_decide as Hd; [|done]. destruct Hd as [Hx _].
    apply lookup_delete_ne. intros ->.
    destruct Hi as [Hi|Hi]; [apply Hi; left|done].
  - intros i u Hi Hn Hu. destruct (decide (i = x)) as [->|Hix].
    + apply (Hsub s1 s2); [done|]. unfold members. rewrite E5.
      rewrite decide_False by done. rewrite Hu, lookup_alter_eq.
      destruct (rooms s !! User.roomId u) as [k|]; simpl; [|apply not_elem_of_nil].
      unfold set_delete. rewrite list_elem_of_filter. by intros [? _].
    + apply elem_of_cons in Hi as [?|Hi]; [done|]. apply I4; [done|done|].
      rewrite E4. destruct (decide (x = sid)); [done|]. by rewrite lookup_delete_ne.
  - by eapply rooms_shrunk_trans.
  - intros [Hx Hl]%NoDup_cons. rewrite (I6 Hl), E6.
    change (preempt_notice s sid userName now x
              ++ flat_map (preempt_notice s1 sid userName now) l
            = preempt_notice s sid userName now x
              ++ flat_map (preempt_notice s sid userName now) l).
    f_equal. clear -Hx E4. induction l as [|y l IHl]; simpl; [done|].
    apply not_elem_of_cons in Hx as [Hxy Hx]. rewrite (IHl Hx). f_equal.
    unfold preempt_notice. rewrite E4.
    destruct (decide (y = sid)); [done|].
    destruct (decide (x = sid)); [done|]. by rewrite lookup_delete_ne.
Qed.

(** X19: the preemption of a join, run for a name whose session set holds
    no id twice, leaves no old session of that name other than the joining
    socket with a participant record, a connected socket, or a place in the
    set of the room its record named; records and sockets of every other id,
    the joining socket included, are as before. The room of each old session
    that had a record is sent exactly one user-left with reason
    "duplicate-session", in the order of the session set, and the name's
    session set is empty afterwards. *)
Theorem preemption_result (sid userName : string) (now : Z) (l : list string) (s : Server) :
  userSessions s !! userName = Some l → NoDup l →
  let r := preempt_sessions sid userName now s in
  (∀ old, old ∈ l → old ≠ sid →
     connectedUsers r.1 !! old = None ∧ sockets r.1 !! old ≠ Some true ∧
     ∀ u, connectedUsers s !! old = Some u → old ∉ members r.1 (User.roomId u)) ∧
  (∀ i, i ∉ l ∨ i = sid →
     connectedUsers r.1 !! i = connectedUsers s !! i ∧
     sockets r.1 !! i = sockets s !! i) ∧
  r.2 = flat_map (preempt_notice s sid userName now) l ∧
  userSessions r.1 !! userName = Some [].
Proof.
  intros Hl Hnd r. unfold r, preempt_sessions. rewrite Hl.
  case_bool_decide as Hlen; simpl.
  { destruct l; [|done]. split; [|split; [|split]]; try done.
    by intros ? ?%elem_of_nil. }
  destruct (preempt_fold sid userName now l s) as (F1 & F2 & F3 & F4 & _ & F6).
  pose proof (for_each_preserves
                (λ s', userSessions s' = userSessions s ∧ roomHosts s' = roomHosts s ∧
                       roomCreators s' = roomCreators s ∧
                       connectedUsers s' ⊆ connectedUsers s ∧ rooms_shrunk s s')
                (preempt_one sid userName now) l
                (λ x s', preempt_one_keeps sid userName now x s s') s) as Hk.
  destruct (for_each _ l s) as [s1 out]. simpl in *.
  destruct Hk as (H1 & _).
  { repeat split; try done. by apply rooms_shrunk_refl. }
  split; [|split; [|split]].
  - intros old Ho Hn. split; [|split].
    + rewrite F1. by rewrite decide_True.
    + by apply F2.
    + intros u Hu. by apply (F4 old u).
  - intros i Hi. split; [|by apply F3].
    rewrite F1. rewrite decide_False; [done|].
    intros [? ?]. by destruct Hi.
  - by apply F6.
  - by rewrite lookup_alter_eq, H1, Hl.
Qed.

Lemma preemption_result_witness :
  let s := (run second_tab initial).1 in
  let r := preempt_sessions "a2" "Alice" 5 s in
  connectedUsers r.1 !! "a" = None ∧
  r.2 = [(ToRoom "R1", UserLeft "a" "Alice" 5 "duplicate-session")].
Proof.
  intros s r.
  destruct (preemption_result "a2" "Alice" 5 ["a"] s) as (H1 & _ & H3 & _).
  - vm_compute. reflexivity.
  - apply NoDup_singleton.
  - split.
    + apply (H1 "a"); [left|done].
    + exact H3.
Defined.

(** ** Participant records and room sets *)

Lemma records_kept_listed (s s' : Server) :
  records_kept s s' → records_listed s → records_listed s'.
Proof.
  intros [K1 K2] Hl i u' Hu'. destruct (K1 i u' Hu') as (u & Hu & Hid & Hr).
  destruct (Hl i u Hu) as [Hi Hm]. split; [congruence|].
  rewrite Hr. apply K2; [by eexists|done].
Qed.

Lemma records_kept_trans (s1 s2 s3 : Server) :
  records_kept s1 s2 → records_kept s2 s3 → records_kept s1 s3.
Proof.
  intros [A1 A2] [B1 B2]. split.
  - intros i u3 H3. destruct (B1 i u3 H3) as (u2 & H2 & ? & ?).
    destruct (A1 i u2 H2) as (u1 & H1 & ? & ?). exists u1.
    split; [done|]. split; congruence.
  - intros i k [u3 H3] Hm. apply B2; [by eexists|]. apply A2; [|done].
    destruct (B1 i u3 H3) as (u2 & H2 & _). by eexists.
Qed.

Lemma records_kept_same (s s' : Server) :
  (∀ i u', connectedUsers s' !! i = Some u' →
     ∃ u, connectedUsers s !! i = Some u ∧ User.id u' = User.id u ∧
          User.roomId u' = User.roomId u) →
  rooms s' = rooms s → records_kept s s'.
Proof. intros H1 Hr. split; [done|]. intros i k _. unfold members. by rewrite Hr. Qed.

Lemma records_kept_refl (s s' : Server) :
  connectedUsers s' = connectedUsers s → rooms s' = rooms s → records_kept s s'.
Proof.
  intros Hu Hr. apply records_kept_same; [|done].
  intros i u' H. rewrite Hu in H. eauto.
Qed.

Lemma records_kept_delete (s s' : Server) (x k : string) :
  connectedUsers s' = delete x (connectedUsers s) →
  rooms s' = alter (set_delete x) k (rooms s) → records_kept s s'.
Proof.
  intros Hu Hr. split.
  - intros i u'. rewrite Hu. intros [_ H]%lookup_delete_Some. eauto.
  - intros i k' [u' Hi]. rewrite Hu in Hi. apply lookup_delete_Some in Hi as [Hne _].
    unfold members. rewrite Hr, lookup_alter. case_decide; [subst|done].
    destruct (rooms s !! k'); simpl; [|done]. intros Hm.
    unfold set_delete. by apply list_elem_of_filter.
Qed.

Lemma records_kept_insert (s s' : Server) (p : string) (u v : User.t) :
  connectedUsers s' = <[p := v]> (connectedUsers s) → rooms s' = rooms s →
  connectedUsers s !! p = Some u →
  User.id v = User.id u → User.roomId v = User.roomId u → records_kept s s'.
Proof.
  intros Hu Hr Hp Hid Hroom. apply records_kept_same; [|done].
  intros i u'. rewrite Hu. destruct (decide (i = p)) as [->|Hne].
  - rewrite lookup_insert_eq. intros [= <-]. eauto.
  - rewrite lookup_insert_ne by done. eauto.
Qed.

Lemma alter_same_place (f : User.t → User.t) (m : gmap string User.t) (k i : string) (u' : User.t) :
  (∀ u, User.id (f u) = User.id u ∧ User.roomId (f u) = User.roomId u) →
  alter f k m !! i = Some u' →
  ∃ u, m !! i = Some u ∧ User.id u' = User.id u ∧ User.roomId u' = User.roomId u.
Proof.
  intros Hf. rewrite lookup_alter. case_decide; [subst|eauto].
  destruct (m !! i) as [u|]; simpl; [|done]. intros [= <-].
  exists u. split; [done|]. apply Hf.
Qed.

Lemma for_each_kept {A : Type} (f : A → Handler) (l : list A) :
  (∀ x s, records_kept s (f x s).1) → ∀ s, records_kept s (for_each f l s).1.
Proof.
  intros Hf s. apply (for_each_preserves (records_kept s) f l).
  - intros x s' Hs'. eapply records_kept_trans; [exact Hs'|apply Hf].
  - by apply records_kept_refl.
Qed.

Lemma preempt_one_kept (sid userName : string) (now : Z) (oldId : string) (s : Server) :
  records_kept s (preempt_one sid userName now oldId s).1.
Proof.
  destruct (preempt_one_effect sid userName now oldId s) as (_ & _ & _ & E4 & E5 & _).
  destruct (decide (oldId = sid)); [by apply records_kept_refl|].
  destruct (connectedUsers s !! oldId) as [u|] eqn:Hu.
  - by eapply records_kept_delete.
  - apply records_kept_refl; [|done]. rewrite E4. by apply delete_id.
Qed.

Lemma preempt_sessions_kept (sid userName : string) (now : Z) (s : Server) :
  records_kept s (preempt_sessions sid userName now s).1.
Proof.
  unfold preempt_sessions.
  destruct (userSessions s !! userName) as [l|]; [|by apply records_kept_refl].
  destruct (negb _); [|by apply records_kept_refl].
  pose proof (for_each_kept (preempt_one sid userName now) l
                (preempt_one_kept sid userName now) s) as Hk.
  by destruct (for_each _ l s).
Qed.

Lemma cleanup_room_kept (sid roomId userName : string) (now : Z) (s : Server) :
  records_kept s (cleanup_room sid roomId userName now s).1.
Proof.
  unfold cleanup_room. apply for_each_kept. intros x s'.
  by eapply records_kept_delete.
Qed.

Lemma disconnect_elect_kept (sid : string) (user : User.t) (l : list string) (s : Server) :
  rooms (disconnect_elect sid user l s).1 = rooms s ∧
  (∀ i u', connectedUsers (disconnect_elect sid user l s).1 !! i = Some u' →
     ∃ u, connectedUsers s !! i = Some u ∧ User.id u' = User.id u ∧
          User.roomId u' = User.roomId u).
Proof.
  unfold disconnect_elect.
  destruct (User.isHost user && _); [|split; eauto].
  destruct (head l) as [n|]; [|split; eauto].
  destruct (connectedUsers s !! n) as [nh|] eqn:Hn; [|split; eauto].
  simpl. split; [done|]. intros i u'. destruct (decide (i = n)) as [->|Hne].
  - rewrite lookup_insert_eq. intros [= <-]. eauto.
  - rewrite lookup_insert_ne by done. eauto.
Qed.

Lemma on_disconnect_kept (sid reason : string) (now : Z) (s : Server) :
  records_kept s (on_disconnect sid reason now s).1.
Proof.
  unfold on_disconnect.
  destruct (connectedUsers s !! sid) as [user|] eqn:Hu; [|by apply records_kept_refl].
  destruct (disconnect_sessions_other sid user s) as (Hu0 & Hr0 & _).
  set (s0 := disconnect_sessions sid user s) in *.
  assert (Hroom :
    (∀ i u', connectedUsers (disconnect_room sid user s0).1 !! i = Some u' →
       ∃ u, connectedUsers s !! i = Some u ∧ User.id u' = User.id u ∧
            User.roomId u' = User.roomId u) ∧
    (∀ i k, i ≠ sid → i ∈ members s k →
            i ∈ members (disconnect_room sid user s0).1 k)).
  { unfold disconnect_room. rewrite Hr0.
    destruct (rooms s !! User.roomId user) as [l|] eqn:Hl.
    2:{ simpl. split.
        - intros i u'. rewrite Hu0. eauto.
        - intros i k _. unfold members. by rewrite Hr0. }
    destruct (disconnect_elect_kept sid user (set_delete sid l)
                (with_rooms (<[User.roomId user := set_delete sid l]>) s0))
      as [Er Eu].
    destruct (disconnect_elect _ _ _ _) as [s1 out]. simpl in Er, Eu.
    rewrite Hu0 in Eu. rewrite Hr0 in Er.
    destruct (bool_decide (length (set_delete sid l) = 0)) eqn:Hlen; simpl.
    - apply bool_decide_eq_true_1 in Hlen. split; [exact Eu|].
      intros i k Hne. unfold members. simpl.
      destruct (decide (k = User.roomId user)) as [->|Hk].
      + rewrite Hl. simpl. intros Hi.
        assert (Hin : i ∈ set_delete sid l)
          by (unfold set_delete; by apply list_elem_of_filter).
        destruct (set_delete sid l); [by apply elem_of_nil in Hin|done].
      + by rewrite lookup_delete_ne, Er, lookup_insert_ne.
    - split; [exact Eu|].
      intros i k Hne. unfold members. rewrite Er.
      destruct (decide (k = User.roomId user)) as [->|Hk].
      + rewrite Hl, lookup_insert_eq. simpl. intros Hi.
        unfold set_delete. by apply list_elem_of_filter.
      + by rewrite lookup_insert_ne. }
  destruct Hroom as [R1 R2].
  destruct (disconnect_room sid user s0) as [s1 out]. simpl in *.
  split; simpl.
  - intros i u' [Hne Hi]%lookup_delete_Some. by apply R1.
  - intros i k [u' [Hne _]%lookup_delete_Some] Hm. by apply R2.
Qed.

Lemma socket_disconnect_kept (sid reason : string) (now : Z) (s : Server) :
  records_kept s (socket_disconnect sid reason now s).1.
Proof.
  unfold socket_disconnect.
  destruct (sockets s !! sid) as [[]|]; try (by apply records_kept_refl).
  apply (on_disconnect_kept sid reason now
           (with_connectionHealth (delete sid) (socket_close sid s))).
Qed.

Lemma performCleanup_kept (now : Z) (s : Server) :
  records_kept s (performCleanup now s).
Proof.
  split.
  - intros i u'. unfold performCleanup. simpl.
    intros [H _]%map_lookup_filter_Some. eauto.
  - intros i k _ Hm. unfold members in *.
    destruct (rooms s !! k) as [l|] eqn:Hl; simpl in Hm; [|by apply elem_of_nil in Hm].
    assert (rooms (performCleanup now s) !! k = Some l) as ->; [|done].
    apply performCleanup_rooms. split; [done|]. intros ->. by apply elem_of_nil in Hm.
Qed.

Lemma get_or_create_room_kept (roomId : string) (userId : option string) (s : Server) :
  records_kept s (get_or_create_room roomId userId s).
Proof.
  destruct (get_or_create_room_members roomId userId s) as (_ & Hm & Hu & _).
  split.
  - intros i u'. rewrite Hu. eauto.
  - intros i k _. destruct (decide (k = roomId)) as [->|Hk]; [by rewrite Hm|].
    unfold get_or_create_room, members. destruct (rooms s !! roomId); [done|].
    destruct userId as [u|]; [destruct (truthy u)|]; simpl;
      by rewrite lookup_insert_ne.
Qed.

Lemma enter_room_others (sid roomId userName : string) (userId : option string) (now : Z) (s : Server) (i : string) (u' : User.t) :
  i ≠ sid →
  connectedUsers (enter_room sid roomId userName userId now s).1 !! i = Some u' →
  ∃ u, connectedUsers s !! i = Some u ∧ User.id u' = User.id u ∧
       User.roomId u' = User.roomId u.
Proof.
  intros Hne. unfold enter_room.
  set (isCreator := match userId with
                    | Some u => truthy u && bool_decide (roomCreators s !! roomId = Some u)
                    | None => false
                    end).
  set (isRoomCreator := bool_decide (length (default [] (rooms s !! roomId)) = 0)).
  set (currentHostExists := match roomHosts s !! roomId with
                            | Some h => truthy h && bool_decide (is_Some (connectedUsers s !! h))
                            | None => false
                            end).
  destruct (isCreator || isRoomCreator || negb currentHostExists); simpl.
  - destruct (roomHosts s !! roomId) as [h0|]; simpl.
    + destruct (isCreator && currentHostExists && negb (bool_decide (h0 = sid))); simpl.
      * intros Hi. apply alter_same_place in Hi; [|done].
        by rewrite lookup_insert_ne in Hi.
      * rewrite lookup_insert_ne by done. eauto.
    + rewrite lookup_insert_ne by done. eauto.
  - rewrite lookup_insert_ne by done. eauto.
Qed.

Lemma enter_room_listed (sid roomId userName : string) (userId : option string) (now : Z) (s : Server) :
  records_listed s → records_listed (enter_room sid roomId userName userId now s).1.
Proof.
  intros Hl i u' Hu'.
  destruct (enter_room_effect sid roomId userName userId now s)
    as (h & Hsid & _ & _ & Hr & _).
  destruct (decide (i = sid)) as [->|Hne].
  - rewrite Hsid in Hu'. injection Hu' as <-. split; [done|].
    unfold members at 1. rewrite Hr. cbn [User.roomId].
    rewrite lookup_insert_eq. simpl. apply set_add_elem. by left.
  - destruct (enter_room_others _ _ _ _ _ _ i u' Hne Hu') as (u & Hu & Hid & Hroom).
    destruct (Hl i u Hu) as [Hi Hm]. split; [congruence|].
    rewrite Hroom. unfold members at 1. rewrite Hr.
    destruct (decide (roomId = User.roomId u)) as [Heq|Hk].
    + rewrite <- Heq, lookup_insert_eq. simpl. apply set_add_elem.
      right. by rewrite Heq.
    + by rewrite lookup_insert_ne.
Qed.

Lemma join_accepted_listed (sid roomId userName : string) (userId : option string) (now : Z) (s : Server) :
  records_listed s → records_listed (join_accepted sid roomId userName userId now s).1.
Proof.
  intros Hl. unfold join_accepted.
  pose proof (preempt_sessions_kept sid userName now s) as K1.
  destruct (preempt_sessions sid userName now s) as [s1 o1].
  set (s2 := socket_join sid roomId (add_session sid userName s1)).
  pose proof (cleanup_room_kept sid roomId userName now s2) as K2.
  destruct (cleanup_room sid roomId userName now s2) as [s3 o2].
  pose proof (enter_room_listed sid roomId userName userId now s3) as K3.
  destruct (enter_room sid roomId userName userId now s3) as [s4 o3]. simpl in *.
  apply K3. eapply records_kept_listed; [exact K2|].
  assert (K0 : records_kept s1 s2) by (apply records_kept_refl; reflexivity).
  eapply records_kept_listed; [exact K0|]. exact (records_kept_listed _ _ K1 Hl).
Qed.

Lemma join_room_listed (sid : string) (a : JoinRoom.t) (now : Z) (s : Server) :
  records_listed s → records_listed (join_room sid a now s).1.
Proof.
  intros Hl. unfold join_room.
  destruct (JoinRoom.roomId a) as [roomId|], (JoinRoom.userName a) as [userName|];
    try done.
  destruct (negb (truthy roomId) || negb (truthy userName)); [done|].
  destruct (includes "-" userName && bool_decide (10 < js_length userName));
    [done|].
  destruct (bool_decide (MAX_TOTAL_USERS ≤ size (connectedUsers s))); [done|].
  pose proof (records_kept_listed _ _
                (get_or_create_room_kept roomId (JoinRoom.userId a) s) Hl) as Hl0.
  destruct (bool_decide (MAX_ROOM_SIZE ≤ _)); [done|].
  by apply join_accepted_listed.
Qed.

Lemma step_listed (o : Op) (s : Server) :
  records_listed s → records_listed (step o s).1.
Proof.
  intros Hl.
  assert (Hkeep : ∀ h : Handler, records_kept s (h s).1 →
                  ∀ sid, records_listed (from_socket sid h s).1).
  { intros h Hh sid. unfold from_socket. destruct (connected s sid); [|done].
    by eapply records_kept_listed. }
  destruct o as [sid now|sid a now|sid x t|sid x t|sid x t|sid p b|sid p b
                |sid p b|sid e p t|sid m p t|sid n|sid p n|sid p b|sid p b
                |sid p now|sid t0 now|sid|sid reason now|now]; simpl.
  - case_bool_decide; [done|].
    by eapply records_kept_listed; [apply records_kept_refl|].
  - unfold from_socket. destruct (connected s sid); [|done]. by apply join_room_listed.
  - by apply Hkeep, records_kept_refl.
  - by apply Hkeep, records_kept_refl.
  - by apply Hkeep, records_kept_refl.
  - apply Hkeep. unfold user_muted.
    destruct (connectedUsers s !! p) as [u|] eqn:Hp; [|by apply records_kept_refl].
    by apply (records_kept_insert s _ p u (User.set_isMuted b u)).
  - apply Hkeep. unfold user_video_toggled.
    destruct (connectedUsers s !! p) as [u|] eqn:Hp; [|by apply records_kept_refl].
    by apply (records_kept_insert s _ p u (User.set_isVideoOff b u)).
  - apply Hkeep. unfold raise_hand_toggled.
    destruct (connectedUsers s !! p) as [u|] eqn:Hp; [|by apply records_kept_refl].
    by apply (records_kept_insert s _ p u (User.set_isRaiseHand b u)).
  - apply Hkeep. unfold reaction. destruct (connectedUsers s !! p);
      by apply records_kept_refl.
  - apply Hkeep. unfold chat_message. destruct (connectedUsers s !! p);
      by apply records_kept_refl.
  - apply Hkeep. unfold host_transfer.
    destruct (connectedUsers s !! sid) as [c|]; [|by apply records_kept_refl].
    destruct (connectedUsers s !! n) as [nh|]; [|by apply records_kept_refl].
    destruct (_ && _); [|by apply records_kept_refl].
    apply records_kept_same; [|done]. simpl. intros i u' Hi.
    apply alter_same_place in Hi as (u1 & Hi & Hid1 & Hr1); [|done].
    apply alter_same_place in Hi as (u & Hi & Hid & Hr); [|done].
    exists u. split; [done|]. split; congruence.
  - apply Hkeep. unfold rename_participant.
    destruct (connectedUsers s !! p) as [u|] eqn:Hp; [|by apply records_kept_refl].
    destruct (connectedUsers s !! sid); [|by apply records_kept_refl].
    destruct (_ && _); [|by apply records_kept_refl].
    by apply (records_kept_insert s _ p u (User.set_name n u)).
  - apply Hkeep. unfold host_mute_participant.
    destruct (connectedUsers s !! sid); [|by apply records_kept_refl].
    destruct (connectedUsers s !! p) as [u|] eqn:Hp; [|by apply records_kept_refl].
    destruct (_ && _); [|by apply records_kept_refl].
    by apply (records_kept_insert s _ p u (User.set_isMuted b u)).
  - apply Hkeep. unfold host_toggle_video.
    destruct (connectedUsers s !! sid); [|by apply records_kept_refl].
    destruct (connectedUsers s !! p) as [u|] eqn:Hp; [|by apply records_kept_refl].
    destruct (_ && _); [|by apply records_kept_refl].
    by apply (records_kept_insert s _ p u (User.set_isVideoOff b u)).
  - apply Hkeep. unfold host_remove_participant.
    destruct (connectedUsers s !! sid); [|by apply records_kept_refl].
    destruct (connectedUsers s !! p); [|by apply records_kept_refl].
    destruct (_ && _); [|by apply records_kept_refl].
    destruct (sockets s !! p); [|by apply records_kept_refl].
    pose proof (socket_disconnect_kept p "server namespace disconnect" now s) as Hd.
    by destruct (socket_disconnect _ _ _ _).
  - by apply Hkeep, records_kept_refl.
  - by apply Hkeep, records_kept_refl.
  - eapply records_kept_listed; [apply socket_disconnect_kept|done].
  - eapply records_kept_listed; [apply performCleanup_kept|done].
Qed.

(** X20: in every state the server can reach, a participant record is stored
    under the id it carries, and the room it names exists and lists that id
    in its set. (The converse fails: a room's set can list ids that have no
    record.) *)
Theorem record_is_listed_in_its_room (s : Server) (i : string) (u : User.t) :
  reachable s →
  connectedUsers s !! i = Some u →
  User.id u = i ∧
  ∃ l, rooms s !! User.roomId u = Some l ∧ i ∈ l.
Proof.
  intros [ops <-] Hu.
  assert (Hl : records_listed (run ops initial).1).
  { unfold run. apply (for_each_preserves records_listed step ops);
      [intros; by apply step_listed|].
    intros j v Hj. simpl in Hj. by rewrite lookup_empty in Hj. }
  destruct (Hl i u Hu) as [Hid Hm]. split; [done|].
  unfold members in Hm.
  destruct (rooms (run ops initial).1 !! User.roomId u) as [l|]; simpl in Hm.
  - by exists l.
  - by apply elem_of_nil in Hm.
Qed.

(** Bob, who joined R1 and then R2 from the same socket, has one record; it
    names R2, and R2 lists him. *)
Lemma record_is_listed_in_its_room_witness :
  let s := (run member_hops initial).1 in
  ∃ u, connectedUsers s !! "b" = Some u ∧ User.roomId u = "R2" ∧
       ∃ l, rooms s !! User.roomId u = Some l ∧ "b" ∈ l.
Proof.
  intros s.
  exists (User.mk "b" "Bob" "R2" 4 4 online false false true false).
  assert (Hu : connectedUsers s !! "b"
               = Some (User.mk "b" "Bob" "R2" 4 4 online false false true false))
    by (vm_compute; reflexivity).
  split; [exact Hu|]. split; [reflexivity|].
  destruct (record_is_listed_in_its_room s "b" _ (ex_intro _ member_hops eq_refl) Hu)
    as [_ H].
  exact H.
Defined.
